(** * Verification of the WalletCoinfluence analytics, confluence and paper-trading core

    Shallow embedding of the Python sources of the repository:
    - [src/analytics/pnl.py]            FIFO realized / unrealized P&L
    - [src/alerts/confluence.py]        Redis-backed confluence detector
    - [src/analytics/paper_trading.py]  paper trading tracker
    - [src/monitoring/position_manager.py], [src/scheduler/position_manager.py]
                                        exit rules per mark cycle
    - [src/monitoring/wallet_monitor.py] paper entry policy on confluence
    - [src/ingest/wallet_discovery.py]  trade insertion keyed by tx_hash
    - [src/analytics/early.py]          EarlyScore

    Python floats are modelled by exact rationals [Q]. The Redis sorted
    sets and the [trades] table are stdpp's [gmap string]; the tracker's
    [positions] dict, whose iteration order the managers depend on, is an
    association list in insertion order. The wall clock
    ([datetime.utcnow()]) and the price router are explicit inputs. *)

From Stdlib Require Import QArith Qabs Qminmax Lqa Sorted.
From stdpp Require Import base list gmap strings pretty.

Open Scope Q_scope.

(** Boolean comparisons on [Q] as the Python operators use them. *)
Definition Qltb (x y : Q) : bool := negb (Qle_bool y x).
Definition Qeqb (x y : Q) : bool := Qeq_bool x y.


(* ------------------------------------------------------------------ *)
(** ** FIFO P&L ([FIFOPnLCalculator._calculate_token_pnl]) *)
(* ------------------------------------------------------------------ *)

Module Pnl.

(** The columns of a [Trade] row that the P&L engine reads. *)
Record Trade := mkTrade {
  side : string;
  qty_token : Q;
  price_usd : Q;
  usd_value : Q;
  fee_usd : option Q;   (** nullable column; [trade.fee_usd or 0] *)
}.

(** [(trade.fee_usd or 0)] *)
Definition fee_or_zero (t : Trade) : Q :=
  match fee_usd t with Some f => f | None => 0 end.

(** A FIFO lot: [(qty, price, cost_basis)]. *)
Definition Lot : Type := (Q * Q * Q)%type.

Definition lot_qty (l : Lot) : Q := fst (fst l).
Definition lot_price (l : Lot) : Q := snd (fst l).
Definition lot_cost (l : Lot) : Q := snd l.

(** The [while sell_qty > 0 and buy_queue:] loop of a sell. [total] is
    [trade.qty_token], [proceeds] is [sell_proceeds]. Each iteration either
    pops the head lot or ends the loop, so the recursion follows the queue.
    The result is the new queue and the new [realized_pnl]. *)
Fixpoint match_lots (total proceeds sell_qty : Q) (queue : list Lot)
    (realized : Q) : list Lot * Q :=
  if Qltb 0 sell_qty then
    match queue with
    | [] => ([], realized)
    | (buy_qty, buy_price, buy_cost) :: rest =>
        if Qle_bool buy_qty sell_qty then
          (* Consume entire buy *)
          let proportion := buy_qty / total in
          match_lots total proceeds (sell_qty - buy_qty) rest
            (realized + (proceeds * proportion - buy_cost))
        else
          (* Partial buy *)
          let proportion := sell_qty / total in
          let cost_proportion := (sell_qty / buy_qty) * buy_cost in
          ((buy_qty - sell_qty, buy_price, buy_cost - cost_proportion) :: rest,
           realized + (proceeds * proportion - cost_proportion))
    end
  else (queue, realized).

(** One iteration of [for trade in trades:]. *)
Definition process_trade (st : list Lot * Q) (t : Trade) : list Lot * Q :=
  let '(queue, realized) := st in
  if String.eqb (side t) "buy" then
    let cost := usd_value t + fee_or_zero t in
    (queue ++ [(qty_token t, price_usd t, cost)], realized)
  else if String.eqb (side t) "sell" then
    let sell_proceeds := usd_value t - fee_or_zero t in
    match_lots (qty_token t) sell_proceeds (qty_token t) queue realized
  else st.

(** The FIFO pass over the trade list, from an empty queue. *)
Definition fifo_run (trades : list Trade) : list Lot * Q :=
  fold_left process_trade trades ([], 0).

(** The mark price: the price router is only asked when lots remain
    ([None] models an exception, [Some 0] all sources failing); both fall
    back to the last trade's price. *)
Definition mark_price (trades : list Trade) (queue : list Lot)
    (fetched : option Q) : Q :=
  let last := match last trades with Some t => price_usd t | None => 0 end in
  match queue with
  | [] => 0
  | _ :: _ =>
      match fetched with
      | Some p => if Qeqb p 0 then last else p
      | None => last
      end
  end.

(** [for qty, buy_price, cost_basis in buy_queue: unrealized += qty*price - cost] *)
Definition unrealized_of (queue : list Lot) (price : Q) : Q :=
  fold_left (fun acc l => acc + (lot_qty l * price - lot_cost l)) queue 0.

(** [_calculate_token_pnl]: realized, unrealized and the remaining lots
    (the lots are what [_update_position] persists). *)
Definition calculate_token_pnl (trades : list Trade) (fetched : option Q)
    : Q * Q * list Lot :=
  match trades with
  | [] => (0, 0, [])
  | _ :: _ =>
      let '(queue, realized) := fifo_run trades in
      let price := mark_price trades queue fetched in
      (realized, unrealized_of queue price, queue)
  end.

Definition sum_qty (q : list Lot) : Q := fold_right (fun l acc => lot_qty l + acc) 0 q.
Definition sum_cost (q : list Lot) : Q := fold_right (fun l acc => lot_cost l + acc) 0 q.

(** The lots left by a sell: a suffix of the queue, possibly with its head
    lot partly consumed (cost prorated by quantity). *)
Definition fifo_remainder (q q' : list Lot) : Prop :=
  (exists n, q' = drop n q) \/
  (exists n bq bp bc rest k,
      drop n q = (bq, bp, bc) :: rest /\ 0 < k /\ k < bq /\
      q' = (bq - k, bp, bc - k / bq * bc) :: rest).

Definition lots_nonneg (q : list Lot) : Prop := Forall (fun l => 0 <= lot_qty l) q.

Definition buy (qty price value fee : Q) : Trade := mkTrade "buy" qty price value (Some fee).
Definition sell (qty price value fee : Q) : Trade := mkTrade "sell" qty price value (Some fee).

(** Spec scenario: [buy 100 @ $1 (fee $1)], then [sell 100 @ $2 (fee $2)]. *)
Definition scenario_fee : list Trade := [buy 100 1 100 1; sell 100 2 200 2].

(** Spec scenario: [buy 100 @ $1], [buy 100 @ $2], [sell 150 @ $3]. *)
Definition scenario_two_lots : list Trade :=
  [buy 100 1 100 0; buy 100 2 200 0; sell 150 3 450 0].

(** ** Wallet level ([calculate_wallet_pnl], [get_best_trade_multiple]) *)

(** A queried trade row together with its [token_address]. *)
Definition TokTrade : Type := (string * Trade)%type.

(** One iteration of the grouping loop
    [if trade.token_address not in trades_by_token: ... = []] then
    [trades_by_token[trade.token_address].append(trade)]; the dict keeps
    its keys in order of first insertion. *)
Fixpoint group_add (k : string) (t : Trade) (g : list (string * list Trade))
    : list (string * list Trade) :=
  match g with
  | [] => [(k, [t])]
  | (k', ts) :: r =>
      if String.eqb k k' then (k', ts ++ [t]) :: r else (k', ts) :: group_add k t r
  end.

Definition group_by_token (trades : list TokTrade) : list (string * list Trade) :=
  fold_left (fun g kt => group_add (fst kt) (snd kt) g) trades [].

(** One iteration of [for token_address, token_trades in trades_by_token.items():]. *)
Definition wallet_pnl_step (fetched : string -> option Q) (acc : Q * Q)
    (kg : string * list Trade) : Q * Q :=
  let '(total_realized, total_unrealized) := acc in
  let '(realized, unrealized, _) := calculate_token_pnl (snd kg) (fetched (fst kg)) in
  (total_realized + realized, total_unrealized + unrealized).

(** [calculate_wallet_pnl]: the trades of the wallet in the period,
    ordered by [ts]; [fetched k] is the price router's answer for token [k].
    Result: [(realized_pnl, unrealized_pnl, total_pnl)]. *)
Definition calculate_wallet_pnl (trades : list TokTrade)
    (fetched : string -> option Q) : Q * Q * Q :=
  let '(total_realized, total_unrealized) :=
    fold_left (wallet_pnl_step fetched) (group_by_token trades) (0, 0) in
  (total_realized, total_unrealized, total_realized + total_unrealized).

(** [sum(t.price_usd for t in ts) / len(ts)] *)
Definition avg_price (ts : list Trade) : Q :=
  fold_left (fun s t => s + price_usd t) ts 0 / inject_Z (Z.of_nat (length ts)).

(** The multiple a token group contributes: none when it lacks buys or
    sells ([continue]) or when [avg_buy_price > 0] fails. *)
Definition token_multiple (ts : list Trade) : option Q :=
  let buys := List.filter (fun t => String.eqb (side t) "buy") ts in
  let sells := List.filter (fun t => String.eqb (side t) "sell") ts in
  match buys, sells with
  | [], _ | _, [] => None
  | _, _ =>
      let avg_buy_price := avg_price buys in
      let avg_sell_price := avg_price sells in
      if Qltb 0 avg_buy_price then Some (avg_sell_price / avg_buy_price) else None
  end.

(** One iteration of [for token_trades in trades_by_token.values():];
    [max(best_multiple, multiple)] returns its second argument only when
    it is strictly larger. *)
Definition best_multiple_step (best_multiple : Q) (kg : string * list Trade) : Q :=
  match token_multiple (snd kg) with
  | Some multiple => if Qltb best_multiple multiple then multiple else best_multiple
  | None => best_multiple
  end.

Definition get_best_trade_multiple (trades : list TokTrade) : Q :=
  fold_left best_multiple_step (group_by_token trades) 1.

(** The tokens of a trade list in order of their first trade, and the
    trades of one token in list order. *)
Definition first_seen_tokens (trades : list TokTrade) : list string :=
  fold_left (fun ks kt => if existsb (String.eqb (fst kt)) ks then ks else ks ++ [fst kt])
    trades [].

Definition trades_of (trades : list TokTrade) (k : string) : list Trade :=
  map snd (List.filter (fun kt => String.eqb (fst kt) k) trades).

Definition sum_Q (l : list Q) : Q := fold_right Qplus 0 l.

End Pnl.

(* ------------------------------------------------------------------ *)
(** ** Confluence detector ([src/alerts/confluence.py]) *)
(* ------------------------------------------------------------------ *)

Module Confluence.

(** A sorted-set member: the dict [{"wallet", "ts", "side", **metadata}]
    that [record_trade] serialises with [json.dumps]; its score is [ts].
    Metadata values are kept as their JSON text. *)
Record Entry := mkEntry {
  e_wallet : string;
  e_ts : Q;
  e_side : string;
  e_meta : list (string * string);
}.

Definition entry_eqb (a b : Entry) : bool :=
  String.eqb (e_wallet a) (e_wallet b) && Qeqb (e_ts a) (e_ts b)
  && String.eqb (e_side a) (e_side b)
  && bool_decide (e_meta a = e_meta b).

(** A Redis sorted set together with the key's expiry deadline. *)
Record ZSet := mkZSet {
  zmembers : list Entry;
  zexpire : option Q;
}.

Abbreviation Store := (gmap string ZSet).

(** [f"confluence:{side}:{chain_id}:{token_address}"] *)
Definition key_of (side chain token : string) : string :=
  "confluence:" +:+ side +:+ ":" +:+ chain +:+ ":" +:+ token.

Definition expired (z : ZSet) (now : Q) : bool :=
  match zexpire z with Some d => Qle_bool d now | None => false end.

(** The members of a key at time [now]; an expired key no longer exists. *)
Definition live (st : Store) (key : string) (now : Q) : list Entry :=
  match st !! key with
  | Some z => if expired z now then [] else zmembers z
  | None => []
  end.

(** [ZADD key {member: score}]: the score of a member is its [ts], so
    re-adding an existing member changes nothing. *)
Definition zadd_member (e : Entry) (ms : list Entry) : list Entry :=
  if existsb (entry_eqb e) ms then ms else ms ++ [e].

(** [EXPIRE key ttl]: a non-positive timeout deletes the key. *)
Definition expire_key (st : Store) (key : string) (now ttl : Q) : Store :=
  if Qle_bool ttl 0 then delete key st
  else match st !! key with
       | Some z => <[key := mkZSet (zmembers z) (Some (now + ttl))]> st
       | None => st
       end.

(** [record_trade]: [now] is [datetime.utcnow().timestamp()]. *)
Definition record_trade (window_minutes : Z) (st : Store) (now : Q)
    (token chain wallet side : string) (metadata : list (string * string))
    : Store :=
  let key := key_of side chain token in
  let value := mkEntry wallet now side metadata in
  let st1 := <[key := mkZSet (zadd_member value (live st key now))
                             (match st !! key with
                              | Some z => if expired z now then None else zexpire z
                              | None => None end)]> st in
  expire_key st1 key now (inject_Z window_minutes * 60 + 300).

(** Order of members with equal scores. Redis orders them by the bytes of
    the serialised member; members with the same score share the same
    [ts] text, so the order is decided by the remaining fields, written
    here in the order [json.dumps] emits them. *)
Definition dq : string := String (Ascii.ascii_of_nat 34) EmptyString.

Definition member_order_key (e : Entry) : string :=
  "{" +:+ dq +:+ "wallet" +:+ dq +:+ ": " +:+ dq +:+ e_wallet e +:+ dq +:+ ", "
  +:+ dq +:+ "side" +:+ dq +:+ ": " +:+ dq +:+ e_side e +:+ dq
  +:+ String.concat "" (map (fun kv => ", " +:+ dq +:+ fst kv +:+ dq +:+ ": " +:+ snd kv)
                          (e_meta e)) +:+ "}".

Definition zle (a b : Entry) : bool :=
  Qltb (e_ts a) (e_ts b)
  || (Qeqb (e_ts a) (e_ts b) && String.leb (member_order_key a) (member_order_key b)).

Fixpoint zinsert (e : Entry) (l : list Entry) : list Entry :=
  match l with
  | [] => [e]
  | f :: r => if zle e f then e :: f :: r else f :: zinsert e r
  end.

Definition ts_le (a b : Entry) : Prop := e_ts a <= e_ts b.

(** [ZRANGE key 0 -1]: members by ascending score. *)
Definition zrange (ms : list Entry) : list Entry := fold_right zinsert [] ms.

(** The [for entry in entries: ... if wallet not in seen_wallets] loop. *)
Fixpoint dedup_wallets (seen : list string) (es : list Entry) : list Entry :=
  match es with
  | [] => []
  | e :: r =>
      if existsb (String.eqb (e_wallet e)) seen then dedup_wallets seen r
      else e :: dedup_wallets (e_wallet e :: seen) r
  end.

(** [ZREMRANGEBYSCORE key -inf cutoff]: removes every member whose score
    is at most [cutoff]; Redis deletes a key left empty. *)
Definition zremrangebyscore (st : Store) (key : string) (now cutoff : Q) : Store :=
  match st !! key with
  | None => st
  | Some z =>
      if expired z now then delete key st
      else match List.filter (fun e => Qltb cutoff (e_ts e)) (zmembers z) with
           | [] => delete key st
           | ms => <[key := mkZSet ms (zexpire z)]> st
           end
  end.

(** [check_confluence]: the new store and the result. *)
Definition check_confluence (window_minutes : Z) (st : Store) (now : Q)
    (token chain side : string) (min_wallets : Z)
    : Store * option (list Entry) :=
  let key := key_of side chain token in
  let cutoff := now - inject_Z window_minutes * 60 in
  let st1 := zremrangebyscore st key now cutoff in
  let entries := zrange (live st1 key now) in
  if Z.ltb (Z.of_nat (length entries)) min_wallets then (st1, None)
  else
    let events := dedup_wallets [] entries in
    if Z.leb min_wallets (Z.of_nat (length events)) then (st1, Some events)
    else (st1, None).

(** [record_buy]: the backwards-compatible wrapper. *)
Definition record_buy (window_minutes : Z) (st : Store) (now : Q)
    (token chain wallet : string) (metadata : list (string * string)) : Store :=
  record_trade window_minutes st now token chain wallet "buy" metadata.

(** [f"confluence:{chain_id}:{token_address}"]: the key that
    [get_window_stats] and [clear_token] use. *)
Definition stats_key (chain token : string) : string :=
  "confluence:" +:+ chain +:+ ":" +:+ token.

Record WindowStats := mkStats {
  total_buys : nat;
  unique_wallets : nat;
  stats_window_minutes : Z;
}.

(** [get_window_stats]: [ZREMRANGEBYSCORE], then [ZCARD] and the set of
    wallets of [ZRANGE]. *)
Definition get_window_stats (window_minutes : Z) (st : Store) (now : Q)
    (token chain : string) : Store * WindowStats :=
  let key := stats_key chain token in
  let cutoff := now - inject_Z window_minutes * 60 in
  let st1 := zremrangebyscore st key now cutoff in
  let count := length (live st1 key now) in
  let entries := zrange (live st1 key now) in
  let wallets : gset string := list_to_set (map e_wallet entries) in
  (st1, mkStats count (size wallets) window_minutes).

(** [clear_token]: [DEL key]. *)
Definition clear_token (st : Store) (token chain : string) : Store :=
  delete (stats_key chain token) st.

(** The number of [":"] characters (code 58) of a string. *)
Fixpoint colons (s : string) : nat :=
  match s with
  | EmptyString => 0
  | String a s' => (if Ascii.eqb a (Ascii.ascii_of_nat 58) then 1 else 0) + colons s'
  end.


(** [settings.confluence_minutes] *)
Definition confluence_minutes : Z := 30.

(** The result of a check as the specification words it: drop the
    entries with [ts < now - window], deduplicate by wallet in time order,
    and return them when there are at least [min_wallets]. *)
Definition claimed_check (window_minutes : Z) (st : Store) (now : Q)
    (token chain side : string) (min_wallets : Z) : option (list Entry) :=
  let cutoff := now - inject_Z window_minutes * 60 in
  let kept := List.filter (fun e => Qle_bool cutoff (e_ts e))
                (live st (key_of side chain token) now) in
  let events := dedup_wallets [] (zrange kept) in
  if Z.leb min_wallets (Z.of_nat (length events)) then Some events else None.

(** A reference instant (seconds). *)
Definition t_ref : Q := 1760000000.

(** Spec scenario S5: W1 at t-5 min, W1 at t-3 min, W2 at t-1 min on
    [(buy, ethereum, T)]. *)
Definition scenario_s5 : Store :=
  let st := record_trade confluence_minutes ∅ (t_ref - 300) "T" "ethereum" "W1" "buy" [] in
  let st := record_trade confluence_minutes st (t_ref - 180) "T" "ethereum" "W1" "buy" [] in
  record_trade confluence_minutes st (t_ref - 60) "T" "ethereum" "W2" "buy" [].

(** W1 exactly one window before [t_ref], W2 one minute before. *)
Definition scenario_boundary : Store :=
  let st := record_trade confluence_minutes ∅ (t_ref - 1800) "T" "ethereum" "W1" "buy" [] in
  record_trade confluence_minutes st (t_ref - 60) "T" "ethereum" "W2" "buy" [].

Definition meta_a : list (string * string) := [("tx_hash", "0xa")].
Definition meta_b : list (string * string) := [("tx_hash", "0xb")].

End Confluence.

(* ------------------------------------------------------------------ *)
(** ** Paper trading ([src/analytics/paper_trading.py]) *)
(* ------------------------------------------------------------------ *)

Module Paper.

(** Python exceptions that the modelled code can raise. *)
Inductive PyExc := ZeroDivisionError | KeyError | AttributeError.

Inductive PyResult (A : Type) :=
| PyOk (a : A)
| PyRaise (e : PyExc).
Arguments PyOk {A} a.
Arguments PyRaise {A} e.

(** The reason of a sell; the log text is abstracted to its kind. *)
Inductive ExitReason :=
| TakeProfit | StopLoss | MaxHoldTime | TrailingStop
| WhaleExit (num_whales : Z)
| SchedTakeProfit | SchedStopLoss | FreeCapital.

(** An open position: the dict stored in [positions[token]]. The keys
    [take_profit_pct], [stop_loss_pct] and [peak_profit_pct] may be absent.
    Times are seconds. *)
Record Position := mkPosition {
  p_token : string;
  p_chain : string;
  p_qty : Q;
  p_entry_price : Q;
  p_cost_basis : Q;
  p_bought_at : Q;
  p_reason : string;
  p_num_whales : Z;
  p_take_profit : option Q;
  p_stop_loss : option Q;
  p_peak : option Q;
}.

Record ClosedTrade := mkClosed {
  c_token : string;
  c_exit_price : Q;
  c_qty : Q;
  c_cost_basis : Q;
  c_proceeds : Q;
  c_profit_loss : Q;
  c_profit_pct : Q;
  c_sell_reason : ExitReason;
}.

(** A Python dict [token -> position] in insertion order. *)
Abbreviation PDict := (list (string * Position)).

Fixpoint dict_get (k : string) (d : PDict) : option Position :=
  match d with
  | [] => None
  | (k', v) :: r => if String.eqb k k' then Some v else dict_get k r
  end.

Definition dict_mem (k : string) (d : PDict) : bool :=
  existsb (fun kv => String.eqb k (fst kv)) d.

(** [d[k] = v]: an existing key keeps its place, a new key goes last. *)
Definition dict_set (k : string) (v : Position) (d : PDict) : PDict :=
  if dict_mem k d
  then map (fun kv => if String.eqb k (fst kv) then (fst kv, v) else kv) d
  else d ++ [(k, v)].

(** [del d[k]] *)
Definition dict_del (k : string) (d : PDict) : PDict :=
  List.filter (fun kv => negb (String.eqb k (fst kv))) d.

Record Tracker := mkTracker {
  starting_balance : Q;
  current_balance : Q;
  positions : PDict;
  closed_trades : list ClosedTrade;
  total_profit : Q;
  total_loss : Q;
  win_count : Z;
  loss_count : Z;
}.

Definition set_positions (tr : Tracker) (ps : PDict) : Tracker :=
  mkTracker (starting_balance tr) (current_balance tr) ps (closed_trades tr)
    (total_profit tr) (total_loss tr) (win_count tr) (loss_count tr).

(** [PaperTradingTracker.execute_buy]; the boolean is [result["success"]].
    [now] is [datetime.utcnow()]. *)
Definition execute_buy (tr : Tracker) (token chain : string) (price_usd amount_usd : Q)
    (reason : string) (num_whales : Z) (now : Q) : PyResult (Tracker * bool) :=
  if Qltb (current_balance tr) amount_usd then PyOk (tr, false)
  else if Qeqb price_usd 0 then PyRaise ZeroDivisionError
  else
    let qty := amount_usd / price_usd in
    let pos := mkPosition token chain qty price_usd amount_usd now reason num_whales
                 None None None in
    PyOk (mkTracker (starting_balance tr) (current_balance tr - amount_usd)
            (dict_set token pos (positions tr)) (closed_trades tr)
            (total_profit tr) (total_loss tr) (win_count tr) (loss_count tr), true).

(** [PaperTradingTracker.execute_sell]; [None] when no position is held. *)
Definition execute_sell (tr : Tracker) (token : string) (current_price : Q)
    (reason : ExitReason) : PyResult (Tracker * option ClosedTrade) :=
  match dict_get token (positions tr) with
  | None => PyOk (tr, None)
  | Some pos =>
      let proceeds := p_qty pos * current_price in
      let profit_loss := proceeds - p_cost_basis pos in
      if Qeqb (p_cost_basis pos) 0 then PyRaise ZeroDivisionError
      else
        let profit_pct := profit_loss / p_cost_basis pos * 100 in
        let win := Qltb 0 profit_loss in
        let ct := mkClosed token current_price (p_qty pos) (p_cost_basis pos)
                    proceeds profit_loss profit_pct reason in
        PyOk (mkTracker (starting_balance tr) (current_balance tr + proceeds)
                (dict_del token (positions tr)) (closed_trades tr ++ [ct])
                (if win then total_profit tr + profit_loss else total_profit tr)
                (if win then total_loss tr else total_loss tr + Qabs profit_loss)
                (if win then (win_count tr + 1)%Z else win_count tr)
                (if win then loss_count tr else (loss_count tr + 1)%Z),
              Some ct)
  end.

Definition get_or (o : option Q) (d : Q) : Q := match o with Some x => x | None => d end.

(** Steps 1-4 of the exit logic of [PositionManager.check_and_exit_positions]
    for one position at return [profit_pct] after [hold_time_hours]: the
    peak to store (when [profit_pct > peak_profit]) and the sell reason. *)
Definition exit_rules (pos : Position) (profit_pct hold_time_hours : Q)
    : option Q * option ExitReason :=
  let take_profit_pct := get_or (p_take_profit pos) 20 in
  let stop_loss_pct := get_or (p_stop_loss pos) (-15) in
  if Qle_bool take_profit_pct profit_pct then (None, Some TakeProfit)
  else if Qle_bool profit_pct stop_loss_pct then (None, Some StopLoss)
  else if Qle_bool 24 hold_time_hours then (None, Some MaxHoldTime)
  else if Qle_bool 15 profit_pct then
    let peak_profit := get_or (p_peak pos) profit_pct in
    let '(store, peak_profit) :=
      if Qltb peak_profit profit_pct then (Some profit_pct, profit_pct)
      else (None, peak_profit) in
    (store, if Qltb profit_pct (peak_profit - 8) then Some TrailingStop else None)
  else (None, None).

Definition with_peak (pos : Position) (pk : Q) : Position :=
  mkPosition (p_token pos) (p_chain pos) (p_qty pos) (p_entry_price pos)
    (p_cost_basis pos) (p_bought_at pos) (p_reason pos) (p_num_whales pos)
    (p_take_profit pos) (p_stop_loss pos) (Some pk).

(** One iteration of the loop of [check_and_exit_positions] for the key
    [token]. [price] is the price router ([None]: it raised); exceptions
    are caught by the loop and skip the position. The number is
    [positions_closed]. *)
Definition pm_step (price : string -> option Q) (now : Q)
    (acc : Tracker * nat) (token : string) : Tracker * nat :=
  let '(tr, closed) := acc in
  match dict_get token (positions tr) with
  | None => acc                                      (* KeyError, caught *)
  | Some position =>
      match price token with
      | None => acc                                  (* fetch raised, caught *)
      | Some current_price =>
          if Qeqb current_price 0 then acc           (* skipping *)
          else if Qeqb (p_cost_basis position) 0 then acc   (* ZeroDivisionError *)
          else
            let current_value := p_qty position * current_price in
            let profit_loss := current_value - p_cost_basis position in
            let profit_pct := profit_loss / p_cost_basis position * 100 in
            let hold_time_hours := (now - p_bought_at position) / 3600 in
            let '(store, sell_reason) := exit_rules position profit_pct hold_time_hours in
            let tr1 := match store with
                       | Some pk => set_positions tr
                                      (dict_set token (with_peak position pk) (positions tr))
                       | None => tr
                       end in
            match sell_reason with
            | None => (tr1, closed)
            | Some r =>
                match execute_sell tr1 token current_price r with
                | PyOk (tr2, Some _) => (tr2, S closed)
                | PyOk (tr2, None) => (tr2, closed)
                | PyRaise _ => (tr1, closed)
                end
            end
      end
  end.

(** [PositionManager.check_and_exit_positions]: one mark cycle over
    [list(self.paper_trader.positions.keys())]. *)
Definition check_and_exit_positions (price : string -> option Q) (now : Q)
    (tr : Tracker) : Tracker * nat :=
  fold_left (pm_step price now) (map fst (positions tr)) (tr, 0%nat).

(** One iteration of [manage_positions_job] ([src/scheduler/position_manager.py])
    over the snapshot item [(token_addr, pos)]. *)
Definition job_step (price : string -> option Q) (tr : Tracker)
    (item : string * Position) : Tracker :=
  let '(token_addr, pos) := item in
  match price token_addr with
  | None => tr
  | Some current_price =>
      if Qeqb current_price 0 then tr
      else if Qeqb (p_cost_basis pos) 0 then tr
      else
        let current_value := p_qty pos * current_price in
        let profit_loss := current_value - p_cost_basis pos in
        let profit_pct := profit_loss / p_cost_basis pos * 100 in
        let decision :=
          if Qle_bool 5 profit_pct then Some SchedTakeProfit
          else if Qle_bool profit_pct (-10) then Some SchedStopLoss
          else if Qle_bool profit_pct (-5) && Qltb (current_balance tr) 400
          then Some FreeCapital else None in
        match decision with
        | None => tr
        | Some reason =>
            match execute_sell tr token_addr current_price reason with
            | PyOk (tr', _) => tr'
            | PyRaise _ => tr
            end
        end
  end.

(** [PaperTradingTracker.load_from_file]: the class defines [save_to_file]
    but no [load_from_file], so the attribute lookup raises. *)
Definition load_from_file (path : string) : PyResult Tracker := PyRaise AttributeError.

(** [manage_positions_job] acting on [tr], the tracker of the paper-trading
    log. The exception of [load_from_file] reaches the outer [except], which
    logs it, and the job returns; a tracker object is truthy, so
    [not trader] is [not trader.positions]. *)
Definition manage_positions_job (price : string -> option Q) (tr : Tracker) : Tracker :=
  match load_from_file "/app/paper_trading_log.json" with
  | PyRaise _ => tr
  | PyOk trader =>
      match positions trader with
      | [] => trader
      | items => fold_left (job_step price) items trader
      end
  end.

(** [PaperTradingTracker.__init__] *)
Definition init_tracker (starting : Q) : Tracker := mkTracker starting starting [] [] 0 0 0 0.

(** The capital booked in the open positions ([cost_basis]). *)
Definition open_cost (d : PDict) : Q :=
  fold_right (fun kv acc => p_cost_basis (snd kv) + acc) 0 d.

(** The books of the tracker balance: distinct keys, every open position
    worth its cost at its entry price, cash plus booked capital equal to
    the starting balance plus net profit, and one win or loss per closed
    trade. *)
Definition ledger_ok (tr : Tracker) : Prop :=
  NoDup (map fst (positions tr)) /\
  Forall (fun kv => p_qty (snd kv) * p_entry_price (snd kv) == p_cost_basis (snd kv))
    (positions tr) /\
  current_balance tr + open_cost (positions tr)
    == starting_balance tr + total_profit tr - total_loss tr /\
  (0 <= win_count tr)%Z /\ (0 <= loss_count tr)%Z /\
  (win_count tr + loss_count tr)%Z = Z.of_nat (length (closed_trades tr)) /\
  0 <= total_profit tr /\ 0 <= total_loss tr.

(** The figures of [get_performance_report] (its text apart). *)
Record Report := mkReport {
  r_total_trades : nat;
  r_win_rate : Q;
  r_net_profit : Q;
  r_roi : Q;
  r_open_positions_value : Q;
  r_total_portfolio_value : Q;
  r_grade : string;
}.

Definition grade_of (roi : Q) : string :=
  if Qle_bool 50 roi then "S+ (LEGENDARY)"
  else if Qle_bool 25 roi then "A+ (EXCELLENT)"
  else if Qle_bool 10 roi then "A (VERY GOOD)"
  else if Qle_bool 5 roi then "B (GOOD)"
  else if Qle_bool 0 roi then "C (BREAK EVEN)"
  else "F (LOSING)".

(** [get_performance_report]; a zero [starting_balance] raises in the
    [roi] division. *)
Definition get_performance_report (tr : Tracker) : PyResult Report :=
  let total_trades := length (closed_trades tr) in
  let win_rate :=
    if (0 <? total_trades)%nat
    then inject_Z (win_count tr) / inject_Z (Z.of_nat total_trades) * 100 else 0 in
  let net_profit := total_profit tr - total_loss tr in
  if Qeqb (starting_balance tr) 0 then PyRaise ZeroDivisionError
  else
    let roi := (current_balance tr - starting_balance tr) / starting_balance tr * 100 in
    let open_positions_value :=
      fold_left (fun s kv => s + p_qty (snd kv) * p_entry_price (snd kv)) (positions tr) 0 in
    let total_portfolio_value := current_balance tr + open_positions_value in
    PyOk (mkReport total_trades win_rate net_profit roi open_positions_value
            total_portfolio_value (grade_of roi)).

(** [tr] still holds [pos] for [t], and the trades closed since [tr0]
    are all for other tokens. *)
Definition keeps (t : string) (pos : Position) (tr0 tr : Tracker) : Prop :=
  dict_get t (positions tr) = Some pos /\
  exists new, closed_trades tr = closed_trades tr0 ++ new /\ Forall (fun c => c_token c <> t) new.

(** No position of [d] has a [peak_profit_pct] key. *)
Definition no_peaks (d : PDict) : Prop := Forall (fun kv => p_peak (snd kv) = None) d.

(** A tracker holding one position of 400 [T] bought for $400. *)
Definition pos_T : Position :=
  mkPosition "T" "ethereum" 400 1 400 0 "2 whale confluence" 2 (Some 30) (Some (-15)) None.

Definition tr_one_held : Tracker := mkTracker 1000 600 [("T", pos_T)] [] 0 0 0 0.

End Paper.

(* ------------------------------------------------------------------ *)
(** ** Entry policy ([WalletMonitor._execute_paper_buy]) *)
(* ------------------------------------------------------------------ *)

Module Monitor.
Import Paper.

(** The position-sizing tiers: [(position_pct, take_profit, stop_loss)]. *)
Definition sizing (num_whales : Z) : Q * Q * Q :=
  if Z.leb 10 num_whales then (60 # 100, 40, -15)
  else if Z.leb 7 num_whales then (50 # 100, 35, -15)
  else (40 # 100, 30, -15).

Definition with_targets (pos : Position) (tp sl : Q) : Position :=
  mkPosition (p_token pos) (p_chain pos) (p_qty pos) (p_entry_price pos)
    (p_cost_basis pos) (p_bought_at pos) (p_reason pos) (p_num_whales pos)
    (Some tp) (Some sl) (p_peak pos).

(** [_execute_paper_buy]. [is_meme] is the verdict of
    [MemeCoinDetector.is_meme_coin]; [fetched] is the price router
    ([None]: it raised, which the method's [except] swallows). *)
Definition execute_paper_buy (tr : Tracker) (token chain : string) (num_whales : Z)
    (is_meme : bool) (fetched : option Q) (now : Q) : Tracker :=
  if negb is_meme then tr
  else if (3 <=? length (positions tr))%nat then tr
  else if dict_mem token (positions tr) then tr
  else
    match fetched with
    | None => tr
    | Some current_price =>
        if Qeqb current_price 0 then tr
        else
          let '(position_pct, take_profit, stop_loss) := sizing num_whales in
          let buy_amount := current_balance tr * position_pct in
          if Qltb buy_amount 10 then tr
          else
            match execute_buy tr token chain current_price buy_amount
                    (pretty num_whales +:+ " whale confluence") num_whales now with
            | PyOk (tr', true) =>
                match dict_get token (positions tr') with
                | Some pos => set_positions tr'
                                (dict_set token (with_targets pos take_profit stop_loss)
                                   (positions tr'))
                | None => tr'                        (* KeyError, caught *)
                end
            | PyOk (tr', false) => tr'
            | PyRaise _ => tr
            end
    end.

(** [_execute_paper_sell] *)
Definition execute_paper_sell (tr : Tracker) (token : string) (num_whales : Z)
    (fetched : option Q) : Tracker :=
  if negb (dict_mem token (positions tr)) then tr
  else
    match fetched with
    | None => tr
    | Some current_price =>
        if Qeqb current_price 0 then tr
        else match execute_sell tr token current_price (WhaleExit num_whales) with
             | PyOk (tr', _) => tr'
             | PyRaise _ => tr
             end
    end.

(** The branch of [monitor_watchlist_wallets] taken after
    [check_confluence]: [if confluence_events:] then buy or sell. *)
Definition on_confluence (tr : Tracker) (side token chain : string)
    (confluence_events : option (list Confluence.Entry))
    (is_meme : bool) (fetched : option Q) (now : Q) : Tracker :=
  match confluence_events with
  | Some ((_ :: _) as evs) =>
      let n := Z.of_nat (length evs) in
      if String.eqb side "buy" then execute_paper_buy tr token chain n is_meme fetched now
      else if String.eqb side "sell" then execute_paper_sell tr token n fetched
      else tr
  | _ => tr
  end.

(** Two confluence events of distinct wallets. *)
Definition ev_w1 : Confluence.Entry := Confluence.mkEntry "W1" 0 "buy" [].
Definition ev_w2 : Confluence.Entry := Confluence.mkEntry "W2" 0 "buy" [].

(** A run: $1000 of cash, a two-whale buy of [T] at $1, then marks at
    $1.25 after one hour and $1.16 after two hours. *)
Definition tr_empty : Tracker := mkTracker 1000 1000 [] [] 0 0 0 0.

Definition tr_bought : Tracker :=
  execute_paper_buy tr_empty "T" "ethereum" 2 true (Some 1) 0.

Definition tr_mark_up : Tracker :=
  fst (check_and_exit_positions (fun _ => Some (125 # 100)) 3600 tr_bought).

Definition tr_mark_down : Tracker :=
  fst (check_and_exit_positions (fun _ => Some (116 # 100)) 7200 tr_mark_up).

End Monitor.

(* ------------------------------------------------------------------ *)
(** ** Trade ingestion ([WalletDiscovery._fetch_token_buyers]) *)
(* ------------------------------------------------------------------ *)

Module Discovery.

(** A [Trade] row (the columns the ingestion writes). *)
Record TradeRow := mkTradeRow {
  tx_hash : string;
  ts : Q;
  chain_id : string;
  wallet_address : string;
  token_address : string;
  side : string;
  qty_token : Q;
  price_usd : Q;
  usd_value : Q;
  venue : option string;
}.

(** The [trades] table, keyed by its primary key [tx_hash]. *)
Abbreviation TradeTable := (gmap string TradeRow).

(** A transaction as returned by the chain client. *)
Record Tx := mkTx {
  tx_from : option string;
  tx_type : string;
  tx_hash_of : string;
  tx_timestamp : option Q;
  tx_amount : Q;
  tx_price : Q;
  tx_value : Q;
  tx_dex : option string;
}.

(** The trade part of one iteration of [for tx in transactions:]: skip
    non-buys and a missing or empty sender, look the hash up, and add a row
    only if none exists. *)
Definition ingest_tx (token chain : string) (now : Q) (db : TradeTable) (tx : Tx)
    : TradeTable :=
  match tx_from tx with
  | None => db
  | Some wallet =>
      if String.eqb wallet "" then db
      else if negb (String.eqb (tx_type tx) "buy") then db
      else
        let h := tx_hash_of tx in
        match db !! h with
        | Some _ => db
        | None =>
            <[h := mkTradeRow h (match tx_timestamp tx with Some t => t | None => now end)
                    chain wallet token "buy" (tx_amount tx) (tx_price tx)
                    (tx_value tx) (tx_dex tx)]> db
        end
  end.

Definition ingest_all (token chain : string) (now : Q) (db : TradeTable)
    (txs : list Tx) : TradeTable :=
  fold_left (ingest_tx token chain now) txs db.

(** A [Wallet] row; [address] is the primary key. *)
Record WalletRow := mkWalletRow {
  w_address : string;
  w_chain_id : string;
  w_first_seen_at : Q;
  w_last_active_at : option Q;
}.

Abbreviation WalletTable := (gmap string WalletRow).

(** One iteration of [for tx in transactions:] of [_fetch_token_buyers]:
    skip a missing or empty sender and non-buys, create the wallet row if
    the address has none (counting it in [wallets_found]), set
    [last_active_at], then insert the trade unless its hash exists. *)
Definition fetch_step (token chain : string) (now : Q)
    (acc : WalletTable * TradeTable * nat) (tx : Tx) : WalletTable * TradeTable * nat :=
  let '(ws, db, wallets_found) := acc in
  match tx_from tx with
  | None => acc
  | Some wallet_address =>
      if String.eqb wallet_address "" then acc
      else if negb (String.eqb (tx_type tx) "buy") then acc
      else
        let '(wallet, wallets_found) :=
          match ws !! wallet_address with
          | Some w => (w, wallets_found)
          | None => (mkWalletRow wallet_address chain now None, S wallets_found)
          end in
        let wallet := mkWalletRow (w_address wallet) (w_chain_id wallet)
                        (w_first_seen_at wallet) (Some now) in
        (<[wallet_address := wallet]> ws, ingest_tx token chain now db tx, wallets_found)
  end.

(** [_fetch_token_buyers] over the transactions the chain client
    returned; the number is its result. *)
Definition fetch_token_buyers (token chain : string) (now : Q) (ws : WalletTable)
    (db : TradeTable) (txs : list Tx) : WalletTable * TradeTable * nat :=
  fold_left (fetch_step token chain now) txs (ws, db, 0%nat).

(** [discover_from_seed_tokens] over the seed tokens of the query, each
    with its token, chain and fetched transactions; the number is
    [total_wallets]. *)
Definition discover_from_seed_tokens (now : Q) (seeds : list (string * string * list Tx))
    (ws : WalletTable) (db : TradeTable) : WalletTable * TradeTable * nat :=
  fold_left (fun acc seed =>
    let '(ws, db, total_wallets) := acc in
    let '(token, chain, txs) := seed in
    let '(ws', db', wallets) := fetch_token_buyers token chain now ws db txs in
    (ws', db', (total_wallets + wallets)%nat)) seeds (ws, db, 0%nat).

(** Every trade row references an existing wallet row
    ([Trade.wallet_address] is a foreign key to [wallets.address]). *)
Definition trades_reference_wallets (ws : WalletTable) (db : TradeTable) : Prop :=
  forall h r, db !! h = Some r -> is_Some (ws !! wallet_address r).


(** A table already holding the buy [0xa], and the same buy as fetched
    again from the chain. *)
Definition row_a : TradeRow :=
  mkTradeRow "0xa" 100 "ethereum" "W1" "T" "buy" 50 2 100 (Some "uniswap").

Definition db_a : TradeTable := {[ "0xa" := row_a ]}.

Definition tx_a : Tx := mkTx (Some "W1") "buy" "0xa" (Some 100) 50 2 100 (Some "uniswap").

End Discovery.

(* ------------------------------------------------------------------ *)
(** ** EarlyScore ([src/analytics/early.py]) *)
(* ------------------------------------------------------------------ *)

Module Early.

(** [_calculate_rank_score]; the two counts are the query results
    ([None] is SQL NULL), with [or 0] and [or 1]. *)
Definition calculate_rank_score (before_q total_q : option Z) : Q :=
  let buyers_before := match before_q with Some n => if Z.eqb n 0 then 0%Z else n | None => 0%Z end in
  let total_buyers := match total_q with Some n => if Z.eqb n 0 then 1%Z else n | None => 1%Z end in
  let rank_percentile := inject_Z buyers_before / inject_Z (Z.max total_buyers 1) in
  40 * (1 - rank_percentile).

Definition target_mc : Q := 1000000.

(** [_calculate_mc_score]; [liquidity] is [token.liquidity_usd] ([None]:
    no token row or a NULL column). *)
Definition calculate_mc_score (liquidity : option Q) : Q :=
  match liquidity with
  | None => 20
  | Some l =>
      if Qeqb l 0 then 20
      else
        let estimated_mc := l * 3 in
        if Qle_bool target_mc estimated_mc then 0
        else 40 * Qmax 0 ((target_mc - estimated_mc) / target_mc)
  end.

(** [_calculate_volume_score]; [wallet_buy] is the buy's [usd_value] when
    the row exists, [total_volume] the windowed sum ([None]: NULL). *)
Definition calculate_volume_score (wallet_buy : option Q) (total_volume : option Q) : Q :=
  match wallet_buy with
  | None => 0
  | Some v =>
      let tv := match total_volume with Some x => x | None => 0 end in
      if Qeqb tv 0 then 0
      else
        let participation := v / tv in
        let capped_participation := Qmin participation (1 # 2) in
        20 * (capped_participation / (1 # 2))
  end.

Definition calculate_score (before_q total_q : option Z) (liquidity : option Q)
    (wallet_buy total_volume : option Q) : Q :=
  let rank_score := calculate_rank_score before_q total_q in
  let mc_score := calculate_mc_score liquidity in
  let vol_score := calculate_volume_score wallet_buy total_volume in
  let total_score := rank_score + mc_score + vol_score in
  Qmax 0 (Qmin 100 total_score).

(** The EarlyScore formula as the specification states it. *)
Definition clip01 (x : Q) : Q := Qmax 0 (Qmin x 1).

Definition early_formula (rank_percentile estimated_mc participation : Q) : Q :=
  40 * (1 - rank_percentile)
  + 40 * clip01 ((target_mc - estimated_mc) / target_mc)
  + 20 * Qmin participation (1 # 2) / (1 # 2).

End Early.

(* ------------------------------------------------------------------ *)
(** ** Preliminary signal score ([WalletMonitor._calculate_preliminary_score]) *)
(* ------------------------------------------------------------------ *)

Module MonitorScore.

(** The columns of a [wallet_stats_30d] row that the score reads;
    [best_trade_multiple] and [earlyscore_median] are nullable. *)
Record WalletStats30D := mkWalletStats30D {
  realized_pnl_usd : Q;
  best_trade_multiple : option Q;
  earlyscore_median : option Q
}.

(** [x and x > c] on an optional float: [None] and [0.0] are falsy. *)
Definition truthy_gt (o : option Q) (c : Q) : bool :=
  match o with
  | Some x => negb (Qeqb x 0) && Qltb c x
  | None => false
  end.

(** [_calculate_preliminary_score(trade, stats)]; the [trade] argument is
    not read by the body. [None] is a missing stats row. *)
Definition calculate_preliminary_score (stats : option WalletStats30D) : Q :=
  match stats with
  | None => 0
  | Some s =>
      let score := 0 in
      let score :=
        if Qltb 100000 (realized_pnl_usd s) then score + 40
        else if Qltb 50000 (realized_pnl_usd s) then score + 30
        else if Qltb 10000 (realized_pnl_usd s) then score + 20
        else score + 10 in
      let score :=
        if truthy_gt (best_trade_multiple s) 10 then score + 30
        else if truthy_gt (best_trade_multiple s) 5 then score + 20
        else if truthy_gt (best_trade_multiple s) 3 then score + 15
        else score + 5 in
      let score :=
        if truthy_gt (earlyscore_median s) 80 then score + 30
        else if truthy_gt (earlyscore_median s) 60 then score + 20
        else if truthy_gt (earlyscore_median s) 40 then score + 10
        else score + 5 in
      score
  end.

End MonitorScore.

(* ------------------------------------------------------------------ *)
(** ** Watchlist polling ([WalletMonitor._check_wallet_for_new_trades],
       [WalletMonitor.monitor_watchlist_wallets]) *)
(* ------------------------------------------------------------------ *)

Module MonitorLoop.
Import Paper Monitor.

(** A value held in a trade dict; datetimes are seconds. *)
Inductive PyVal := PNone | PStr (s : string) | PFloat (q : Q).

(** A Python dict in insertion order. *)
Definition PyDict := list (string * PyVal).

(** [d[k]]: [None] is a [KeyError]. *)
Fixpoint dict_lookup (d : PyDict) (k : string) : option PyVal :=
  match d with
  | [] => None
  | (k', v) :: r => if String.eqb k k' then Some v else dict_lookup r k
  end.

(** [d.get(k, default)] *)
Definition dict_get_or (d : PyDict) (k : string) (default : PyVal) : PyVal :=
  match dict_lookup d k with Some v => v | None => default end.

(** A transaction as the chain client returns it; [None] is a key the
    dict does not have, and the numeric fields hold numbers. *)
Record WalletTx := mkWalletTx {
  wt_hash : option string;
  wt_type : option string;
  wt_token : option string;
  wt_timestamp : option Q;
  wt_amount : option Q;
  wt_price : option Q;
  wt_value : option Q;
  wt_dex : option string;
}.

Definition opt_str (o : option string) : PyVal :=
  match o with Some s => PStr s | None => PNone end.

(** [tx_hash == last_seen_tx] on two optional strings. *)
Definition opt_str_eqb (a b : option string) : bool :=
  match a, b with
  | Some x, Some y => String.eqb x y
  | None, None => true
  | _, _ => false
  end.

(** The dict appended to [new_trades] for [tx]; [now] is
    [datetime.utcnow()]. *)
Definition new_trade (wallet_address chain_id : string) (now : Q) (tx : WalletTx) : PyDict :=
  [("tx_hash", opt_str (wt_hash tx));
   ("token_address", opt_str (wt_token tx));
   ("chain_id", PStr chain_id);
   ("wallet_address", PStr wallet_address);
   ("timestamp", PFloat (get_or (wt_timestamp tx) now));
   ("amount", PFloat (get_or (wt_amount tx) 0));
   ("price_usd", PFloat (get_or (wt_price tx) 0));
   ("value_usd", PFloat (get_or (wt_value tx) 0));
   ("dex", opt_str (wt_dex tx))].

(** The [for tx in recent_txs] loop: stop at the last seen hash, skip
    types other than buy and sell. *)
Fixpoint collect_new (last_seen_tx : option string) (wallet_address chain_id : string)
    (now : Q) (recent_txs : list WalletTx) : list PyDict :=
  match recent_txs with
  | [] => []
  | tx :: rest =>
      if opt_str_eqb (wt_hash tx) last_seen_tx then []
      else
        match wt_type tx with
        | Some ty =>
            if String.eqb ty "buy" || String.eqb ty "sell"
            then new_trade wallet_address chain_id now tx
                   :: collect_new last_seen_tx wallet_address chain_id now rest
            else collect_new last_seen_tx wallet_address chain_id now rest
        | None => collect_new last_seen_tx wallet_address chain_id now rest
        end
  end.

(** The monitor's Redis keys: a value and the time it expires. *)
Abbreviation Cache := (gmap string (string * Q)).

(** [GET key]: an expired key no longer exists. *)
Definition cache_get (c : Cache) (k : string) (now : Q) : option string :=
  match c !! k with
  | Some (v, deadline) => if Qltb now deadline then Some v else None
  | None => None
  end.

Definition cache_key (wallet_address : string) : string :=
  "wallet_monitor:last_trade:" +:+ wallet_address.

(** [_check_wallet_for_new_trades]; [recent_txs] is the client's answer.
    [SETEX] of a [None] value is refused by the Redis client ([DataError]),
    which the [except] turns into [[]]. *)
Definition check_wallet_for_new_trades (c : Cache) (wallet_address chain_id : string)
    (recent_txs : list WalletTx) (now : Q) : Cache * list PyDict :=
  let key := cache_key wallet_address in
  let last_seen_tx := cache_get c key now in
  let new_trades := collect_new last_seen_tx wallet_address chain_id now recent_txs in
  match recent_txs with
  | [] => (c, new_trades)
  | tx0 :: _ =>
      match wt_hash tx0 with
      | Some latest_tx => (<[key := (latest_tx, now + 3600)]> c, new_trades)
      | None => (c, [])
      end
  end.

(** [str.lower] on ASCII text. *)
Definition lower_ascii (a : Ascii.ascii) : Ascii.ascii :=
  let n := Ascii.nat_of_ascii a in
  if (65 <=? n)%nat && (n <=? 90)%nat then Ascii.ascii_of_nat (n + 32) else a.

Fixpoint lower (s : string) : string :=
  match s with
  | EmptyString => EmptyString
  | String a r => String (lower_ascii a) (lower r)
  end.

Definition STABLECOINS_AND_WRAPPED : list string :=
  ["0xdac17f958d2ee523a2206206994597c13d831ec7";
   "0xa0b86991c6218b36c1d19d4a2e9eb0ce3606eb48";
   "0xc02aaa39b223fe8d0a0e5c4f27ead9083c756cc2";
   "0x2260fac5e5542a774ae82da6db1b2159f876eff9";
   "0x6b175474e89094c44da98b954eedeac495271d0f";
   "0x833589fcd6edb6e08f4c7c32d4f71b54bda02913";
   "0x2260fac5e5542a773aa44fbcfedf7c193bc2c599";
   "0x4200000000000000000000000000000000000006";
   "0xfd086bc7cd5c481dcc9c85ebe478a1c0b69fcbb9";
   "0xaf88d065e77c8cc2239327c5edb3a432268e5831";
   "0x2f2a2543b76a4166549f7aab2e75bef0aefc5b0f";
   "0x82af49447d8a07e3bd95bd0d56f35241523fbab1"].

Record MonitorState := mkMonitorState {
  m_tracker : Tracker;
  m_confluence : Confluence.Store;
  m_alerts : nat;
}.

Section Round.
(** [str(v)] of a float (f-strings) and [json.dumps] of a value. *)
Variable float_repr : Q -> string.
Variable json_dumps : PyVal -> string.
(** The meme-coin verdict and the price router, by token and chain. *)
Variable is_meme_coin : string -> string -> bool.
Variable get_token_price : string -> string -> option Q.
(** [datetime.utcnow()] during the round. *)
Variable now : Q.

Definition py_str (v : PyVal) : string :=
  match v with PNone => "None" | PStr s => s | PFloat q => float_repr q end.

(** The body of [for trade in new_trades] for the watched wallet
    [wallet_address]. [None]: an exception ([KeyError], or [.lower()] of
    a non-string) reaches the per-wallet [except], which abandons the
    wallet's remaining trades. *)
Definition process_trade (wallet_address : string) (s : MonitorState) (trade : PyDict)
    : option MonitorState :=
  let side := dict_get_or trade "side" (PStr "buy") in
  match dict_lookup trade "token_address" with
  | Some (PStr token) =>
      if existsb (String.eqb (lower token)) STABLECOINS_AND_WRAPPED then Some s
      else
        match dict_lookup trade "chain_id" with
        | None => None
        | Some chain_v =>
            let chain := py_str chain_v in
            let metadata :=
              [("price_usd", json_dumps (dict_get_or trade "price_usd" (PFloat 0)));
               ("value_usd", json_dumps (dict_get_or trade "value_usd" (PFloat 0)));
               ("tx_hash", json_dumps (dict_get_or trade "tx_hash" PNone))] in
            let st1 := Confluence.record_trade Confluence.confluence_minutes (m_confluence s)
                         now token chain wallet_address (py_str side) metadata in
            let '(st2, confluence_events) :=
              Confluence.check_confluence Confluence.confluence_minutes st1 now token chain
                (py_str side) 2 in
            match confluence_events with
            | Some (_ :: _) =>
                Some (mkMonitorState
                        (on_confluence (m_tracker s) (py_str side) token chain
                           confluence_events (is_meme_coin token chain)
                           (get_token_price token chain) now)
                        st2 (S (m_alerts s)))
            | _ => Some (mkMonitorState (m_tracker s) st2 (m_alerts s))
            end
        end
  | _ => None
  end.

Fixpoint process_trades (wallet_address : string) (s : MonitorState) (trades : list PyDict)
    : MonitorState :=
  match trades with
  | [] => s
  | t :: rest =>
      match process_trade wallet_address s t with
      | Some s' => process_trades wallet_address s' rest
      | None => s
      end
  end.

(** [monitor_watchlist_wallets]: step 1 is the position manager's mark
    cycle (price router [pm_price]); then each watched wallet
    [(address, chain_id, recent_txs)] is polled and its new trades are
    processed. The result is the state and the cache. *)
Definition monitor_watchlist_wallets (pm_price : string -> option Q) (tr : Tracker)
    (st : Confluence.Store) (c : Cache) (watchlist : list (string * string * list WalletTx))
    : MonitorState * Cache :=
  let tr1 := fst (check_and_exit_positions pm_price now tr) in
  fold_left (fun (acc : MonitorState * Cache) (w : string * string * list WalletTx) =>
      let '(s, c) := acc in
      let '(address, chain_id, recent_txs) := w in
      let '(c', new_trades) := check_wallet_for_new_trades c address chain_id recent_txs now in
      (process_trades address s new_trades, c'))
    watchlist (mkMonitorState tr1 st 0, c).

End Round.

End MonitorLoop.

(* ================================================================== *)
(** * Proofs *)
(* ================================================================== *)

Lemma Qltb_spec x y : Qltb x y = true <-> x < y.
Proof.
  unfold Qltb. rewrite negb_true_iff. split.
  - intros H. apply Qnot_le_lt. intros H'. apply Qle_bool_iff in H'. congruence.
  - intros H. destruct (Qle_bool y x) eqn:E; [|reflexivity].
    apply Qle_bool_iff in E. exfalso. apply (Qlt_not_le x y); assumption.
Qed.

Lemma Qltb_false x y : Qltb x y = false <-> y <= x.
Proof. unfold Qltb. rewrite negb_false_iff. apply Qle_bool_iff. Qed.

Lemma Qle_bool_false x y : Qle_bool x y = false <-> y < x.
Proof.
  split.
  - intros H. apply Qnot_le_lt. intros H'. apply Qle_bool_iff in H'. congruence.
  - intros H. destruct (Qle_bool x y) eqn:E; [|reflexivity].
    apply Qle_bool_iff in E. exfalso. apply (Qlt_not_le y x); assumption.
Qed.

Lemma Qeqb_spec x y : Qeqb x y = true <-> x == y.
Proof. apply Qeq_bool_iff. Qed.

Lemma Qeqb_false x y : Qeqb x y = false <-> ~ x == y.
Proof.
  unfold Qeqb. split.
  - intros H E. apply Qeq_bool_iff in E. congruence.
  - intros H. destruct (Qeq_bool x y) eqn:E; [|reflexivity].
    apply Qeq_bool_iff in E. contradiction.
Qed.

(** Decides a comparison of rational constants by evaluation. *)
Ltac qcmp := vm_compute; first [reflexivity | discriminate | intros ?; discriminate].

Module PnlFacts.
Import Pnl.

Lemma match_lots_conserve T p s q r q' r' :
  match_lots T p s q r = (q', r') ->
  r' == r + p * ((sum_qty q - sum_qty q') / T) - (sum_cost q - sum_cost q').
Proof.
  revert s r q' r'.
  induction q as [|[[bq bp] bc] rest IH]; intros s r q' r' H; simpl in H.
  - destruct (Qltb 0 s); injection H as <- <-; simpl; unfold Qdiv; ring.
  - destruct (Qltb 0 s).
    + destruct (Qle_bool bq s).
      * apply IH in H. rewrite H. unfold sum_qty, sum_cost; simpl.
        unfold lot_qty, lot_cost; simpl. unfold Qdiv; ring.
      * injection H as <- <-. unfold sum_qty, sum_cost; simpl.
        unfold lot_qty, lot_cost; simpl. unfold Qdiv; ring.
    + injection H as <- <-. unfold Qdiv; ring.
Qed.

Lemma match_lots_fifo T p s q r q' r' :
  match_lots T p s q r = (q', r') -> fifo_remainder q q'.
Proof.
  revert s r q' r'.
  induction q as [|[[bq bp] bc] rest IH]; intros s r q' r' H; simpl in H.
  - left. exists 0%nat. destruct (Qltb 0 s); injection H as <- <-; reflexivity.
  - destruct (Qltb 0 s) eqn:Hs.
    + destruct (Qle_bool bq s) eqn:Hb.
      * apply IH in H as [[n Hn]|(n & bq' & bp' & bc' & rest' & k & Hd & Hk)].
        -- left. exists (S n). exact Hn.
        -- right. exists (S n), bq', bp', bc', rest', k. split; [exact Hd|exact Hk].
      * injection H as <- <-. right. exists 0%nat, bq, bp, bc, rest, s.
        apply Qltb_spec in Hs. apply Qle_bool_false in Hb.
        repeat split; assumption.
    + left. exists 0%nat. injection H as <- <-. reflexivity.
Qed.

Lemma sum_qty_nonneg q : lots_nonneg q -> 0 <= sum_qty q.
Proof.
  induction 1 as [|l q Hl _ IH]; unfold sum_qty; simpl; [lra|].
  unfold sum_qty in IH. lra.
Qed.

Lemma match_lots_nonneg T p s q r :
  lots_nonneg q -> lots_nonneg (fst (match_lots T p s q r)).
Proof.
  revert s r.
  induction q as [|[[bq bp] bc] rest IH]; intros s r Hq; simpl.
  - destruct (Qltb 0 s); constructor.
  - inversion Hq as [|? ? Hbq Hrest]; subst.
    destruct (Qltb 0 s) eqn:Hs; [|exact Hq].
    destruct (Qle_bool bq s) eqn:Hb.
    + apply IH. exact Hrest.
    + simpl. constructor; [|exact Hrest].
      unfold lot_qty; simpl. apply Qle_bool_false in Hb. lra.
Qed.

Lemma match_lots_excess T p s q r :
  lots_nonneg q -> sum_qty q < s -> fst (match_lots T p s q r) = [].
Proof.
  revert s r.
  induction q as [|[[bq bp] bc] rest IH]; intros s r Hq Hlt; simpl.
  - destruct (Qltb 0 s); reflexivity.
  - inversion Hq as [|? ? Hbq Hrest]; subst.
    pose proof (sum_qty_nonneg rest Hrest) as Hr.
    unfold sum_qty, lot_qty in *; cbn [fold_right fst snd] in *.
    assert (Hs : Qltb 0 s = true) by (apply Qltb_spec; lra).
    assert (Hb : Qle_bool bq s = true) by (apply Qle_bool_iff; lra).
    rewrite Hs, Hb. apply IH; [exact Hrest|]. unfold sum_qty, lot_qty. lra.
Qed.

Lemma process_trade_nonneg st t :
  lots_nonneg (fst st) -> 0 <= qty_token t -> lots_nonneg (fst (process_trade st t)).
Proof.
  destruct st as [q r]. intros Hq Ht. unfold process_trade.
  destruct (String.eqb (side t) "buy").
  - simpl. apply Forall_app. split; [exact Hq|]. constructor; [exact Ht|constructor].
  - destruct (String.eqb (side t) "sell"); [apply match_lots_nonneg|]; exact Hq.
Qed.

Lemma fifo_run_nonneg trades :
  Forall (fun u => 0 <= qty_token u) trades -> lots_nonneg (fst (fifo_run trades)).
Proof.
  unfold fifo_run. assert (H0 : lots_nonneg (fst (([] : list Lot), 0))) by constructor.
  revert H0. generalize (([] : list Lot), 0).
  induction trades as [|t ts IH]; intros st Hst Hts; simpl; [exact Hst|].
  inversion Hts; subst. apply IH; [apply process_trade_nonneg|]; assumption.
Qed.

(** C1: a buy appends the lot [(qty_token, price_usd, usd_value + fee)]; a
    sell consumes lots oldest-first and credits the proceeds
    [usd_value - fee] prorated by the consumed quantity over the sell
    quantity, minus the consumed (prorated) cost basis; and the two spec
    scenarios give realized +97 with no open lots, and realized +250,
    unrealized +50 at mark $3 with one open lot of 50 tokens costing $100. *)
Theorem fifo_pnl_spec :
  (forall (q : list Lot) (r : Q) (t : Trade), side t = "buy" ->
     process_trade (q, r) t
     = (q ++ [(qty_token t, price_usd t, usd_value t + fee_or_zero t)], r)) /\
  (forall (q : list Lot) (r : Q) (t : Trade) (q' : list Lot) (r' : Q),
     side t = "sell" -> process_trade (q, r) t = (q', r') ->
     r' == r + (usd_value t - fee_or_zero t) * ((sum_qty q - sum_qty q') / qty_token t)
             - (sum_cost q - sum_cost q')
     /\ fifo_remainder q q') /\
  (forall fetched : option Q, exists r u,
     calculate_token_pnl scenario_fee fetched = (r, u, []) /\ r == 97 /\ u == 0) /\
  (exists r u qty cost,
     calculate_token_pnl scenario_two_lots (Some 3) = (r, u, [(qty, 2, cost)]) /\
     r == 250 /\ u == 50 /\ qty == 50 /\ cost == 100).
Proof.
  split; [|split; [|split]].
  - intros q r t Ht. unfold process_trade. rewrite Ht. reflexivity.
  - intros q r t q' r' Ht H. unfold process_trade in H. rewrite Ht in H. simpl in H.
    split; [eapply match_lots_conserve|eapply match_lots_fifo]; exact H.
  - intros fetched. eexists _, _. split; [reflexivity|]. split; reflexivity.
  - eexists _, _, _, _. split; [vm_compute; reflexivity|].
    repeat split; reflexivity.
Qed.

(** C6: a sell larger than all open lots consumes every lot, credits
    only the proceeds prorated over the matched quantity minus the whole
    cost basis, leaves the queue empty, and the pass goes on with the
    following trades. *)
Theorem fifo_excess_sell_truncated (pre post : list Trade) (t : Trade) :
  Forall (fun u => 0 <= qty_token u) pre ->
  side t = "sell" ->
  sum_qty (fst (fifo_run pre)) < qty_token t ->
  let '(q, r) := fifo_run pre in
  let '(q', r') := process_trade (q, r) t in
  q' = [] /\
  r' == r + (usd_value t - fee_or_zero t) * (sum_qty q / qty_token t) - sum_cost q /\
  fifo_run (pre ++ t :: post) = fold_left process_trade post (q', r').
Proof.
  intros Hpre Ht Hlt.
  pose proof (fifo_run_nonneg pre Hpre) as Hnn.
  unfold fifo_run at 2. rewrite fold_left_app. simpl.
  fold (fifo_run pre).
  destruct (fifo_run pre) as [q r] eqn:Erun. simpl in Hnn, Hlt.
  unfold process_trade. rewrite Ht. simpl.
  destruct (match_lots (qty_token t) (usd_value t - fee_or_zero t) (qty_token t) q r)
    as [q' r'] eqn:E.
  assert (Hq' : q' = []).
  { pose proof (match_lots_excess (qty_token t) (usd_value t - fee_or_zero t)
                  (qty_token t) q r Hnn Hlt) as Hx.
    rewrite E in Hx. exact Hx. }
  subst q'. split; [reflexivity|]. split; [|reflexivity].
  apply match_lots_conserve in E. rewrite E.
  unfold sum_qty at 2, sum_cost at 2. simpl. unfold Qdiv. ring.
Qed.

(** Witness of C1: a buy on an empty queue, then the sell of the fee
    scenario against the lot it leaves. *)
Lemma fifo_pnl_spec_witness :
  side (buy 100 1 100 1) = "buy" /\
  process_trade ([], 0) (buy 100 1 100 1) = ([] ++ [(100, 1, 100 + 1)], 0) /\
  side (sell 100 2 200 2) = "sell" /\
  exists q' r', process_trade ([(100, 1, 101)], 0) (sell 100 2 200 2) = (q', r') /\
    r' == 0 + (200 - 2) * ((sum_qty [(100, 1, 101)] - sum_qty q') / 100)
          - (sum_cost [(100, 1, 101)] - sum_cost q') /\
    fifo_remainder [(100, 1, 101)] q'.
Proof.
  split; [reflexivity|].
  split; [exact (proj1 fifo_pnl_spec [] 0 (buy 100 1 100 1) eq_refl)|].
  split; [reflexivity|].
  eexists _, _. split; [reflexivity|].
  exact (proj1 (proj2 fifo_pnl_spec) [(100, 1, 101)] 0 (sell 100 2 200 2) _ _ eq_refl eq_refl).
Defined.

(** Witness of C6: a sell of 150 after a single buy of 100. *)
Lemma fifo_excess_sell_truncated_witness :
  Forall (fun u => 0 <= qty_token u) [buy 100 1 100 0] /\
  side (sell 150 3 450 0) = "sell" /\
  sum_qty (fst (fifo_run [buy 100 1 100 0])) < qty_token (sell 150 3 450 0) /\
  let '(q, r) := fifo_run [buy 100 1 100 0] in
  let '(q', r') := process_trade (q, r) (sell 150 3 450 0) in
  q' = [] /\
  r' == r + (usd_value (sell 150 3 450 0) - fee_or_zero (sell 150 3 450 0))
            * (sum_qty q / qty_token (sell 150 3 450 0)) - sum_cost q /\
  fifo_run ([buy 100 1 100 0] ++ sell 150 3 450 0 :: []) = fold_left process_trade [] (q', r').
Proof.
  assert (H1 : Forall (fun u => 0 <= qty_token u) [buy 100 1 100 0])
    by (constructor; [qcmp|constructor]).
  assert (H2 : side (sell 150 3 450 0) = "sell") by reflexivity.
  assert (H3 : sum_qty (fst (fifo_run [buy 100 1 100 0])) < qty_token (sell 150 3 450 0))
    by qcmp.
  split; [exact H1|]. split; [exact H2|]. split; [exact H3|].
  exact (fifo_excess_sell_truncated [buy 100 1 100 0] [] (sell 150 3 450 0) H1 H2 H3).
Defined.

End PnlFacts.

Module ConfluenceFacts.
Import Confluence.

Lemma entry_eqb_refl e : entry_eqb e e = true.
Proof.
  unfold entry_eqb. rewrite !String.eqb_refl.
  assert (Qeqb (e_ts e) (e_ts e) = true) as -> by (apply Qeqb_spec; reflexivity).
  rewrite bool_decide_eq_true_2 by reflexivity. reflexivity.
Qed.

Lemma zadd_member_idem e ms : zadd_member e (zadd_member e ms) = zadd_member e ms.
Proof.
  unfold zadd_member at 1.
  assert (existsb (entry_eqb e) (zadd_member e ms) = true) as ->; [|reflexivity].
  unfold zadd_member. destruct (existsb (entry_eqb e) ms) eqn:E; [exact E|].
  rewrite existsb_app. simpl. rewrite entry_eqb_refl. apply orb_true_r.
Qed.

Lemma live_zremrangebyscore st key now cutoff :
  live (zremrangebyscore st key now cutoff) key now
  = List.filter (fun e => Qltb cutoff (e_ts e)) (live st key now).
Proof.
  unfold zremrangebyscore, live.
  destruct (st !! key) as [z|] eqn:E; [|rewrite E; reflexivity].
  destruct (expired z now) eqn:Ex.
  - rewrite lookup_delete_eq. reflexivity.
  - destruct (List.filter _ (zmembers z)) as [|m ms] eqn:F.
    + rewrite lookup_delete_eq. reflexivity.
    + rewrite lookup_insert_eq. unfold expired in *. simpl. rewrite Ex. reflexivity.
Qed.

Lemma dedup_wallets_length seen l : (length (dedup_wallets seen l) <= length l)%nat.
Proof.
  revert seen. induction l as [|e r IH]; intros seen; simpl; [lia|].
  destruct (existsb _ seen); simpl; [specialize (IH seen)|specialize (IH (e_wallet e :: seen))]; lia.
Qed.

Lemma dedup_wallets_fresh seen l w :
  w ∈ map e_wallet (dedup_wallets seen l) -> w ∉ seen.
Proof.
  revert seen. induction l as [|e r IH]; intros seen Hw; simpl in Hw; [inversion Hw|].
  destruct (existsb (String.eqb (e_wallet e)) seen) eqn:E; [by apply IH|].
  simpl in Hw. apply elem_of_cons in Hw as [->|Hw].
  - intros Hin. apply not_true_iff_false in E. apply E.
    apply existsb_exists. exists (e_wallet e). split; [by apply list_elem_of_In|].
    apply String.eqb_refl.
  - apply IH in Hw. intros Hin. apply Hw. by apply elem_of_cons; right.
Qed.

Lemma dedup_wallets_nodup seen l : NoDup (map e_wallet (dedup_wallets seen l)).
Proof.
  revert seen. induction l as [|e r IH]; intros seen; simpl; [constructor|].
  destruct (existsb _ seen); [apply IH|]. simpl. constructor; [|apply IH].
  intros Hin. apply dedup_wallets_fresh in Hin. apply Hin. by apply elem_of_cons; left.
Qed.

Lemma dedup_wallets_cover seen l w :
  w ∈ map e_wallet l -> w ∈ seen \/ w ∈ map e_wallet (dedup_wallets seen l).
Proof.
  revert seen. induction l as [|e r IH]; intros seen Hw; simpl in *; [inversion Hw|].
  apply elem_of_cons in Hw as [->|Hw].
  - destruct (existsb (String.eqb (e_wallet e)) seen) eqn:E.
    + left. apply existsb_exists in E as (x & Hx & Hxe).
      apply String.eqb_eq in Hxe. subst. by apply list_elem_of_In.
    + right. simpl. by apply elem_of_cons; left.
  - destruct (existsb (String.eqb (e_wallet e)) seen); [by apply IH|].
    destruct (IH (e_wallet e :: seen) Hw) as [H|H].
    + apply elem_of_cons in H as [->|H]; [right; simpl; by apply elem_of_cons; left|by left].
    + right. simpl. by apply elem_of_cons; right.
Qed.

Lemma dedup_wallets_sub seen l w :
  w ∈ map e_wallet (dedup_wallets seen l) -> w ∈ map e_wallet l.
Proof.
  revert seen. induction l as [|e r IH]; intros seen Hw; simpl in *; [inversion Hw|].
  destruct (existsb _ seen).
  - apply elem_of_cons; right. by eapply IH.
  - simpl in Hw. apply elem_of_cons in Hw as [->|Hw]; apply elem_of_cons; [by left|].
    right. by eapply IH.
Qed.

Lemma zle_true a b : zle a b = true -> ts_le a b.
Proof.
  unfold zle, ts_le. intros H. apply orb_true_iff in H as [H|H].
  - apply Qltb_spec in H. lra.
  - apply andb_true_iff in H as [H _]. apply Qeqb_spec in H. rewrite H. lra.
Qed.

Lemma zle_false a b : zle a b = false -> ts_le b a.
Proof.
  unfold zle, ts_le. intros H. apply orb_false_iff in H as [H _].
  apply Qltb_false in H. exact H.
Qed.

Lemma zinsert_hd f e l :
  HdRel ts_le f l -> ts_le f e -> HdRel ts_le f (zinsert e l).
Proof.
  intros Hl He. destruct l as [|g r]; simpl; [constructor; exact He|].
  destruct (zle e g); constructor; [exact He|]. inversion Hl; assumption.
Qed.

Lemma zinsert_sorted e l : Sorted ts_le l -> Sorted ts_le (zinsert e l).
Proof.
  induction l as [|f r IH]; intros Hs; simpl.
  - constructor; constructor.
  - destruct (zle e f) eqn:E.
    + constructor; [exact Hs|]. constructor. by apply zle_true.
    + inversion Hs as [|? ? Hr Hhd]; subst. constructor; [by apply IH|].
      apply zinsert_hd; [exact Hhd|]. by apply zle_false.
Qed.

Lemma zrange_sorted l : Sorted ts_le (zrange l).
Proof.
  induction l as [|e r IH]; simpl; [constructor|]. by apply zinsert_sorted.
Qed.

Lemma record_trade_pos window st now token chain wallet side meta :
  0 < inject_Z window * 60 + 300 ->
  record_trade window st now token chain wallet side meta
  = <[key_of side chain token :=
        mkZSet (zadd_member (mkEntry wallet now side meta) (live st (key_of side chain token) now))
               (Some (now + (inject_Z window * 60 + 300)))]> st.
Proof.
  intros Ht. unfold record_trade, expire_key.
  assert (Qle_bool (inject_Z window * 60 + 300) 0 = false) as -> by (apply Qle_bool_false; exact Ht).
  rewrite lookup_insert_eq. simpl. by rewrite insert_insert_eq.
Qed.

Lemma record_trade_nonpos window st now token chain wallet side meta :
  inject_Z window * 60 + 300 <= 0 ->
  record_trade window st now token chain wallet side meta = delete (key_of side chain token) st.
Proof.
  intros Ht. unfold record_trade, expire_key.
  assert (Qle_bool (inject_Z window * 60 + 300) 0 = true) as -> by (apply Qle_bool_iff; exact Ht).
  by rewrite delete_insert_eq.
Qed.

Lemma live_insert_fresh key ms now ttl st :
  0 < ttl -> live (<[key := mkZSet ms (Some (now + ttl))]> st) key now = ms.
Proof.
  intros Ht. unfold live. rewrite lookup_insert_eq. unfold expired. simpl.
  assert (Qle_bool (now + ttl) now = false) as -> by (apply Qle_bool_false; lra).
  reflexivity.
Qed.

Lemma existsb_zadd_self e ms : existsb (entry_eqb e) (zadd_member e ms) = true.
Proof.
  unfold zadd_member. destruct (existsb (entry_eqb e) ms) eqn:E; [exact E|].
  rewrite existsb_app. simpl. rewrite entry_eqb_refl. apply orb_true_r.
Qed.

Lemma existsb_zadd_keep x e ms :
  existsb (entry_eqb x) ms = true -> existsb (entry_eqb x) (zadd_member e ms) = true.
Proof.
  intros H. unfold zadd_member. destruct (existsb (entry_eqb e) ms); [exact H|].
  rewrite existsb_app, H. reflexivity.
Qed.

(** C2 (amended): a check first removes the entries whose timestamp is
    at most [now - window] (the boundary instant included), lists the
    rest in time order, deduplicates them by wallet (first occurrence
    kept, every wallet kept once), and returns the deduplicated events
    iff there are at least [min_wallets] of them; in scenario S5 the
    check returns the events of W1 and W2. *)
Theorem check_confluence_spec :
  (forall (window : Z) (st : Store) (now : Q) (token chain side : string) (min_wallets : Z),
    let cutoff := now - inject_Z window * 60 in
    let entries := zrange (List.filter (fun e => Qltb cutoff (e_ts e))
                             (live st (key_of side chain token) now)) in
    let events := dedup_wallets [] entries in
    snd (check_confluence window st now token chain side min_wallets)
      = (if Z.leb min_wallets (Z.of_nat (length events)) then Some events else None)
    /\ Sorted ts_le entries
    /\ NoDup (map e_wallet events)
    /\ (forall w, w ∈ map e_wallet entries <-> w ∈ map e_wallet events)) /\
  map e_wallet <$> snd (check_confluence confluence_minutes scenario_s5 t_ref
                          "T" "ethereum" "buy" 2) = Some ["W1"; "W2"].
Proof.
  split; [|vm_compute; reflexivity].
  intros window st now token chain side min_wallets cutoff entries events.
  split; [|split; [|split]].
  - unfold check_confluence. cbv zeta. rewrite live_zremrangebyscore.
    fold cutoff entries events. simpl.
    destruct (Z.of_nat (length entries) <? min_wallets)%Z eqn:E;
      [|destruct (min_wallets <=? Z.of_nat (length events))%Z; reflexivity].
    pose proof (dedup_wallets_length [] entries) as Hl. fold events in Hl.
    apply Z.ltb_lt in E.
    assert (Z.leb min_wallets (Z.of_nat (length events)) = false) as -> by (apply Z.leb_gt; lia).
    reflexivity.
  - apply zrange_sorted.
  - apply dedup_wallets_nodup.
  - intros w. split.
    + intros Hw. destruct (dedup_wallets_cover [] entries w Hw) as [H|H]; [inversion H|exact H].
    + apply dedup_wallets_sub.
Qed.

(** C2 (counterexample): with W1 recorded exactly one window before the
    check and W2 one minute before, the check at [min_wallets = 2] returns
    nothing, while dropping only entries with [ts < now - window] would
    return W1 and W2. *)
Lemma check_confluence_boundary_counterexample :
  snd (check_confluence confluence_minutes scenario_boundary t_ref "T" "ethereum" "buy" 2)
    = None /\
  map e_wallet <$> claimed_check confluence_minutes scenario_boundary t_ref
                     "T" "ethereum" "buy" 2 = Some ["W1"; "W2"].
Proof. split; vm_compute; reflexivity. Qed.

(** C7 (amended): recording an identical event (same key, wallet, time
    and metadata) twice leaves the keyed store as recording it once; when
    the metadata differs, the second call stores a second member, so both
    events are in the key's live set. *)
Theorem record_trade_idempotent :
  (forall (window : Z) (st : Store) (now : Q) (token chain wallet side : string)
          (meta : list (string * string)),
    record_trade window (record_trade window st now token chain wallet side meta)
      now token chain wallet side meta
    = record_trade window st now token chain wallet side meta) /\
  (forall (window : Z) (st : Store) (now : Q) (token chain wallet side : string)
          (meta1 meta2 : list (string * string)),
    0 < inject_Z window * 60 + 300 ->
    let st2 := record_trade window (record_trade window st now token chain wallet side meta1)
                 now token chain wallet side meta2 in
    existsb (entry_eqb (mkEntry wallet now side meta1)) (live st2 (key_of side chain token) now)
    = true /\
    existsb (entry_eqb (mkEntry wallet now side meta2)) (live st2 (key_of side chain token) now)
    = true).
Proof.
  split.
  - intros window st now token chain wallet side meta.
    destruct (Qlt_le_dec 0 (inject_Z window * 60 + 300)) as [Ht|Ht].
    + rewrite !(record_trade_pos _ _ _ _ _ _ _ _ Ht).
      rewrite live_insert_fresh by exact Ht. rewrite zadd_member_idem.
      by rewrite insert_insert_eq.
    + rewrite !(record_trade_nonpos _ _ _ _ _ _ _ _ Ht). by rewrite delete_delete_eq.
  - intros window st now token chain wallet side meta1 meta2 Ht st2.
    unfold st2. rewrite !(record_trade_pos _ _ _ _ _ _ _ _ Ht).
    rewrite !live_insert_fresh by exact Ht. split.
    + apply existsb_zadd_keep, existsb_zadd_self.
    + apply existsb_zadd_self.
Qed.

(** C7 (counterexample): recording W1 with metadata [meta_a] and then
    with [meta_b] at the same instant leaves two members under the key,
    unlike recording either event once. *)
Lemma record_trade_metadata_counterexample :
  let st_a := record_trade confluence_minutes ∅ t_ref "T" "ethereum" "W1" "buy" meta_a in
  let st_b := record_trade confluence_minutes ∅ t_ref "T" "ethereum" "W1" "buy" meta_b in
  let st_ab := record_trade confluence_minutes st_a t_ref "T" "ethereum" "W1" "buy" meta_b in
  st_ab <> st_a /\ st_ab <> st_b.
Proof.
  cbv zeta. split; intros H;
    apply (f_equal (fun st => length (live st (key_of "buy" "ethereum" "T") t_ref))) in H;
    vm_compute in H; discriminate.
Qed.

(** Witness of C7: W1 recorded on an empty store with [meta_a], then
    with [meta_b]. *)
Lemma record_trade_idempotent_witness :
  0 < inject_Z confluence_minutes * 60 + 300 /\
  let st2 := record_trade confluence_minutes
               (record_trade confluence_minutes ∅ t_ref "T" "ethereum" "W1" "buy" meta_a)
               t_ref "T" "ethereum" "W1" "buy" meta_b in
  existsb (entry_eqb (mkEntry "W1" t_ref "buy" meta_a)) (live st2 (key_of "buy" "ethereum" "T") t_ref)
  = true /\
  existsb (entry_eqb (mkEntry "W1" t_ref "buy" meta_b)) (live st2 (key_of "buy" "ethereum" "T") t_ref)
  = true.
Proof.
  assert (H : 0 < inject_Z confluence_minutes * 60 + 300) by qcmp.
  split; [exact H|].
  exact (proj2 record_trade_idempotent confluence_minutes ∅ t_ref "T" "ethereum" "W1" "buy"
           meta_a meta_b H).
Defined.

End ConfluenceFacts.

Module PaperFacts.
Import Paper.

Lemma dict_get_None_mem k d : dict_get k d = None <-> dict_mem k d = false.
Proof.
  induction d as [|[k' v] r IH]; simpl; [tauto|].
  destruct (String.eqb k k'); simpl; [split; discriminate|exact IH].
Qed.

Lemma dict_get_set_eq k v d : dict_get k (dict_set k v d) = Some v.
Proof.
  unfold dict_set. destruct (dict_mem k d) eqn:M.
  - induction d as [|[k' v'] r IH]; simpl in *; [discriminate|].
    destruct (String.eqb k k') eqn:E; simpl; rewrite E; [reflexivity|]. apply IH, M.
  - apply dict_get_None_mem in M.
    induction d as [|[k' v'] r IH]; simpl in *.
    + rewrite String.eqb_refl. reflexivity.
    + destruct (String.eqb k k'); [discriminate|]. apply IH, M.
Qed.

Lemma dict_get_set_ne k j v d : k <> j -> dict_get j (dict_set k v d) = dict_get j d.
Proof.
  intros Hne. unfold dict_set. destruct (dict_mem k d).
  - induction d as [|[k' v'] r IH]; simpl; [reflexivity|].
    destruct (String.eqb k k') eqn:E; simpl.
    + apply String.eqb_eq in E. subst k'.
      destruct (String.eqb j k) eqn:E2; [apply String.eqb_eq in E2; congruence|exact IH].
    + destruct (String.eqb j k'); [reflexivity|exact IH].
  - induction d as [|[k' v'] r IH]; simpl.
    + destruct (String.eqb j k) eqn:E2; [apply String.eqb_eq in E2; congruence|reflexivity].
    + destruct (String.eqb j k'); [reflexivity|exact IH].
Qed.

Lemma dict_get_del_eq k d : dict_get k (dict_del k d) = None.
Proof.
  unfold dict_del. induction d as [|[k' v'] r IH]; simpl; [reflexivity|].
  destruct (String.eqb k k') eqn:E; simpl; [exact IH|]. rewrite E. exact IH.
Qed.

Lemma dict_get_del_ne k j d : k <> j -> dict_get j (dict_del k d) = dict_get j d.
Proof.
  intros Hne. unfold dict_del. induction d as [|[k' v'] r IH]; simpl; [reflexivity|].
  destruct (String.eqb k k') eqn:E; simpl.
  - apply String.eqb_eq in E. subst k'.
    destruct (String.eqb j k) eqn:E2; [apply String.eqb_eq in E2; congruence|exact IH].
  - destruct (String.eqb j k'); [reflexivity|exact IH].
Qed.

Lemma dict_set_keys_mem k v d : dict_mem k d = true -> map fst (dict_set k v d) = map fst d.
Proof.
  intros M. unfold dict_set. rewrite M. rewrite map_map. apply map_ext.
  intros [k' v']. simpl. destruct (String.eqb k k'); reflexivity.
Qed.

Lemma dict_get_mem k d v : dict_get k d = Some v -> dict_mem k d = true.
Proof.
  intros H. destruct (dict_mem k d) eqn:M; [reflexivity|].
  apply dict_get_None_mem in M. congruence.
Qed.

(** [execute_sell] either changes nothing or removes the key and appends
    one closed trade for it. *)
Lemma execute_sell_shape tr k p r tr' o :
  execute_sell tr k p r = PyOk (tr', o) ->
  tr' = tr \/
  (positions tr' = dict_del k (positions tr) /\
   exists ct, closed_trades tr' = closed_trades tr ++ [ct] /\ c_token ct = k /\
              c_sell_reason ct = r /\ o = Some ct).
Proof.
  unfold execute_sell. destruct (dict_get k (positions tr)) as [pos|].
  - destruct (Qeqb (p_cost_basis pos) 0); [discriminate|].
    intros H. injection H as <- <-. right. split; [reflexivity|].
    eexists. split; [reflexivity|]. split; [reflexivity|]. split; reflexivity.
  - intros H. injection H as <- <-. left. reflexivity.
Qed.

Lemma keeps_sell t pos tr0 tr k p r tr' o :
  k <> t -> keeps t pos tr0 tr -> execute_sell tr k p r = PyOk (tr', o) -> keeps t pos tr0 tr'.
Proof.
  intros Hne [Hg (new & Hc & Hf)] H.
  apply execute_sell_shape in H as [->|(Hp & ct & Hct & Htok & _)];
    [split; [exact Hg|exists new; split; assumption]|].
  split; [rewrite Hp, dict_get_del_ne by exact Hne; exact Hg|].
  exists (new ++ [ct]). rewrite Hct, Hc, <- app_assoc. split; [reflexivity|].
  apply Forall_app. split; [exact Hf|]. constructor; [congruence|constructor].
Qed.

Lemma pm_step_keeps price now t pos tr0 tr c k :
  price t = Some 0 -> keeps t pos tr0 tr -> keeps t pos tr0 (fst (pm_step price now (tr, c) k)).
Proof.
  intros Hp Hk. unfold pm_step.
  destruct (dict_get k (positions tr)) as [position|] eqn:Eg; [|exact Hk].
  destruct (String.eqb k t) eqn:Ekt.
  { apply String.eqb_eq in Ekt. subst k. rewrite Hp. simpl. exact Hk. }
  assert (Hne : k <> t) by (intros ->; rewrite String.eqb_refl in Ekt; discriminate).
  destruct (price k) as [cp|]; [|exact Hk].
  destruct (Qeqb cp 0); [exact Hk|].
  destruct (Qeqb (p_cost_basis position) 0); [exact Hk|].
  destruct (exit_rules _ _ _) as [store reason].
  assert (Hk1 : keeps t pos tr0 (match store with
                 | Some pk => set_positions tr (dict_set k (with_peak position pk) (positions tr))
                 | None => tr end)).
  { destruct store as [pk|]; [|exact Hk].
    destruct Hk as [Hg Hc]. split; [|exact Hc].
    simpl. rewrite dict_get_set_ne by exact Hne. exact Hg. }
  destruct reason as [r|]; [|exact Hk1].
  destruct (execute_sell _ k cp r) as [[tr2 [ct|]]|e] eqn:Es; simpl;
    [eapply keeps_sell; eauto|eapply keeps_sell; eauto|exact Hk1].
Qed.

(** C3: in a mark cycle of either position manager, a position whose mark
    is 0 stays exactly as it was and no closed trade is recorded for its
    token. *)
Theorem zero_mark_position_held :
  (forall (price : string -> option Q) (now : Q) (tr : Tracker) (token : string)
          (pos : Position),
     price token = Some 0 -> dict_get token (positions tr) = Some pos ->
     keeps token pos tr (fst (check_and_exit_positions price now tr))) /\
  (forall (price : string -> option Q) (tr : Tracker) (token : string) (pos : Position),
     price token = Some 0 -> dict_get token (positions tr) = Some pos ->
     keeps token pos tr (manage_positions_job price tr)).
Proof.
  split.
  - intros price now tr token pos Hp Hg. unfold check_and_exit_positions.
    assert (H0 : keeps token pos tr (fst (tr, 0%nat)))
      by (split; [exact Hg|exists []; rewrite app_nil_r; split; [reflexivity|constructor]]).
    revert H0. generalize (tr, 0%nat) as acc. generalize (map fst (positions tr)) as ks.
    induction ks as [|k ks IH]; intros [tr1 c] H1; cbn [fold_left]; [exact H1|].
    apply IH. by apply pm_step_keeps.
  - intros price tr token pos Hp Hg.
    change (keeps token pos tr tr). split; [exact Hg|exists []; rewrite app_nil_r; split; [reflexivity|constructor]].
Qed.

(** Witness of C3 on [tr_one_held]: both managers leave the position
    untouched on a mark of 0. *)
Lemma zero_mark_position_held_witness :
  Some 0 = Some 0 /\ dict_get "T" (positions tr_one_held) = Some pos_T /\
  keeps "T" pos_T tr_one_held (fst (check_and_exit_positions (fun _ => Some 0) 7200 tr_one_held)) /\
  keeps "T" pos_T tr_one_held (manage_positions_job (fun _ => Some 0) tr_one_held).
Proof.
  split; [reflexivity|]. split; [reflexivity|]. split.
  - apply (proj1 zero_mark_position_held (fun _ => Some 0) 7200 tr_one_held "T" pos_T);
      reflexivity.
  - apply (proj2 zero_mark_position_held (fun _ => Some 0) tr_one_held "T" pos_T);
      reflexivity.
Defined.

(** C10 (amended): [execute_buy] on a token already held, with an amount
    within the cash balance and a nonzero price, overwrites the entry in
    place with the new position, leaves every other entry and the closed
    trades as they were, debits the amount, and keeps the keys of the
    dict, hence at most one entry per token. *)
Theorem execute_buy_replaces_held (tr : Tracker) (token chain : string) (price amount : Q)
    (reason : string) (num_whales : Z) (now : Q) (old : Position) :
  NoDup (map fst (positions tr)) ->
  amount <= current_balance tr -> ~ price == 0 ->
  dict_get token (positions tr) = Some old ->
  exists tr',
    execute_buy tr token chain price amount reason num_whales now = PyOk (tr', true) /\
    dict_get token (positions tr')
      = Some (mkPosition token chain (amount / price) price amount now reason num_whales
                None None None) /\
    (forall k, k <> token -> dict_get k (positions tr') = dict_get k (positions tr)) /\
    current_balance tr' = current_balance tr - amount /\
    closed_trades tr' = closed_trades tr /\
    map fst (positions tr') = map fst (positions tr) /\
    NoDup (map fst (positions tr')).
Proof.
  intros Hnd Hle Hp Hg. unfold execute_buy.
  rewrite (proj2 (Qltb_false _ _) Hle), (proj2 (Qeqb_false _ _) Hp).
  eexists. split; [reflexivity|]. cbn [positions current_balance closed_trades].
  pose proof (dict_get_mem _ _ _ Hg) as M.
  split; [apply dict_get_set_eq|]. split.
  { intros k Hk. apply dict_get_set_ne. congruence. }
  split; [reflexivity|]. split; [reflexivity|].
  rewrite dict_set_keys_mem by exact M. split; [reflexivity|exact Hnd].
Qed.

(** Witness of C10: buying more [T] on [tr_one_held]. *)
Lemma execute_buy_replaces_held_witness :
  NoDup (map fst (positions tr_one_held)) /\ 50 <= current_balance tr_one_held /\
  ~ 2 == 0 /\ dict_get "T" (positions tr_one_held) = Some pos_T /\
  exists tr',
    execute_buy tr_one_held "T" "ethereum" 2 50 "again" 2 60 = PyOk (tr', true) /\
    dict_get "T" (positions tr')
      = Some (mkPosition "T" "ethereum" (50 / 2) 2 50 60 "again" 2 None None None) /\
    (forall k, k <> "T" -> dict_get k (positions tr') = dict_get k (positions tr_one_held)) /\
    current_balance tr' = current_balance tr_one_held - 50 /\
    closed_trades tr' = closed_trades tr_one_held /\
    map fst (positions tr') = map fst (positions tr_one_held) /\
    NoDup (map fst (positions tr')).
Proof.
  assert (Hnd : NoDup (map fst (positions tr_one_held))).
  { simpl. constructor; [apply not_elem_of_nil|constructor]. }
  assert (Hle : 50 <= current_balance tr_one_held) by (vm_compute; discriminate).
  assert (Hp : ~ 2 == 0) by (vm_compute; discriminate).
  split; [exact Hnd|]. split; [exact Hle|]. split; [exact Hp|]. split; [reflexivity|].
  exact (execute_buy_replaces_held tr_one_held "T" "ethereum" 2 50 "again" 2 60 pos_T
           Hnd Hle Hp eq_refl).
Defined.

(** C10 counterexample: with the cash to cover it, buying the held [T]
    at price 0 raises [ZeroDivisionError] instead of replacing the
    entry and debiting the amount. *)
Lemma execute_buy_zero_price_counterexample :
  50 <= current_balance tr_one_held /\ dict_get "T" (positions tr_one_held) = Some pos_T /\
  execute_buy tr_one_held "T" "ethereum" 0 50 "again" 2 60 = PyRaise ZeroDivisionError.
Proof. split; [vm_compute; discriminate|]. split; reflexivity. Qed.

End PaperFacts.

Module MonitorFacts.
Import Paper Monitor PaperFacts.

(** C4: a confluence on a side other than buy opens nothing (at most the
    token's position is sold); on the buy side the tracker is unchanged
    unless every precondition holds (events, meme filter, token not held,
    fewer than 3 positions, cash of at least $10, a nonzero price), and
    then the amount invested and the targets follow the whale tier. *)
Theorem paper_buy_entry_policy (tr : Tracker) (side token chain : string)
    (events : option (list Confluence.Entry)) (is_meme : bool) (fetched : option Q) (now : Q) :
  (side <> "buy" ->
   on_confluence tr side token chain events is_meme fetched now = tr \/
   positions (on_confluence tr side token chain events is_meme fetched now)
   = dict_del token (positions tr)) /\
  (side = "buy" ->
   on_confluence tr side token chain events is_meme fetched now = tr \/
   exists evs price pct tp sl,
     events = Some evs /\ evs <> [] /\ is_meme = true /\
     dict_get token (positions tr) = None /\ (length (positions tr) < 3)%nat /\
     10 <= current_balance tr /\ fetched = Some price /\ ~ price == 0 /\
     (((10 <= Z.of_nat (length evs))%Z /\ pct = 60 # 100 /\ tp = 40 /\ sl = -15) \/
      ((7 <= Z.of_nat (length evs) <= 9)%Z /\ pct = 50 # 100 /\ tp = 35 /\ sl = -15) \/
      ((Z.of_nat (length evs) < 7)%Z /\ pct = 40 # 100 /\ tp = 30 /\ sl = -15)) /\
     10 <= current_balance tr * pct /\
     current_balance (on_confluence tr side token chain events is_meme fetched now)
     = current_balance tr - current_balance tr * pct /\
     closed_trades (on_confluence tr side token chain events is_meme fetched now)
     = closed_trades tr /\
     exists pos,
       dict_get token (positions (on_confluence tr side token chain events is_meme fetched now))
       = Some pos /\
       p_cost_basis pos = current_balance tr * pct /\ p_entry_price pos = price /\
       p_take_profit pos = Some tp /\ p_stop_loss pos = Some sl).
Proof.
  unfold on_confluence. split.
  - intros Hs. destruct events as [[|e evs0]|]; try (left; reflexivity).
    apply String.eqb_neq in Hs. rewrite Hs.
    destruct (String.eqb side "sell"); [|left; reflexivity].
    unfold execute_paper_sell.
    destruct (negb _); [left; reflexivity|].
    destruct fetched as [cp|]; [|left; reflexivity].
    destruct (Qeqb cp 0); [left; reflexivity|].
    destruct (execute_sell tr token cp _) as [[tr2 o]|e'] eqn:Es; [|left; reflexivity].
    apply execute_sell_shape in Es as [->|[Hp _]]; [left; reflexivity|right; exact Hp].
  - intros ->. destruct events as [[|e evs0]|]; try (left; reflexivity).
    cbn [String.eqb Ascii.eqb Bool.eqb andb]. unfold execute_paper_buy.
    destruct is_meme; [|left; reflexivity]. cbn [negb].
    destruct (3 <=? length (positions tr))%nat eqn:Hlen; [left; reflexivity|].
    destruct (dict_mem token (positions tr)) eqn:Hm; [left; reflexivity|].
    destruct fetched as [cp|]; [|left; reflexivity].
    destruct (Qeqb cp 0) eqn:Hcp; [left; reflexivity|].
    destruct (sizing (Z.of_nat (length (e :: evs0)))) as [[pct tp] sl] eqn:Hsz.
    destruct (Qltb (current_balance tr * pct) 10) eqn:Hamt; [left; reflexivity|].
    apply Qltb_false in Hamt.
    assert (Htier :
      ((10 <= Z.of_nat (length (e :: evs0)))%Z /\ pct = 60 # 100 /\ tp = 40 /\ sl = -15) \/
      ((7 <= Z.of_nat (length (e :: evs0)) <= 9)%Z /\ pct = 50 # 100 /\ tp = 35 /\ sl = -15) \/
      ((Z.of_nat (length (e :: evs0)) < 7)%Z /\ pct = 40 # 100 /\ tp = 30 /\ sl = -15)).
    { unfold sizing in Hsz.
      destruct (Z.leb 10 _) eqn:H10; [|destruct (Z.leb 7 _) eqn:H7];
        injection Hsz as <- <- <-.
      - left. apply Z.leb_le in H10. auto.
      - right; left. apply Z.leb_gt in H10. apply Z.leb_le in H7. repeat split; lia.
      - right; right. apply Z.leb_gt in H7. auto. }
    destruct (execute_buy tr token chain cp (current_balance tr * pct) _ _ now)
      as [[tr1 [|]]|e'] eqn:Eb; [|left|left; reflexivity].
    + unfold execute_buy in Eb.
      destruct (Qltb (current_balance tr) _); [discriminate|]. rewrite Hcp in Eb.
      injection Eb as <-. cbn [positions]. rewrite dict_get_set_eq.
      right. exists (e :: evs0), cp, pct, tp, sl.
      split; [reflexivity|]. split; [discriminate|]. split; [reflexivity|].
      split; [by apply dict_get_None_mem|]. split; [by apply Nat.leb_gt|].
      split; [destruct Htier as [(_ & -> & _)|[(_ & -> & _)|(_ & -> & _)]]; lra|].
      split; [reflexivity|]. split; [by apply Qeqb_false|].
      split; [exact Htier|]. split; [exact Hamt|].
      split; [reflexivity|]. split; [reflexivity|].
      eexists. split; [apply dict_get_set_eq|]. repeat split.
    + unfold execute_buy in Eb.
      destruct (Qltb (current_balance tr) _); [congruence|]. rewrite Hcp in Eb. discriminate.
Qed.

(** Witness of C4: a two-whale buy of [T] at $1 with $1000 of cash. *)
Lemma paper_buy_entry_policy_witness :
  "buy" = "buy" /\
  (on_confluence tr_empty "buy" "T" "ethereum" (Some [ev_w1; ev_w2]) true (Some 1) 0 = tr_empty \/
   exists evs price pct tp sl,
     Some [ev_w1; ev_w2] = Some evs /\ evs <> [] /\ true = true /\
     dict_get "T" (positions tr_empty) = None /\ (length (positions tr_empty) < 3)%nat /\
     10 <= current_balance tr_empty /\ Some 1 = Some price /\ ~ price == 0 /\
     (((10 <= Z.of_nat (length evs))%Z /\ pct = 60 # 100 /\ tp = 40 /\ sl = -15) \/
      ((7 <= Z.of_nat (length evs) <= 9)%Z /\ pct = 50 # 100 /\ tp = 35 /\ sl = -15) \/
      ((Z.of_nat (length evs) < 7)%Z /\ pct = 40 # 100 /\ tp = 30 /\ sl = -15)) /\
     10 <= current_balance tr_empty * pct /\
     current_balance (on_confluence tr_empty "buy" "T" "ethereum" (Some [ev_w1; ev_w2]) true
                        (Some 1) 0)
     = current_balance tr_empty - current_balance tr_empty * pct /\
     closed_trades (on_confluence tr_empty "buy" "T" "ethereum" (Some [ev_w1; ev_w2]) true
                      (Some 1) 0)
     = closed_trades tr_empty /\
     exists pos,
       dict_get "T" (positions (on_confluence tr_empty "buy" "T" "ethereum"
                                  (Some [ev_w1; ev_w2]) true (Some 1) 0))
       = Some pos /\
       p_cost_basis pos = current_balance tr_empty * pct /\ p_entry_price pos = price /\
       p_take_profit pos = Some tp /\ p_stop_loss pos = Some sl).
Proof.
  split; [reflexivity|].
  exact (proj2 (paper_buy_entry_policy tr_empty "buy" "T" "ethereum" (Some [ev_w1; ev_w2])
                  true (Some 1) 0) eq_refl).
Defined.

Lemma exit_rules_no_peak pos profit_pct hold_time_hours :
  p_peak pos = None ->
  fst (exit_rules pos profit_pct hold_time_hours) = None /\
  snd (exit_rules pos profit_pct hold_time_hours) <> Some TrailingStop.
Proof.
  intros Hpk. unfold exit_rules. cbv zeta. rewrite Hpk. cbn [get_or].
  destruct (Qle_bool (get_or (p_take_profit pos) 20) profit_pct);
    [split; [reflexivity|discriminate]|].
  destruct (Qle_bool profit_pct (get_or (p_stop_loss pos) (-15)));
    [split; [reflexivity|discriminate]|].
  destruct (Qle_bool 24 hold_time_hours); [split; [reflexivity|discriminate]|].
  destruct (Qle_bool 15 profit_pct); [|split; [reflexivity|discriminate]].
  rewrite (proj2 (Qltb_false profit_pct profit_pct) (Qle_refl _)). cbv beta iota.
  assert (Qltb profit_pct (profit_pct - 8) = false) as -> by (apply Qltb_false; lra).
  split; [reflexivity|discriminate].
Qed.

Lemma no_peaks_get k d pos : no_peaks d -> dict_get k d = Some pos -> p_peak pos = None.
Proof.
  induction d as [|[k' v] r IH]; intros Hn Hg; [discriminate|].
  unfold no_peaks in Hn. inversion_clear Hn as [|? ? Hv Hr]. simpl in Hg.
  destruct (String.eqb k k'); [injection Hg as <-; exact Hv|exact (IH Hr Hg)].
Qed.

Lemma no_peaks_set k v d : no_peaks d -> p_peak v = None -> no_peaks (dict_set k v d).
Proof.
  intros Hd Hv. unfold no_peaks, dict_set in *. destruct (dict_mem k d).
  - induction Hd as [|[k' v'] r Hv' Hr IH]; cbn [map]; constructor; [|exact IH].
    destruct (String.eqb k (fst (k', v'))); [exact Hv|exact Hv'].
  - apply Forall_app. split; [exact Hd|]. constructor; [exact Hv|constructor].
Qed.

Lemma no_peaks_del k d : no_peaks d -> no_peaks (dict_del k d).
Proof.
  intros Hd. unfold no_peaks, dict_del in *.
  induction Hd as [|kv r Hv Hr IH]; [constructor|].
  cbn [List.filter]. destruct (negb _); [constructor; assumption|exact IH].
Qed.

Lemma sell_no_peaks tr k p r tr' o :
  no_peaks (positions tr) -> execute_sell tr k p r = PyOk (tr', o) ->
  no_peaks (positions tr') /\
  exists new, closed_trades tr' = closed_trades tr ++ new /\
              Forall (fun ct => c_sell_reason ct = r) new.
Proof.
  intros Hn Es.
  destruct (execute_sell_shape _ _ _ _ _ _ Es) as [->|[Hp (ct & Hc & _ & Hr & _)]].
  - split; [exact Hn|]. exists []. rewrite app_nil_r. split; [reflexivity|constructor].
  - rewrite Hp. split; [by apply no_peaks_del|]. exists [ct].
    split; [exact Hc|]. constructor; [exact Hr|constructor].
Qed.

Lemma pm_step_no_peaks price now tr0 acc k :
  no_peaks (positions (fst acc)) ->
  (exists new, closed_trades (fst acc) = closed_trades tr0 ++ new /\
               Forall (fun ct => c_sell_reason ct <> TrailingStop) new) ->
  no_peaks (positions (fst (pm_step price now acc k))) /\
  exists new, closed_trades (fst (pm_step price now acc k)) = closed_trades tr0 ++ new /\
              Forall (fun ct => c_sell_reason ct <> TrailingStop) new.
Proof.
  destruct acc as [tr c]. cbn [fst]. intros Hn Hc. unfold pm_step. cbv beta iota zeta.
  destruct (dict_get k (positions tr)) as [position|] eqn:Eg; [|split; assumption].
  destruct (price k) as [cp|]; [|split; assumption].
  destruct (Qeqb cp 0); [split; assumption|].
  destruct (Qeqb (p_cost_basis position) 0); [split; assumption|].
  match goal with
  | |- context [exit_rules position ?a ?b] =>
      pose proof (exit_rules_no_peak position a b (no_peaks_get _ _ _ Hn Eg)) as [Hs Hr];
      destruct (exit_rules position a b) as [store reason]
  end.
  cbn [fst snd] in Hs, Hr. subst store. cbv beta iota.
  destruct reason as [r|]; [|split; assumption].
  destruct (execute_sell tr k cp r) as [[tr2 o]|e] eqn:Es; [|split; assumption].
  destruct (sell_no_peaks _ _ _ _ _ _ Hn Es) as [Hn2 (n2 & Hc2 & Hf2)].
  destruct Hc as (n1 & Hc1 & Hf1).
  assert (Hfin : no_peaks (positions tr2) /\
    exists new, closed_trades tr2 = closed_trades tr0 ++ new /\
                Forall (fun ct => c_sell_reason ct <> TrailingStop) new).
  { split; [exact Hn2|]. exists (n1 ++ n2). rewrite Hc2, Hc1, app_assoc.
    split; [reflexivity|]. apply Forall_app. split; [exact Hf1|].
    eapply Forall_impl; [exact Hf2|]. intros ct Hct Heq. apply Hr.
    rewrite <- Hct, Heq. reflexivity. }
  destruct o; exact Hfin.
Qed.

Lemma check_exit_no_peaks price now tr0 ks acc :
  no_peaks (positions (fst acc)) ->
  (exists new, closed_trades (fst acc) = closed_trades tr0 ++ new /\
               Forall (fun ct => c_sell_reason ct <> TrailingStop) new) ->
  no_peaks (positions (fst (fold_left (pm_step price now) ks acc))) /\
  exists new, closed_trades (fst (fold_left (pm_step price now) ks acc)) =
              closed_trades tr0 ++ new /\
              Forall (fun ct => c_sell_reason ct <> TrailingStop) new.
Proof.
  revert acc. induction ks as [|k ks IH]; intros acc Hn Hc; cbn [fold_left];
    [split; assumption|].
  destruct (pm_step_no_peaks price now tr0 acc k Hn Hc) as [H1 H2]. exact (IH _ H1 H2).
Qed.

Lemma execute_paper_buy_no_peaks tr token chain n is_meme fetched now :
  no_peaks (positions tr) ->
  no_peaks (positions (execute_paper_buy tr token chain n is_meme fetched now)).
Proof.
  intros Hn. unfold execute_paper_buy.
  destruct (negb is_meme); [exact Hn|]. destruct (3 <=? _)%nat; [exact Hn|].
  destruct (dict_mem token (positions tr)); [exact Hn|].
  destruct fetched as [cp|]; [|exact Hn]. destruct (Qeqb cp 0); [exact Hn|].
  destruct (sizing n) as [[pct tp] sl]. destruct (Qltb _ 10); [exact Hn|].
  destruct (execute_buy tr token chain cp _ _ n now) as [[tr' b]|e] eqn:Eb; [|exact Hn].
  assert (Hn' : no_peaks (positions tr')).
  { unfold execute_buy in Eb. destruct (Qltb _ _); [injection Eb as <- _; exact Hn|].
    destruct (Qeqb cp 0); [discriminate|]. injection Eb as <- _. cbn [positions].
    by apply no_peaks_set. }
  destruct b; [|exact Hn'].
  destruct (dict_get token (positions tr')) as [pos|] eqn:Eg; [|exact Hn'].
  unfold set_positions. cbn [positions]. apply no_peaks_set; [exact Hn'|].
  exact (no_peaks_get _ _ _ Hn' Eg).
Qed.

Lemma execute_paper_sell_no_peaks tr token n fetched :
  no_peaks (positions tr) -> no_peaks (positions (execute_paper_sell tr token n fetched)).
Proof.
  intros Hn. unfold execute_paper_sell.
  destruct (negb _); [exact Hn|]. destruct fetched as [cp|]; [|exact Hn].
  destruct (Qeqb cp 0); [exact Hn|].
  destruct (execute_sell tr token cp (WhaleExit n)) as [[tr' o]|e] eqn:Es; [|exact Hn].
  exact (proj1 (sell_no_peaks _ _ _ _ _ _ Hn Es)).
Qed.

(** C5 (code bug): the trailing stop of [check_and_exit_positions] never
    fires. [position.get("peak_profit_pct", profit_pct)] defaults the peak
    to the current return, so for a position with no stored peak
    [profit_pct > peak_profit] is false, no peak is stored, and
    [profit_pct < peak_profit - 8.0] is false. [__init__] holds no
    position, [execute_buy] stores no peak, and neither the buy or sell of
    a confluence in [monitor_watchlist_wallets] nor a mark cycle adds one;
    so no position ever has a peak, and no trade a mark cycle closes has
    the trailing-stop reason. *)
Theorem trailing_stop_never_fires :
  (forall (pos : Position) (profit_pct hold_time_hours : Q),
     p_peak pos = None ->
     fst (exit_rules pos profit_pct hold_time_hours) = None /\
     snd (exit_rules pos profit_pct hold_time_hours) <> Some TrailingStop) /\
  (forall (starting : Q), no_peaks (positions (init_tracker starting))) /\
  (forall (tr : Tracker) (side token chain : string)
          (evs : option (list Confluence.Entry)) (is_meme : bool) (fetched : option Q) (now : Q),
     no_peaks (positions tr) ->
     no_peaks (positions (on_confluence tr side token chain evs is_meme fetched now))) /\
  (forall (price : string -> option Q) (now : Q) (tr : Tracker),
     no_peaks (positions tr) ->
     no_peaks (positions (fst (check_and_exit_positions price now tr))) /\
     exists new, closed_trades (fst (check_and_exit_positions price now tr)) =
                 closed_trades tr ++ new /\
                 Forall (fun ct => c_sell_reason ct <> TrailingStop) new).
Proof.
  split; [|split; [|split]].
  - exact exit_rules_no_peak.
  - intros starting. unfold no_peaks. constructor.
  - intros tr side token chain evs is_meme fetched now Hn. unfold on_confluence.
    destruct evs as [[|e evs]|]; [exact Hn| |exact Hn].
    destruct (String.eqb side "buy"); [by apply execute_paper_buy_no_peaks|].
    destruct (String.eqb side "sell"); [by apply execute_paper_sell_no_peaks|exact Hn].
  - intros price now tr Hn. unfold check_and_exit_positions.
    apply (check_exit_no_peaks price now tr (map fst (positions tr)) (tr, 0%nat));
      [exact Hn|].
    exists []. rewrite app_nil_r. split; [reflexivity|constructor].
Qed.

(** Witness of C5: on [pos_T] at +25% within the first hour no peak is
    stored and there is no trailing stop, and the run of [tr_bought]
    keeps no peak through its first mark. *)
Lemma trailing_stop_never_fires_witness :
  p_peak pos_T = None /\ no_peaks (positions tr_bought) /\
  fst (exit_rules pos_T 25 1) = None /\
  no_peaks (positions tr_mark_up).
Proof.
  assert (H0 : no_peaks (positions tr_bought)) by (vm_compute; repeat constructor).
  split; [reflexivity|]. split; [exact H0|]. split.
  - exact (proj1 (proj1 trailing_stop_never_fires pos_T 25 1 eq_refl)).
  - exact (proj1 (proj2 (proj2 (proj2 trailing_stop_never_fires))
                    (fun _ => Some (125 # 100)) 3600 tr_bought H0)).
Defined.

(** C5 counterexample: the position of [tr_bought] (400 [T] for $400,
    take-profit +30%, stop-loss -15%) is marked at +25% after one hour,
    and no peak is recorded; after a second mark at +16% after two hours,
    9 points below the +25% it reached, it is still held and nothing has
    been sold. *)
Lemma trailing_stop_counterexample :
  (exists pos, dict_get "T" (positions tr_bought) = Some pos /\
     p_qty pos == 400 /\ p_cost_basis pos == 400 /\ p_bought_at pos == 0 /\
     p_take_profit pos = Some 30 /\ p_stop_loss pos = Some (-15)) /\
  option_map p_peak (dict_get "T" (positions tr_mark_up)) = Some None /\
  dict_mem "T" (positions tr_mark_down) = true /\ closed_trades tr_mark_down = [].
Proof.
  split; [|split; [|split]]; [|vm_compute; reflexivity..].
  eexists. split; [reflexivity|]. repeat split; vm_compute; reflexivity.
Qed.

End MonitorFacts.

Module DiscoveryFacts.
Import Discovery.

Lemma ingest_tx_present token chain now db tx row :
  db !! tx_hash_of tx = Some row -> ingest_tx token chain now db tx = db.
Proof.
  intros H. unfold ingest_tx. destruct (tx_from tx) as [w|]; [|reflexivity].
  destruct (String.eqb w ""); [reflexivity|]. destruct (negb _); [reflexivity|]. cbv zeta. rewrite H. reflexivity.
Qed.

Lemma ingest_tx_idem token chain now db tx :
  ingest_tx token chain now (ingest_tx token chain now db tx) tx = ingest_tx token chain now db tx.
Proof.
  destruct (db !! tx_hash_of tx) as [row|] eqn:E.
  - rewrite (ingest_tx_present _ _ _ _ _ _ E). apply (ingest_tx_present _ _ _ _ _ _ E).
  - unfold ingest_tx. destruct (tx_from tx) as [w|]; [|reflexivity].
    destruct (String.eqb w ""); [reflexivity|]. destruct (negb _); [reflexivity|]. cbv zeta. rewrite E.
    rewrite lookup_insert_eq. reflexivity.
Qed.

(** C8: inserting the same transaction [N >= 1] times gives the table of
    inserting it once, and once a row with hash [h] exists, any batch of
    transactions with hash [h] leaves the whole table (that row included)
    unchanged. *)
Theorem trade_insert_idempotent :
  (forall token chain now (db : TradeTable) (tx : Tx) (n : nat),
     ingest_all token chain now db (repeat tx (S n)) = ingest_tx token chain now db tx) /\
  (forall token chain now (db : TradeTable) (txs : list Tx) (h : string) (row : TradeRow),
     db !! h = Some row -> Forall (fun tx => tx_hash_of tx = h) txs ->
     ingest_all token chain now db txs = db).
Proof.
  split.
  - intros token chain now db tx n. unfold ingest_all. cbn [repeat fold_left].
    induction n as [|n IH]; [reflexivity|].
    cbn [repeat fold_left]. rewrite ingest_tx_idem. exact IH.
  - intros token chain now db txs h row Hdb Hall. unfold ingest_all.
    induction Hall as [|tx txs Hh _ IH]; [reflexivity|].
    cbn [fold_left]. rewrite (ingest_tx_present token chain now db tx row); [exact IH|].
    rewrite Hh. exact Hdb.
Qed.

(** Witness of C8: [tx_a] fetched twice more over [db_a]. *)
Lemma trade_insert_idempotent_witness :
  db_a !! "0xa" = Some row_a /\ Forall (fun tx => tx_hash_of tx = "0xa") [tx_a; tx_a] /\
  ingest_all "T" "ethereum" 200 db_a [tx_a; tx_a] = db_a.
Proof.
  assert (Hdb : db_a !! "0xa" = Some row_a) by apply lookup_insert_eq.
  assert (Hall : Forall (fun tx => tx_hash_of tx = "0xa") [tx_a; tx_a])
    by (repeat constructor).
  split; [exact Hdb|]. split; [exact Hall|].
  exact (proj2 trade_insert_idempotent "T" "ethereum" 200 db_a [tx_a; tx_a] "0xa" row_a Hdb Hall).
Defined.

End DiscoveryFacts.

Module EarlyFacts.
Import Early.

#[local] Instance Qmax_proper : Proper (Qeq ==> Qeq ==> Qeq) Qmax := Q.max_compat.
#[local] Instance Qmin_proper : Proper (Qeq ==> Qeq ==> Qeq) Qmin := Q.min_compat.

Lemma Qmax_l' x y : y <= x -> Qmax x y == x.
Proof. apply Q.max_l. Qed.

Lemma Qmax_r' x y : x <= y -> Qmax x y == y.
Proof. apply Q.max_r. Qed.

Lemma Qmin_l' x y : x <= y -> Qmin x y == x.
Proof. apply Q.min_l. Qed.

Lemma Qmin_r' x y : y <= x -> Qmin x y == y.
Proof. apply Q.min_r. Qed.

Lemma clip01_bounds x : 0 <= clip01 x <= 1.
Proof.
  unfold clip01. split; [apply Q.le_max_l|].
  apply Q.max_lub; [lra|apply Q.le_min_r].
Qed.

Lemma rank_score_eq (b t : Z) :
  (0 <= b)%Z -> (1 <= t)%Z ->
  calculate_rank_score (Some b) (Some t) == 40 * (1 - inject_Z b / inject_Z t).
Proof.
  intros Hb Ht. unfold calculate_rank_score. cbv beta iota zeta.
  assert (E1 : (if Z.eqb b 0 then 0%Z else b) = b) by (destruct (Z.eqb_spec b 0); lia).
  assert (E2 : (if Z.eqb t 0 then 1%Z else t) = t) by (destruct (Z.eqb_spec t 0); lia).
  rewrite E1, E2, Z.max_l by lia. reflexivity.
Qed.

Lemma mc_score_eq l :
  0 < l -> calculate_mc_score (Some l) == 40 * clip01 ((target_mc - 3 * l) / target_mc).
Proof.
  intros Hl. unfold calculate_mc_score, clip01. cbv beta iota zeta.
  assert (Qeqb l 0 = false) as -> by (apply Qeqb_false; intros E; lra).
  assert (Hx : (target_mc - 3 * l) / target_mc == 1 - l * (3 # 1000000)).
  { unfold target_mc, Qdiv. change (/ 1000000) with (1 # 1000000). ring. }
  assert (Hy : (target_mc - l * 3) / target_mc == 1 - l * (3 # 1000000)).
  { unfold target_mc, Qdiv. change (/ 1000000) with (1 # 1000000). ring. }
  rewrite Hx, (Qmin_l' (1 - l * (3 # 1000000)) 1) by lra.
  destruct (Qle_bool target_mc (l * 3)) eqn:E.
  - apply Qle_bool_iff in E. unfold target_mc in E. rewrite Qmax_l' by lra. ring.
  - rewrite Hy. reflexivity.
Qed.

Lemma vol_score_eq v tv :
  0 < tv -> calculate_volume_score (Some v) (Some tv) == 20 * Qmin (v / tv) (1 # 2) / (1 # 2).
Proof.
  intros H. unfold calculate_volume_score. cbv beta iota zeta.
  assert (Qeqb tv 0 = false) as -> by (apply Qeqb_false; intros E; lra).
  unfold Qdiv. ring.
Qed.

(** C9 (amended): with the token's liquidity recorded and positive,
    [rank_percentile] the share of earlier buyers, [estimated_mc] three
    times the liquidity and [participation] the buy's share of the window
    volume, the score is the EarlyScore formula; a missing or zero
    liquidity gives the neutral market-cap component 20; and for the
    first of 100 buyers, liquidity $10k (estimated MC $30k) and
    participation 0.2 the components are 40, 38.8 and 8 and the score
    86.8. *)
Theorem early_score_formula :
  (forall (b t : Z) (l v tv : Q),
     (0 <= b <= t)%Z -> (1 <= t)%Z -> 0 < l -> 0 <= v -> 0 < tv ->
     calculate_score (Some b) (Some t) (Some l) (Some v) (Some tv)
     == early_formula (inject_Z b / inject_Z t) (3 * l) (v / tv)) /\
  (forall l : Q, l == 0 -> calculate_mc_score (Some l) = 20) /\
  calculate_mc_score None = 20 /\
  calculate_rank_score (Some 0%Z) (Some 100%Z) == 40 /\
  calculate_mc_score (Some 10000) == 388 # 10 /\
  calculate_volume_score (Some 1000) (Some 5000) == 8 /\
  calculate_score (Some 0%Z) (Some 100%Z) (Some 10000) (Some 1000) (Some 5000) == 868 # 10.
Proof.
  split; [|split; [|split; [reflexivity|]]].
  - intros b t l v tv [Hb Hbt] Ht Hl Hv Htv. unfold calculate_score. cbv zeta.
    rewrite rank_score_eq, mc_score_eq, vol_score_eq by lia || lra.
    unfold early_formula.
    assert (Htq : 0 < inject_Z t) by (unfold Qlt; simpl; lia).
    assert (Hp0 : 0 <= inject_Z b / inject_Z t)
      by (apply Qle_shift_div_l; [exact Htq|unfold Qle; simpl; lia]).
    assert (Hp1 : inject_Z b / inject_Z t <= 1)
      by (apply Qle_shift_div_r; [exact Htq|unfold Qle; simpl; lia]).
    pose proof (clip01_bounds ((target_mc - 3 * l) / target_mc)) as Hc.
    assert (Hvt : 0 <= v / tv) by (apply Qle_shift_div_l; lra).
    assert (Hm0 : 0 <= Qmin (v / tv) (1 # 2)) by (apply Q.min_glb; lra).
    pose proof (Q.le_min_r (v / tv) (1 # 2)) as Hm1.
    assert (Hvol : 20 * Qmin (v / tv) (1 # 2) / (1 # 2) == 40 * Qmin (v / tv) (1 # 2)).
    { unfold Qdiv at 1. change (/ (1 # 2)) with (2 # 1). ring. }
    rewrite Hvol.
    set (p := inject_Z b / inject_Z t) in *.
    set (c := clip01 ((target_mc - 3 * l) / target_mc)) in *.
    set (m := Qmin (v / tv) (1 # 2)) in *.
    rewrite (Qmin_r' 100) by lra. rewrite Qmax_r' by lra. reflexivity.
  - intros l E. unfold calculate_mc_score.
    assert (Qeqb l 0 = true) as -> by (apply Qeqb_spec; exact E). reflexivity.
  - split; [vm_compute; reflexivity|]. split; [vm_compute; reflexivity|].
    split; vm_compute; reflexivity.
Qed.

(** Witness of C9: the first of 100 buyers, liquidity $10k, a $1000 buy
    in a $5000 window. *)
Lemma early_score_formula_witness :
  (0 <= 0 <= 100)%Z /\ (1 <= 100)%Z /\ 0 < 10000 /\ 0 <= 1000 /\ 0 < 5000 /\
  calculate_score (Some 0%Z) (Some 100%Z) (Some 10000) (Some 1000) (Some 5000)
  == early_formula (inject_Z 0 / inject_Z 100) (3 * 10000) (1000 / 5000).
Proof.
  assert (H1 : (0 <= 0 <= 100)%Z) by lia. assert (H2 : (1 <= 100)%Z) by lia.
  assert (H3 : 0 < 10000) by qcmp. assert (H4 : 0 <= 1000) by qcmp.
  assert (H5 : 0 < 5000) by qcmp.
  split; [exact H1|]. split; [exact H2|]. split; [exact H3|]. split; [exact H4|].
  split; [exact H5|].
  exact (proj1 early_score_formula 0%Z 100%Z 10000 1000 5000 H1 H2 H3 H4 H5).
Defined.

(** C9 counterexample: the same buy on a token whose recorded liquidity
    is 0 (estimated MC 0) scores 68, not the formula's 88. *)
Lemma early_score_zero_liquidity_counterexample :
  calculate_score (Some 0%Z) (Some 100%Z) (Some 0) (Some 1000) (Some 5000) == 68 /\
  early_formula (inject_Z 0 / inject_Z 100) (3 * 0) (1000 / 5000) == 88.
Proof. split; vm_compute; reflexivity. Qed.

End EarlyFacts.

Module PnlExtra.
Import Pnl.

Lemma first_seen_app l kt :
  first_seen_tokens (l ++ [kt]) =
  (if existsb (String.eqb (fst kt)) (first_seen_tokens l)
   then first_seen_tokens l else first_seen_tokens l ++ [fst kt]).
Proof. unfold first_seen_tokens. by rewrite fold_left_app. Qed.

Lemma existsb_eqb_elem k ks : existsb (String.eqb k) ks = true <-> k ∈ ks.
Proof.
  rewrite existsb_exists. split.
  - intros (x & Hx & E). apply String.eqb_eq in E. subst. by apply list_elem_of_In.
  - intros H. exists k. split; [by apply list_elem_of_In|apply String.eqb_refl].
Qed.

Lemma first_seen_inv l :
  NoDup (first_seen_tokens l) /\
  (forall k, k ∈ first_seen_tokens l <-> k ∈ map fst l).
Proof.
  induction l as [|kt l IH] using rev_ind.
  - split; [constructor|]. intros k. simpl. split; intros H; inversion H.
  - destruct IH as [Hnd Hin]. rewrite first_seen_app.
    destruct (existsb (String.eqb (fst kt)) (first_seen_tokens l)) eqn:E.
    + apply existsb_eqb_elem in E. split; [exact Hnd|]. intros k.
      rewrite map_app, elem_of_app, Hin. simpl. split; [tauto|].
      intros [H|H]; [exact H|]. apply list_elem_of_singleton in H. subst.
      by apply Hin.
    + assert (Hn : fst kt ∉ first_seen_tokens l)
        by (intros H; apply existsb_eqb_elem in H; congruence).
      split.
      * apply NoDup_app. split; [exact Hnd|]. split; [|apply NoDup_singleton].
        intros x Hx Hx'. apply list_elem_of_singleton in Hx'. subst. contradiction.
      * intros k. rewrite !elem_of_app, map_app, elem_of_app, Hin. simpl. tauto.
Qed.

Lemma trades_of_app l k t k' :
  trades_of (l ++ [(k, t)]) k' =
  trades_of l k' ++ (if String.eqb k k' then [t] else []).
Proof.
  unfold trades_of. rewrite List.filter_app, map_app. simpl.
  by destruct (String.eqb k k').
Qed.

Lemma trades_of_absent l k : k ∉ map fst l -> trades_of l k = [].
Proof.
  induction l as [|[k0 t0] l IH]; intros Hn; [reflexivity|].
  unfold trades_of. simpl. destruct (String.eqb k0 k) eqn:E.
  - apply String.eqb_eq in E. subst. exfalso. apply Hn. simpl. by apply elem_of_cons; left.
  - apply IH. intros H. apply Hn. simpl. by apply elem_of_cons; right.
Qed.

Lemma group_add_map l k t ks :
  NoDup ks -> (k ∉ ks -> trades_of l k = []) ->
  group_add k t (map (fun k' => (k', trades_of l k')) ks) =
  map (fun k' => (k', trades_of (l ++ [(k, t)]) k'))
    (if existsb (String.eqb k) ks then ks else ks ++ [k]).
Proof.
  induction ks as [|k0 ks IH]; intros Hnd Hab; simpl.
  - rewrite trades_of_app, String.eqb_refl, Hab by (intros H; inversion H). reflexivity.
  - apply NoDup_cons in Hnd as [Hk0 Hnd].
    destruct (String.eqb k k0) eqn:E; simpl.
    + apply String.eqb_eq in E. subst. rewrite trades_of_app, String.eqb_refl.
      f_equal. apply map_ext_in. intros k' Hk'. rewrite trades_of_app.
      destruct (String.eqb k0 k') eqn:E'; [|by rewrite app_nil_r].
      apply String.eqb_eq in E'. subst. exfalso. apply Hk0. by apply list_elem_of_In.
    + rewrite IH; [|exact Hnd|].
      * destruct (existsb (String.eqb k) ks); simpl;
          by rewrite trades_of_app, E, app_nil_r.
      * intros H. apply Hab. intros H'. apply elem_of_cons in H' as [H'|H']; [|contradiction].
        subst. by rewrite String.eqb_refl in E.
Qed.

Lemma group_by_token_snoc l k t :
  group_by_token (l ++ [(k, t)]) = group_add k t (group_by_token l).
Proof. unfold group_by_token. by rewrite fold_left_app. Qed.

(** [trades_by_token] lists every token once, in order of its first trade,
    with exactly that token's trades in their query order. *)
Lemma group_by_token_eq trades :
  group_by_token trades =
  map (fun k => (k, trades_of trades k)) (first_seen_tokens trades).
Proof.
  induction trades as [|[k t] l IH] using rev_ind; [reflexivity|].
  rewrite group_by_token_snoc, IH.
  destruct (first_seen_inv l) as [Hnd Hin].
  rewrite group_add_map; [|exact Hnd|].
  - by rewrite first_seen_app.
  - intros H. apply trades_of_absent. by rewrite <- Hin.
Qed.

End PnlExtra.

Module PnlWalletFacts.
Import Pnl PnlExtra.

Lemma wallet_pnl_fold fetched g r0 u0 :
  fst (fold_left (wallet_pnl_step fetched) g (r0, u0)) ==
    r0 + sum_Q (map (fun kg => fst (fst (calculate_token_pnl (snd kg) (fetched (fst kg))))) g) /\
  snd (fold_left (wallet_pnl_step fetched) g (r0, u0)) ==
    u0 + sum_Q (map (fun kg => snd (fst (calculate_token_pnl (snd kg) (fetched (fst kg))))) g).
Proof.
  revert r0 u0. induction g as [|kg g IH]; intros r0 u0; cbn [fold_left map sum_Q fold_right].
  - unfold sum_Q. cbn [fst snd fold_right]. split; ring.
  - unfold wallet_pnl_step at 2 4.
    destruct (calculate_token_pnl (snd kg) (fetched (fst kg))) as [[a b] c] eqn:E.
    destruct (IH (r0 + a) (u0 + b)) as [H1 H2]. unfold sum_Q in *.
    cbn [fst snd fold_right]. rewrite H1, H2. split; ring.
Qed.

Lemma best_multiple_fold g b :
  let res := fold_left best_multiple_step g b in
  b <= res /\
  (forall kg m, kg ∈ g -> token_multiple (snd kg) = Some m -> m <= res) /\
  (res = b \/ exists kg, kg ∈ g /\ token_multiple (snd kg) = Some res).
Proof.
  revert b. induction g as [|kg g IH]; intros b; cbn [fold_left].
  - split; [apply Qle_refl|]. split; [intros ? ? H; inversion H|by left].
  - set (b' := best_multiple_step b kg).
    assert (Hb : b <= b' /\ (forall m, token_multiple (snd kg) = Some m -> m <= b') /\
                 (b' = b \/ token_multiple (snd kg) = Some b')).
    { unfold b', best_multiple_step. destruct (token_multiple (snd kg)) as [m|] eqn:E.
      - destruct (Qltb b m) eqn:L.
        + apply Qltb_spec in L. split; [lra|]. split; [intros m' [= <-]; lra|by right].
        + apply Qltb_false in L. split; [lra|]. split; [intros m' [= <-]; lra|by left].
      - split; [lra|]. split; [discriminate|by left]. }
    destruct Hb as (Hb1 & Hb2 & Hb3). destruct (IH b') as (H1 & H2 & H3).
    split; [lra|]. split.
    + intros kg' m Hin Hm. apply elem_of_cons in Hin as [->|Hin].
      * specialize (Hb2 m Hm). lra.
      * by apply (H2 kg').
    + destruct H3 as [H3|(kg' & Hin & Hm)].
      * rewrite H3. destruct Hb3 as [Hb3|Hb3]; [by left|].
        right. exists kg. split; [by apply elem_of_cons; left|exact Hb3].
      * right. exists kg'. split; [by apply elem_of_cons; right|exact Hm].
Qed.

Lemma elem_of_map_trades ks trades k :
  (k, trades_of trades k) ∈ map (fun k' => (k', trades_of trades k')) ks <-> k ∈ ks.
Proof.
  rewrite !list_elem_of_In, in_map_iff. split.
  - intros (x & [= -> _] & Hx). exact Hx.
  - intros H. exists k. split; [reflexivity|exact H].
Qed.

(** X1: [calculate_wallet_pnl] reports, as realized and unrealized P&L,
    the sums over the wallet's tokens (each once, in order of its first
    trade) of the FIFO results computed on exactly that token's trades in
    query order, and [total_pnl] is their sum. *)
Theorem calculate_wallet_pnl_by_token (trades : list TokTrade) (fetched : string -> option Q) :
  let res := calculate_wallet_pnl trades fetched in
  fst (fst res) == sum_Q (map (fun k => fst (fst (calculate_token_pnl (trades_of trades k) (fetched k))))
                           (first_seen_tokens trades)) /\
  snd (fst res) == sum_Q (map (fun k => snd (fst (calculate_token_pnl (trades_of trades k) (fetched k))))
                           (first_seen_tokens trades)) /\
  snd res == fst (fst res) + snd (fst res) /\
  NoDup (first_seen_tokens trades) /\
  (forall k, k ∈ first_seen_tokens trades <-> k ∈ map fst trades).
Proof.
  destruct (first_seen_inv trades) as [Hnd Hin].
  unfold calculate_wallet_pnl. rewrite group_by_token_eq.
  destruct (wallet_pnl_fold fetched (map (fun k => (k, trades_of trades k)) (first_seen_tokens trades)) 0 0)
    as [H1 H2].
  destruct (fold_left _ _ (0, 0)) as [r u]. rewrite !map_map in H1, H2. cbn [fst snd] in *.
  split; [rewrite H1; ring|]. split; [rewrite H2; ring|]. split; [reflexivity|].
  split; [exact Hnd|exact Hin].
Qed.

(** X2: the best trade multiple is at least 1, at least the multiple
    (average sell price over average buy price) of every token of the
    wallet with buys, sells and a positive average buy price, and it is
    either 1 or the multiple of one such token. *)
Theorem get_best_trade_multiple_spec (trades : list TokTrade) :
  let best := get_best_trade_multiple trades in
  1 <= best /\
  (forall k m, k ∈ map fst trades -> token_multiple (trades_of trades k) = Some m -> m <= best) /\
  (best = 1 \/ exists k, k ∈ map fst trades /\ token_multiple (trades_of trades k) = Some best).
Proof.
  destruct (first_seen_inv trades) as [_ Hin]. unfold get_best_trade_multiple.
  rewrite group_by_token_eq.
  destruct (best_multiple_fold (map (fun k => (k, trades_of trades k)) (first_seen_tokens trades)) 1)
    as (H1 & H2 & H3).
  split; [exact H1|]. split.
  - intros k m Hk Hm. apply (H2 (k, trades_of trades k)); [|exact Hm].
    apply elem_of_map_trades. by apply Hin.
  - destruct H3 as [H3|(kg & Hkg & Hm)]; [by left|]. right.
    apply list_elem_of_In, in_map_iff in Hkg as (k & <- & Hk).
    exists k. split; [apply Hin; by apply list_elem_of_In|exact Hm].
Qed.

Definition trades_3x : list TokTrade :=
  [("T", buy 100 1 100 0); ("U", buy 10 2 20 0); ("T", sell 100 3 300 0)].

Lemma get_best_trade_multiple_spec_witness :
  exists m, token_multiple (trades_of trades_3x "T") = Some m /\ m <= get_best_trade_multiple trades_3x.
Proof.
  destruct (get_best_trade_multiple_spec trades_3x) as (_ & H & _).
  destruct (token_multiple (trades_of trades_3x "T")) as [m|] eqn:E; [|vm_compute in E; discriminate].
  exists m. split; [reflexivity|].
  apply (H "T" m); [apply elem_of_cons; left; reflexivity|exact E].
Defined.

End PnlWalletFacts.

Module PnlSellFacts.
Import Pnl PnlFacts.

Lemma match_lots_nonpos T p s q r : s <= 0 -> match_lots T p s q r = (q, r).
Proof.
  intros Hs. destruct q as [|l q]; simpl;
    (assert (Qltb 0 s = false) as -> by (apply Qltb_false; exact Hs)); reflexivity.
Qed.

Lemma match_lots_qty T p s q r :
  lots_nonneg q -> 0 < s -> sum_qty (fst (match_lots T p s q r)) == Qmax 0 (sum_qty q - s).
Proof.
  revert s r. induction q as [|[[bq bp] bc] rest IH]; intros s r Hq Hs.
  - simpl. assert (Qltb 0 s = true) as -> by (apply Qltb_spec; exact Hs).
    unfold sum_qty. simpl. symmetry. apply Q.max_l. lra.
  - inversion Hq as [|? ? Hbq Hrest]; subst. unfold lot_qty in Hbq. simpl in Hbq.
    pose proof (sum_qty_nonneg rest Hrest) as Hr.
    cbn [match_lots]. assert (Qltb 0 s = true) as -> by (apply Qltb_spec; exact Hs).
    destruct (Qle_bool bq s) eqn:E.
    + apply Qle_bool_iff in E.
      destruct (Qlt_le_dec 0 (s - bq)) as [Hp|Hn].
      * rewrite IH by assumption. apply Q.max_compat; [reflexivity|].
        unfold sum_qty, lot_qty. simpl. ring.
      * rewrite match_lots_nonpos by exact Hn. cbn [fst].
        unfold sum_qty, lot_qty in *. simpl. symmetry. rewrite Q.max_r; [lra|lra].
    + apply Qle_bool_false in E. cbn [fst].
      unfold sum_qty, lot_qty in *. simpl. symmetry. rewrite Q.max_r; [ring|lra].
Qed.

(** X3: a sell of a non-positive quantity leaves the lots and the realized
    P&L unchanged; a sell of a positive quantity [s] (over lots of
    non-negative quantities) leaves [max 0 (open quantity - s)] open, and
    when [s] is covered by the open quantity it realizes exactly the sell
    proceeds net of fee minus the cost basis of the consumed lots. *)
Theorem process_sell_quantity (q : list Lot) (r : Q) (t : Trade) (q' : list Lot) (r' : Q) :
  side t = "sell" -> lots_nonneg q -> process_trade (q, r) t = (q', r') ->
  (qty_token t <= 0 -> q' = q /\ r' = r) /\
  (0 < qty_token t ->
     sum_qty q' == Qmax 0 (sum_qty q - qty_token t) /\
     (qty_token t <= sum_qty q ->
        r' == r + (usd_value t - fee_or_zero t) - (sum_cost q - sum_cost q'))).
Proof.
  intros Hside Hq Hrun. unfold process_trade in Hrun. rewrite Hside in Hrun. cbn in Hrun.
  split.
  - intros Hs. rewrite match_lots_nonpos in Hrun by exact Hs. by injection Hrun.
  - intros Hs. pose proof (match_lots_qty (qty_token t) (usd_value t - fee_or_zero t)
      (qty_token t) q r Hq Hs) as Hqty.
    rewrite Hrun in Hqty. cbn [fst] in Hqty. split; [exact Hqty|].
    intros Hcov. apply match_lots_conserve in Hrun. rewrite Hrun.
    assert (Hd : sum_qty q - sum_qty q' == qty_token t).
    { rewrite Hqty. rewrite Q.max_r by lra. ring. }
    rewrite Hd. field. lra.
Qed.

Lemma process_sell_quantity_witness :
  lots_nonneg [(100, 1, 100)] /\ 0 < 40 /\ 40 <= sum_qty [(100, 1, 100)] /\
  snd (process_trade ([(100, 1, 100)], 0) (sell 40 2 80 0)) ==
    0 + (80 - 0) - (sum_cost [(100, 1, 100)]
                    - sum_cost (fst (process_trade ([(100, 1, 100)], 0) (sell 40 2 80 0)))).
Proof.
  assert (Hq : lots_nonneg [(100, 1, 100)]) by (repeat constructor; qcmp).
  split; [exact Hq|]. split; [qcmp|]. split; [qcmp|].
  refine (proj2 (proj2 (process_sell_quantity [(100, 1, 100)] 0 (sell 40 2 80 0) _ _
            eq_refl Hq (surjective_pairing _)) _) _); qcmp.
Defined.

End PnlSellFacts.

Module PaperLedger.
Import Paper PaperFacts.

Lemma dict_del_absent k d : k ∉ map fst d -> dict_del k d = d.
Proof.
  induction d as [|[k' v'] r IH]; intros Hn; [reflexivity|].
  unfold dict_del in *. simpl in *. destruct (String.eqb k k') eqn:E.
  - apply String.eqb_eq in E. subst. exfalso. apply Hn. by apply elem_of_cons; left.
  - simpl. f_equal. apply IH. intros H. apply Hn. by apply elem_of_cons; right.
Qed.

Lemma dict_del_sub k d j : j ∈ map fst (dict_del k d) -> j ∈ map fst d.
Proof.
  induction d as [|[k' v'] r IH]; [intros H; exact H|].
  unfold dict_del in *. simpl. destruct (String.eqb k k'); simpl; intros H.
  - apply elem_of_cons; right. by apply IH.
  - apply elem_of_cons in H as [->|H]; apply elem_of_cons; [by left|right; by apply IH].
Qed.

Lemma dict_del_nodup k d : NoDup (map fst d) -> NoDup (map fst (dict_del k d)).
Proof.
  induction d as [|[k' v'] r IH]; intros Hnd; [constructor|].
  simpl in Hnd. apply NoDup_cons in Hnd as [Hn Hnd].
  unfold dict_del in *. simpl. destruct (String.eqb k k'); simpl; [by apply IH|].
  constructor; [|by apply IH]. intros H. apply Hn. by apply (dict_del_sub k).
Qed.

Lemma dict_del_forall (P : string * Position -> Prop) k d : Forall P d -> Forall P (dict_del k d).
Proof.
  induction 1 as [|kv r Hkv _ IH]; [constructor|].
  unfold dict_del in *. simpl. destruct (negb _); [constructor; assumption|exact IH].
Qed.

Lemma open_cost_del k d old :
  NoDup (map fst d) -> dict_get k d = Some old ->
  open_cost (dict_del k d) == open_cost d - p_cost_basis old.
Proof.
  induction d as [|[k' v'] r IH]; intros Hnd Hg; [discriminate|].
  simpl in Hnd. apply NoDup_cons in Hnd as [Hn Hnd]. simpl in Hg.
  unfold dict_del. simpl. destruct (String.eqb k k') eqn:E; simpl.
  - injection Hg as <-. apply String.eqb_eq in E. subst k'.
    fold (dict_del k r). rewrite dict_del_absent by exact Hn. unfold open_cost. simpl. ring.
  - fold (dict_del k r). unfold open_cost in *. simpl. rewrite IH by assumption. ring.
Qed.

Lemma open_cost_snoc d k v : open_cost (d ++ [(k, v)]) == open_cost d + p_cost_basis v.
Proof.
  induction d as [|kv r IH]; unfold open_cost in *; simpl; [ring|]. rewrite IH. ring.
Qed.

(** A same-valued replacement: what [dict_set] of an updated position
    does to the books. *)
Lemma dict_set_same k old v d :
  NoDup (map fst d) -> dict_get k d = Some old ->
  p_qty v = p_qty old -> p_entry_price v = p_entry_price old ->
  p_cost_basis v = p_cost_basis old ->
  open_cost (dict_set k v d) = open_cost d /\
  (Forall (fun kv => p_qty (snd kv) * p_entry_price (snd kv) == p_cost_basis (snd kv)) d ->
   Forall (fun kv => p_qty (snd kv) * p_entry_price (snd kv) == p_cost_basis (snd kv)) (dict_set k v d)).
Proof.
  intros Hnd Hg Hq He Hc. unfold dict_set. rewrite (dict_get_mem k d old Hg).
  clear -Hnd Hg Hq He Hc. induction d as [|[k' v'] r IH]; [discriminate|].
  simpl in Hnd. apply NoDup_cons in Hnd as [Hn Hnd]. simpl in Hg |- *.
  destruct (String.eqb k k') eqn:E; cbn [fst snd].
  - injection Hg as <-. apply String.eqb_eq in E. subst k'.
    assert (Hr : map (fun kv => if String.eqb k (fst kv) then (fst kv, v) else kv) r = r).
    { clear -Hn. induction r as [|[j w] r IH]; [reflexivity|]. simpl.
      destruct (String.eqb k j) eqn:E.
      - apply String.eqb_eq in E. subst. exfalso. apply Hn. by apply elem_of_cons; left.
      - f_equal. apply IH. intros H. apply Hn. by apply elem_of_cons; right. }
    rewrite Hr. unfold open_cost. simpl. rewrite Hc. split; [reflexivity|].
    intros Hf. inversion Hf as [|? ? H1 H2]; subst. constructor; [|exact H2].
    simpl in *. rewrite Hq, He, Hc. exact H1.
  - destruct (IH Hnd Hg) as [H1 H2]. unfold open_cost in *. simpl. rewrite H1.
    split; [reflexivity|]. intros Hf. inversion Hf; subst. constructor; [assumption|].
    by apply H2.
Qed.

Lemma set_positions_same_ledger tr k old v :
  ledger_ok tr -> dict_get k (positions tr) = Some old ->
  p_qty v = p_qty old -> p_entry_price v = p_entry_price old ->
  p_cost_basis v = p_cost_basis old ->
  ledger_ok (set_positions tr (dict_set k v (positions tr))).
Proof.
  intros (Hnd & Hf & Hb & Hw) Hg Hq He Hc.
  destruct (dict_set_same k old v (positions tr) Hnd Hg Hq He Hc) as [Ho Hf'].
  unfold ledger_ok, set_positions. cbn [positions current_balance starting_balance
    total_profit total_loss win_count loss_count closed_trades].
  rewrite dict_set_keys_mem by exact (dict_get_mem _ _ _ Hg). rewrite Ho.
  split; [exact Hnd|]. split; [by apply Hf'|]. split; [exact Hb|exact Hw].
Qed.

Lemma execute_sell_ledger tr k p r tr' o :
  ledger_ok tr -> execute_sell tr k p r = PyOk (tr', o) -> ledger_ok tr'.
Proof.
  intros (Hnd & Hf & Hb & Hw0 & Hl0 & Hwl & Hp & Hl) H. unfold execute_sell in H.
  destruct (dict_get k (positions tr)) as [pos|] eqn:Eg;
    [|injection H as <- _; repeat split; assumption].
  destruct (Qeqb (p_cost_basis pos) 0); [discriminate|].
  cbv zeta in H. set (a := Qabs (p_qty pos * p - p_cost_basis pos)) in H.
  injection H as <- _. pose proof (open_cost_del k _ pos Hnd Eg) as Hdel.
  unfold ledger_ok. cbn [positions current_balance starting_balance
    total_profit total_loss win_count loss_count closed_trades].
  split; [by apply dict_del_nodup|]. split; [by apply dict_del_forall|].
  rewrite length_app. simpl length.
  set (pv := p_qty pos * p) in *. rewrite Hdel.
  destruct (Qltb 0 (pv - p_cost_basis pos)) eqn:W; cbv iota.
  - apply Qltb_spec in W. split; [lra|]. repeat split; lia || lra.
  - apply Qltb_false in W. assert (Ha : a == - (pv - p_cost_basis pos)) by (apply Qabs_neg; lra).
    split; [lra|]. repeat split; lia || lra.
Qed.

Lemma execute_buy_ledger tr token chain price amount reason n now tr' b :
  ledger_ok tr -> dict_mem token (positions tr) = false ->
  execute_buy tr token chain price amount reason n now = PyOk (tr', b) -> ledger_ok tr'.
Proof.
  intros Hok Hm H. unfold execute_buy in H.
  destruct (Qltb (current_balance tr) amount); [by injection H as <- _|].
  destruct (Qeqb price 0) eqn:Z0; [discriminate|]. apply Qeqb_false in Z0.
  injection H as <- _. destruct Hok as (Hnd & Hf & Hb & Hw).
  unfold ledger_ok. cbn [positions current_balance starting_balance
    total_profit total_loss win_count loss_count closed_trades].
  unfold dict_set. rewrite Hm. rewrite open_cost_snoc. cbn [p_cost_basis].
  split.
  - rewrite map_app. apply NoDup_app. split; [exact Hnd|]. split; [|apply NoDup_singleton].
    intros x Hx Hx'. simpl in Hx'. apply list_elem_of_singleton in Hx'. subst x.
    apply dict_get_None_mem in Hm. destruct (dict_get token (positions tr)) eqn:G; [discriminate|].
    clear -Hx G. induction (positions tr) as [|[k v] r IH]; [inversion Hx|].
    simpl in *. destruct (String.eqb token k) eqn:E; [discriminate|].
    apply elem_of_cons in Hx as [->|Hx]; [by rewrite String.eqb_refl in E|by apply IH].
  - split; [apply Forall_app; split; [exact Hf|constructor; [|constructor]]|].
    + simpl. field. exact Z0.
    + split; [lra|exact Hw].
Qed.

Lemma execute_sell_count tr k p r tr' o :
  execute_sell tr k p r = PyOk (tr', o) ->
  length (closed_trades tr') = (length (closed_trades tr) + match o with Some _ => 1 | None => 0 end)%nat.
Proof.
  intros H. unfold execute_sell in H. destruct (dict_get k (positions tr)).
  - destruct (Qeqb _ 0); [discriminate|]. injection H as <- <-. simpl. by rewrite length_app.
  - injection H as <- <-. lia.
Qed.

Lemma pm_step_ledger price now tr c t :
  ledger_ok tr ->
  ledger_ok (fst (pm_step price now (tr, c) t)) /\
  (length (closed_trades (fst (pm_step price now (tr, c) t))) + c =
   length (closed_trades tr) + snd (pm_step price now (tr, c) t))%nat.
Proof.
  intros Hok. unfold pm_step.
  destruct (dict_get t (positions tr)) as [position|] eqn:Eg; [|split; [exact Hok|reflexivity]].
  destruct (price t) as [cp|]; [|split; [exact Hok|reflexivity]].
  destruct (Qeqb cp 0); [split; [exact Hok|reflexivity]|].
  destruct (Qeqb (p_cost_basis position) 0); [split; [exact Hok|reflexivity]|].
  destruct (exit_rules _ _ _) as [store reason].
  set (tr1 := match store with
              | Some pk => set_positions tr (dict_set t (with_peak position pk) (positions tr))
              | None => tr end).
  assert (Hok1 : ledger_ok tr1 /\ closed_trades tr1 = closed_trades tr).
  { unfold tr1. destruct store as [pk|]; [|split; [exact Hok|reflexivity]].
    split; [|reflexivity]. by apply (set_positions_same_ledger tr t position). }
  destruct Hok1 as [Hok1 Hc1].
  destruct reason as [rsn|]; [|cbn [fst snd]; rewrite Hc1; split; [exact Hok1|reflexivity]].
  destruct (execute_sell tr1 t cp rsn) as [[tr2 [ct|]]|e] eqn:Es; cbn [fst snd].
  - split; [by apply (execute_sell_ledger tr1 t cp rsn tr2 (Some ct))|].
    apply execute_sell_count in Es. rewrite Es, Hc1. lia.
  - split; [by apply (execute_sell_ledger tr1 t cp rsn tr2 None)|].
    apply execute_sell_count in Es. rewrite Es, Hc1. lia.
  - rewrite Hc1. split; [exact Hok1|reflexivity].
Qed.

End PaperLedger.

Module LedgerFacts.
Import Paper Monitor PaperFacts PaperLedger.

Lemma check_exit_fold price now keys tr c :
  ledger_ok tr ->
  ledger_ok (fst (fold_left (pm_step price now) keys (tr, c))) /\
  (length (closed_trades (fst (fold_left (pm_step price now) keys (tr, c)))) + c =
   length (closed_trades tr) + snd (fold_left (pm_step price now) keys (tr, c)))%nat.
Proof.
  revert tr c. induction keys as [|k keys IH]; intros tr c Hok; cbn [fold_left].
  - split; [exact Hok|reflexivity].
  - destruct (pm_step_ledger price now tr c k Hok) as [H1 H2].
    destruct (pm_step price now (tr, c) k) as [tr1 c1] eqn:E. cbn [fst snd] in H1, H2.
    destruct (IH tr1 c1 H1) as [H3 H4]. split; [exact H3|lia].
Qed.

Lemma execute_paper_buy_ledger tr token chain n is_meme fetched now :
  ledger_ok tr -> ledger_ok (execute_paper_buy tr token chain n is_meme fetched now).
Proof.
  intros Hok. unfold execute_paper_buy.
  destruct (negb is_meme); [exact Hok|]. destruct (3 <=? _)%nat; [exact Hok|].
  destruct (dict_mem token (positions tr)) eqn:Hm; [exact Hok|].
  destruct fetched as [cp|]; [|exact Hok]. destruct (Qeqb cp 0); [exact Hok|].
  destruct (sizing n) as [[pct tp] sl]. destruct (Qltb _ 10); [exact Hok|].
  destruct (execute_buy tr token chain cp _ _ n now) as [[tr' [|]]|e] eqn:Eb; [| |exact Hok].
  - pose proof (execute_buy_ledger _ _ _ _ _ _ _ _ _ _ Hok Hm Eb) as Hok'.
    destruct (dict_get token (positions tr')) as [pos|] eqn:Eg; [|exact Hok'].
    by apply (set_positions_same_ledger tr' token pos).
  - exact (execute_buy_ledger _ _ _ _ _ _ _ _ _ _ Hok Hm Eb).
Qed.

Lemma execute_paper_sell_ledger tr token n fetched :
  ledger_ok tr -> ledger_ok (execute_paper_sell tr token n fetched).
Proof.
  intros Hok. unfold execute_paper_sell.
  destruct (negb _); [exact Hok|]. destruct fetched as [cp|]; [|exact Hok].
  destruct (Qeqb cp 0); [exact Hok|].
  destruct (execute_sell tr token cp (WhaleExit n)) as [[tr' o]|e] eqn:Es; [|exact Hok].
  by apply (execute_sell_ledger tr token cp (WhaleExit n) tr' o).
Qed.

(** X5: the tracker's books balance from [__init__] on, and each
    successful [execute_sell], and each [execute_buy] of a token not
    already held, keeps them balanced: distinct position keys, every open
    position worth its cost at its entry price, cash plus the cost basis of
    the open positions equal to the starting balance plus total profit
    minus total loss, win and loss counts non-negative and summing to the
    number of closed trades, total profit and total loss non-negative. *)
Theorem paper_ledger_invariant :
  (forall starting : Q, ledger_ok (init_tracker starting)) /\
  (forall (tr : Tracker) (k : string) (p : Q) (r : ExitReason) (tr' : Tracker)
          (o : option ClosedTrade),
     ledger_ok tr -> execute_sell tr k p r = PyOk (tr', o) -> ledger_ok tr') /\
  (forall (tr : Tracker) (token chain : string) (price amount : Q) (reason : string)
          (n : Z) (now : Q) (tr' : Tracker) (b : bool),
     ledger_ok tr -> dict_mem token (positions tr) = false ->
     execute_buy tr token chain price amount reason n now = PyOk (tr', b) -> ledger_ok tr').
Proof.
  split; [|split].
  - intros s. unfold ledger_ok, init_tracker, open_cost. cbn.
    split; [constructor|]. split; [constructor|]. repeat split; lia || lra.
  - exact execute_sell_ledger.
  - exact execute_buy_ledger.
Qed.

Lemma ledger_tr_one_held : ledger_ok tr_one_held.
Proof.
  unfold ledger_ok, tr_one_held, open_cost. cbn [positions map fst snd].
  split; [apply NoDup_singleton|]. split; [constructor; [qcmp|constructor]|].
  repeat split; cbn; first [qcmp | lia].
Qed.

Lemma paper_ledger_invariant_witness :
  (exists tr' o, execute_sell tr_one_held "T" 2 TakeProfit = PyOk (tr', o) /\ ledger_ok tr') /\
  (exists tr' b, execute_buy tr_one_held "U" "ethereum" 2 100 "r" 2%Z 0 = PyOk (tr', b) /\
                 ledger_ok tr').
Proof.
  split.
  - eexists; eexists; split; [reflexivity|].
    refine (proj1 (proj2 paper_ledger_invariant) tr_one_held "T" 2 TakeProfit _ _
              ledger_tr_one_held _). reflexivity.
  - eexists; eexists; split; [reflexivity|].
    refine (proj2 (proj2 paper_ledger_invariant) tr_one_held "U" "ethereum" 2 100 "r" 2%Z 0 _ _
              ledger_tr_one_held _ _); reflexivity.
Defined.

(** X6: the books stay balanced through a mark cycle of
    [check_and_exit_positions], where [positions_closed] is exactly the
    number of trades appended to [closed_trades], through
    [manage_positions_job], and through the paper buy or sell that
    [monitor_watchlist_wallets] performs on a confluence. *)
Theorem position_cycles_keep_ledger :
  (forall (price : string -> option Q) (now : Q) (tr : Tracker),
     ledger_ok tr ->
     ledger_ok (fst (check_and_exit_positions price now tr)) /\
     length (closed_trades (fst (check_and_exit_positions price now tr))) =
       (length (closed_trades tr) + snd (check_and_exit_positions price now tr))%nat) /\
  (forall (price : string -> option Q) (tr : Tracker),
     ledger_ok tr -> ledger_ok (manage_positions_job price tr)) /\
  (forall (tr : Tracker) (side token chain : string)
          (evs : option (list Confluence.Entry)) (is_meme : bool) (fetched : option Q) (now : Q),
     ledger_ok tr -> ledger_ok (on_confluence tr side token chain evs is_meme fetched now)).
Proof.
  split; [|split].
  - intros price now tr Hok. unfold check_and_exit_positions.
    destruct (check_exit_fold price now (map fst (positions tr)) tr 0 Hok) as [H1 H2].
    split; [exact H1|lia].
  - intros price tr Hok. exact Hok.
  - intros tr side token chain evs is_meme fetched now Hok. unfold on_confluence.
    destruct evs as [[|e evs]|]; [exact Hok| |exact Hok].
    destruct (String.eqb side "buy"); [by apply execute_paper_buy_ledger|].
    destruct (String.eqb side "sell"); [by apply execute_paper_sell_ledger|exact Hok].
Qed.

Lemma position_cycles_keep_ledger_witness :
  ledger_ok (fst (check_and_exit_positions (fun _ => Some 2) 0 tr_one_held)) /\
  ledger_ok (manage_positions_job (fun _ => Some 2) tr_one_held) /\
  ledger_ok (on_confluence tr_one_held "buy" "U" "ethereum"
               (Some [Monitor.ev_w1; Monitor.ev_w2]) true (Some 1) 0).
Proof.
  split; [|split].
  - exact (proj1 (proj1 position_cycles_keep_ledger (fun _ => Some 2) 0 tr_one_held
                    ledger_tr_one_held)).
  - exact (proj1 (proj2 position_cycles_keep_ledger) (fun _ => Some 2) tr_one_held
             ledger_tr_one_held).
  - exact (proj2 (proj2 position_cycles_keep_ledger) tr_one_held "buy" "U" "ethereum"
             (Some [Monitor.ev_w1; Monitor.ev_w2]) true (Some 1) 0 ledger_tr_one_held).
Defined.

End LedgerFacts.

Module ReportFacts.
Import Paper PaperLedger LedgerFacts.

Lemma open_value_fold d acc :
  Forall (fun kv => p_qty (snd kv) * p_entry_price (snd kv) == p_cost_basis (snd kv)) d ->
  fold_left (fun s kv => s + p_qty (snd kv) * p_entry_price (snd kv)) d acc == acc + open_cost d.
Proof.
  revert acc. induction d as [|kv r IH]; intros acc Hf; cbn [fold_left].
  - unfold open_cost. simpl. ring.
  - inversion Hf as [|? ? H1 H2]; subst. rewrite IH by exact H2.
    unfold open_cost. cbn [fold_right]. rewrite H1. fold (open_cost r). ring.
Qed.

Lemma roi_neg_iff b s : 0 < s -> ((b - s) / s * 100 < 0 <-> b < s).
Proof.
  intros Hs. split; intros H.
  - destruct (Qlt_le_dec b s) as [H'|H']; [exact H'|].
    assert (0 <= (b - s) / s) by (apply Qle_shift_div_l; [exact Hs|lra]). lra.
  - assert ((b - s) / s < 0) by (apply Qlt_shift_div_r; [exact Hs|lra]). lra.
Qed.

Lemma grade_of_F roi : grade_of roi = "F (LOSING)" <-> roi < 0.
Proof.
  unfold grade_of.
  destruct (Qle_bool 50 roi) eqn:E1;
    [apply Qle_bool_iff in E1; split; [discriminate|lra]|].
  destruct (Qle_bool 25 roi) eqn:E2;
    [apply Qle_bool_iff in E2; split; [discriminate|lra]|].
  destruct (Qle_bool 10 roi) eqn:E3;
    [apply Qle_bool_iff in E3; split; [discriminate|lra]|].
  destruct (Qle_bool 5 roi) eqn:E4;
    [apply Qle_bool_iff in E4; split; [discriminate|lra]|].
  destruct (Qle_bool 0 roi) eqn:E5;
    [apply Qle_bool_iff in E5; split; [discriminate|lra]|].
  apply Qle_bool_false in E5. split; [intros _; exact E5|reflexivity].
Qed.

(** X7: on a tracker whose books balance and whose starting balance is
    positive, the performance report's total portfolio value (cash plus
    open positions at entry price) equals the starting balance plus the
    net P/L, the win rate lies in [0, 100], and the grade is
    ["F (LOSING)"] exactly when the cash is below the starting balance. *)
Theorem performance_report_consistent (tr : Tracker) (rep : Report) :
  ledger_ok tr -> 0 < starting_balance tr -> get_performance_report tr = PyOk rep ->
  r_total_portfolio_value rep == starting_balance tr + r_net_profit rep /\
  0 <= r_win_rate rep /\ r_win_rate rep <= 100 /\
  (r_grade rep = "F (LOSING)" <-> current_balance tr < starting_balance tr).
Proof.
  intros (Hnd & Hf & Hb & Hw0 & Hl0 & Hwl & Hp & Hl) Hs H.
  unfold get_performance_report in H.
  assert (Qeqb (starting_balance tr) 0 = false) as E
    by (apply Qeqb_false; intros E; rewrite E in Hs; discriminate).
  rewrite E in H. injection H as <-. cbn [r_total_portfolio_value r_net_profit r_win_rate r_grade].
  split; [rewrite open_value_fold by exact Hf; lra|].
  split; [|split; [|rewrite grade_of_F; by apply roi_neg_iff]].
  - destruct (0 <? _)%nat eqn:Et; [|lra].
    apply Nat.ltb_lt in Et.
    assert (HT : 0 < inject_Z (Z.of_nat (length (closed_trades tr)))).
    { change 0 with (inject_Z 0). rewrite <- Zlt_Qlt. lia. }
    assert (HW : 0 <= inject_Z (win_count tr)) by (change 0 with (inject_Z 0); rewrite <- Zle_Qle; lia).
    assert (0 <= inject_Z (win_count tr) / inject_Z (Z.of_nat (length (closed_trades tr))))
      by (apply Qle_shift_div_l; [exact HT|lra]). lra.
  - destruct (0 <? _)%nat eqn:Et; [|lra].
    apply Nat.ltb_lt in Et.
    assert (HT : 0 < inject_Z (Z.of_nat (length (closed_trades tr)))).
    { change 0 with (inject_Z 0). rewrite <- Zlt_Qlt. lia. }
    assert (HW : inject_Z (win_count tr) <= 1 * inject_Z (Z.of_nat (length (closed_trades tr))))
      by (rewrite Qmult_1_l, <- Zle_Qle; lia).
    assert (inject_Z (win_count tr) / inject_Z (Z.of_nat (length (closed_trades tr))) <= 1)
      by (apply Qle_shift_div_r; [exact HT|exact HW]). lra.
Qed.

Lemma performance_report_consistent_witness :
  exists rep, get_performance_report tr_one_held = PyOk rep /\
    r_total_portfolio_value rep == starting_balance tr_one_held + r_net_profit rep /\
    0 <= r_win_rate rep /\ r_win_rate rep <= 100 /\
    (r_grade rep = "F (LOSING)" <-> current_balance tr_one_held < starting_balance tr_one_held).
Proof.
  eexists. split; [reflexivity|].
  refine (performance_report_consistent tr_one_held _ ledger_tr_one_held _ _);
    [qcmp|reflexivity].
Defined.

End ReportFacts.

Module ExitFacts.
Import Paper Monitor PaperFacts.

Lemma execute_sell_held tr t p r pos :
  dict_get t (positions tr) = Some pos -> ~ p_cost_basis pos == 0 ->
  exists tr2 ct, execute_sell tr t p r = PyOk (tr2, Some ct) /\
    positions tr2 = dict_del t (positions tr) /\
    closed_trades tr2 = closed_trades tr ++ [ct] /\ c_token ct = t.
Proof.
  intros Hg Hc. unfold execute_sell. rewrite Hg.
  assert (Qeqb (p_cost_basis pos) 0 = false) as -> by (by apply Qeqb_false).
  do 2 eexists. split; [reflexivity|]. split; [reflexivity|]. split; reflexivity.
Qed.

Lemma execute_sell_other tr k p r tr' o t :
  k <> t -> execute_sell tr k p r = PyOk (tr', o) ->
  dict_get t (positions tr') = dict_get t (positions tr) /\
  exists new, closed_trades tr' = closed_trades tr ++ new.
Proof.
  intros Hne H. apply execute_sell_shape in H as [->|(Hp & ct & Hct & _)].
  - split; [reflexivity|]. exists []. by rewrite app_nil_r.
  - rewrite Hp, dict_get_del_ne by exact Hne. split; [reflexivity|]. by exists [ct].
Qed.

Lemma pm_step_other price now tr c k t :
  k <> t ->
  dict_get t (positions (fst (pm_step price now (tr, c) k))) = dict_get t (positions tr) /\
  exists new, closed_trades (fst (pm_step price now (tr, c) k)) = closed_trades tr ++ new.
Proof.
  intros Hne. assert (Hnil : exists new, closed_trades tr = closed_trades tr ++ new)
    by (exists []; by rewrite app_nil_r).
  unfold pm_step.
  destruct (dict_get k (positions tr)) as [position|]; [|split; [reflexivity|exact Hnil]].
  destruct (price k) as [cp|]; [|split; [reflexivity|exact Hnil]].
  destruct (Qeqb cp 0); [split; [reflexivity|exact Hnil]|].
  destruct (Qeqb (p_cost_basis position) 0); [split; [reflexivity|exact Hnil]|].
  destruct (exit_rules _ _ _) as [store reason].
  set (tr1 := match store with
              | Some pk => set_positions tr (dict_set k (with_peak position pk) (positions tr))
              | None => tr end).
  assert (H1 : dict_get t (positions tr1) = dict_get t (positions tr) /\
               closed_trades tr1 = closed_trades tr).
  { unfold tr1. destruct store as [pk|]; [|split; reflexivity].
    split; [|reflexivity]. simpl. by apply dict_get_set_ne. }
  destruct H1 as [H1 H2].
  destruct reason as [rsn|]; [|cbn [fst]; rewrite H1, H2; split; [reflexivity|exact Hnil]].
  destruct (execute_sell tr1 k cp rsn) as [[tr2 [ct|]]|e] eqn:Es; cbn [fst].
  1,2: destruct (execute_sell_other _ _ _ _ _ _ t Hne Es) as [H3 H4];
       rewrite H3, H1; split; [reflexivity|rewrite <- H2; exact H4].
  rewrite H1, H2. split; [reflexivity|exact Hnil].
Qed.

Lemma pm_step_none price now tr c k t :
  dict_get t (positions tr) = None ->
  dict_get t (positions (fst (pm_step price now (tr, c) k))) = None /\
  exists new, closed_trades (fst (pm_step price now (tr, c) k)) = closed_trades tr ++ new.
Proof.
  intros Hg. destruct (String.eqb k t) eqn:E.
  - apply String.eqb_eq in E. subst k. unfold pm_step. rewrite Hg. cbn [fst].
    split; [exact Hg|]. exists []. by rewrite app_nil_r.
  - assert (Hne : k <> t) by (intros ->; by rewrite String.eqb_refl in E).
    destruct (pm_step_other price now tr c k t Hne) as [H1 H2]. rewrite H1. split; assumption.
Qed.

Lemma exit_rules_forced pos pct hold :
  get_or (p_take_profit pos) 20 <= pct \/ pct <= get_or (p_stop_loss pos) (-15) \/ 24 <= hold ->
  exists r, exit_rules pos pct hold = (None, Some r).
Proof.
  intros H. unfold exit_rules.
  destruct (Qle_bool (get_or (p_take_profit pos) 20) pct) eqn:E1; [by eexists|].
  destruct (Qle_bool pct (get_or (p_stop_loss pos) (-15))) eqn:E2; [by eexists|].
  destruct (Qle_bool 24 hold) eqn:E3; [by eexists|].
  apply Qle_bool_false in E1, E2, E3. lra.
Qed.

Lemma check_exit_fold_forced price now t pos cp keys tr c :
  let pct := (p_qty pos * cp - p_cost_basis pos) / p_cost_basis pos * 100 in
  let hold := (now - p_bought_at pos) / 3600 in
  price t = Some cp -> ~ cp == 0 -> ~ p_cost_basis pos == 0 ->
  (get_or (p_take_profit pos) 20 <= pct \/ pct <= get_or (p_stop_loss pos) (-15) \/ 24 <= hold) ->
  t ∈ keys -> dict_get t (positions tr) = Some pos ->
  dict_get t (positions (fst (fold_left (pm_step price now) keys (tr, c)))) = None /\
  exists new, closed_trades (fst (fold_left (pm_step price now) keys (tr, c))) =
              closed_trades tr ++ new /\ Exists (fun ct => c_token ct = t) new.
Proof.
  intros pct hold Hp Hcp Hc Hrule.
  assert (Hnone : forall keys tr c, dict_get t (positions tr) = None ->
            dict_get t (positions (fst (fold_left (pm_step price now) keys (tr, c)))) = None /\
            exists new, closed_trades (fst (fold_left (pm_step price now) keys (tr, c))) =
                        closed_trades tr ++ new).
  { clear. induction keys as [|k keys IH]; intros tr c Hg; cbn [fold_left].
    - split; [exact Hg|]. exists []. by rewrite app_nil_r.
    - destruct (pm_step_none price now tr c k t Hg) as [H1 [n1 H2]].
      destruct (pm_step price now (tr, c) k) as [tr1 c1]. cbn [fst] in H1, H2.
      destruct (IH tr1 c1 H1) as [H3 [n2 H4]]. split; [exact H3|].
      exists (n1 ++ n2). by rewrite H4, H2, app_assoc. }
  revert tr c. induction keys as [|k keys IH]; intros tr c Hin Hg; [inversion Hin|].
  cbn [fold_left]. destruct (String.eqb k t) eqn:E.
  - apply String.eqb_eq in E. subst k.
    destruct (exit_rules_forced pos pct hold Hrule) as [r Hr].
    destruct (execute_sell_held tr t cp r pos Hg Hc) as (tr2 & ct & Es & Hp2 & Hc2 & Ht).
    assert (Hstep : pm_step price now (tr, c) t = (tr2, S c)).
    { unfold pm_step. rewrite Hg, Hp.
      assert (Qeqb cp 0 = false) as -> by (by apply Qeqb_false).
      assert (Qeqb (p_cost_basis pos) 0 = false) as -> by (by apply Qeqb_false).
      fold pct hold. rewrite Hr. rewrite Es. reflexivity. }
    rewrite Hstep.
    assert (Hg2 : dict_get t (positions tr2) = None) by (rewrite Hp2; apply dict_get_del_eq).
    destruct (Hnone keys tr2 (S c) Hg2) as [H1 [n H2]]. split; [exact H1|].
    exists (ct :: n). rewrite H2, Hc2, <- app_assoc. split; [reflexivity|].
    by constructor.
  - assert (Hne : k <> t) by (intros ->; by rewrite String.eqb_refl in E).
    apply elem_of_cons in Hin as [->|Hin]; [contradiction|].
    destruct (pm_step_other price now tr c k t Hne) as [H1 [n1 H2]].
    destruct (pm_step price now (tr, c) k) as [tr1 c1] eqn:Es. cbn [fst] in H1, H2.
    rewrite <- H1 in Hg. destruct (IH tr1 c1 Hin Hg) as [H3 (n2 & H4 & H5)].
    split; [exact H3|]. exists (n1 ++ n2). rewrite H4, H2, <- app_assoc.
    split; [reflexivity|]. apply Exists_app. by right.
Qed.

End ExitFacts.

Module ExitTheorems.
Import Paper PaperFacts ExitFacts.

Lemma dict_get_keys t d pos : dict_get t d = Some pos -> t ∈ map fst d.
Proof.
  induction d as [|[k v] r IH]; [discriminate|]. simpl. destruct (String.eqb t k) eqn:E.
  - apply String.eqb_eq in E. subst. intros _. by apply elem_of_cons; left.
  - intros H. apply elem_of_cons; right. by apply IH.
Qed.

(** X8: in one cycle of [check_and_exit_positions], a held position whose
    price is available and non-zero and whose cost basis is non-zero is
    sold, with a new closed trade for its token, whenever its return
    reaches its take-profit level (default 20%), falls to its stop-loss
    level (default -15%), or it has been held 24 hours or more. *)
Theorem mark_cycle_forced_exit (price : string -> option Q) (now : Q) (tr : Tracker)
    (t : string) (pos : Position) (cp : Q) :
  let pct := (p_qty pos * cp - p_cost_basis pos) / p_cost_basis pos * 100 in
  let hold := (now - p_bought_at pos) / 3600 in
  dict_get t (positions tr) = Some pos -> price t = Some cp -> ~ cp == 0 ->
  ~ p_cost_basis pos == 0 ->
  (get_or (p_take_profit pos) 20 <= pct \/ pct <= get_or (p_stop_loss pos) (-15) \/ 24 <= hold) ->
  dict_get t (positions (fst (check_and_exit_positions price now tr))) = None /\
  exists new, closed_trades (fst (check_and_exit_positions price now tr)) =
              closed_trades tr ++ new /\ Exists (fun ct => c_token ct = t) new.
Proof.
  intros pct hold Hg Hp Hcp Hc Hrule. unfold check_and_exit_positions.
  apply (check_exit_fold_forced price now t pos cp); try assumption.
  by apply (dict_get_keys t _ pos).
Qed.

Lemma mark_cycle_forced_exit_witness :
  dict_get "T" (positions tr_one_held) = Some pos_T /\
  dict_get "T" (positions (fst (check_and_exit_positions (fun _ => Some 2) 3600 tr_one_held)))
    = None.
Proof.
  split; [reflexivity|].
  refine (proj1 (mark_cycle_forced_exit (fun _ => Some 2) 3600 tr_one_held "T" pos_T 2
                   eq_refl eq_refl _ _ _)); [qcmp|qcmp|].
  left. qcmp.
Defined.

End ExitTheorems.

Module CapFacts.
Import Paper Monitor PaperFacts.

Lemma dict_del_length k d : (length (dict_del k d) <= length d)%nat.
Proof.
  induction d as [|kv r IH]; [reflexivity|]. unfold dict_del in *. simpl.
  destruct (negb _); simpl; lia.
Qed.

(** X10: the paper buy or sell that [monitor_watchlist_wallets] performs
    on a confluence never takes the number of open positions above 3, nor
    above the number already open. *)
Theorem on_confluence_position_cap (tr : Tracker) (side token chain : string)
    (evs : option (list Confluence.Entry)) (is_meme : bool) (fetched : option Q) (now : Q) :
  (length (positions (on_confluence tr side token chain evs is_meme fetched now))
     <= Nat.max 3 (length (positions tr)))%nat.
Proof.
  unfold on_confluence. destruct evs as [[|e evs]|]; [lia| |lia].
  destruct (String.eqb side "buy").
  - unfold execute_paper_buy.
    destruct (negb is_meme); [lia|]. destruct (3 <=? _)%nat eqn:L; [lia|].
    apply Nat.leb_gt in L.
    destruct (dict_mem token (positions tr)) eqn:Hm; [lia|].
    destruct fetched as [cp|]; [|lia]. destruct (Qeqb cp 0); [lia|].
    destruct (sizing _) as [[pct tp] sl]. destruct (Qltb _ 10); [lia|].
    destruct (execute_buy tr token chain cp _ _ _ now) as [[tr' b]|ex] eqn:Eb; [|lia].
    assert (Hl : (length (positions tr') <= 3)%nat).
    { unfold execute_buy in Eb. destruct (Qltb (current_balance tr) _).
      - injection Eb as <- _. lia.
      - destruct (Qeqb cp 0); [discriminate|]. injection Eb as <- _. simpl.
        unfold dict_set. rewrite Hm, length_app. simpl. lia. }
    destruct b; [|lia].
    destruct (dict_get token (positions tr')) as [pos|] eqn:Eg; [|lia]. simpl.
    rewrite <- (length_map fst), dict_set_keys_mem, length_map by exact (dict_get_mem _ _ _ Eg).
    lia.
  - destruct (String.eqb side "sell"); [|lia]. unfold execute_paper_sell.
    destruct (negb _); [lia|]. destruct fetched as [cp|]; [|lia]. destruct (Qeqb cp 0); [lia|].
    destruct (execute_sell tr token cp _) as [[tr' o]|ex] eqn:Es; [|lia].
    apply execute_sell_shape in Es as [->|(Hp & _)]; [lia|].
    rewrite Hp. pose proof (dict_del_length token (positions tr)). lia.
Qed.

End CapFacts.

Module ConfluenceExtra.
Import Confluence ConfluenceFacts.

Lemma colons_app a b : colons (a +:+ b) = (colons a + colons b)%nat.
Proof. induction a as [|c a IH]; simpl; [reflexivity|]. rewrite IH. lia. Qed.

Lemma colons_key_of side chain token :
  colons (key_of side chain token) = (3 + colons side + colons chain + colons token)%nat.
Proof. unfold key_of. rewrite !colons_app. simpl. lia. Qed.

Lemma colons_stats_key chain token :
  colons (stats_key chain token) = (2 + colons chain + colons token)%nat.
Proof. unfold stats_key. rewrite !colons_app. simpl. lia. Qed.

Lemma record_trade_other window st now token chain wallet side meta k :
  k <> key_of side chain token ->
  record_trade window st now token chain wallet side meta !! k = st !! k.
Proof.
  intros Hne. unfold record_trade, expire_key.
  destruct (Qle_bool _ 0).
  - rewrite lookup_delete_ne by congruence. by rewrite lookup_insert_ne by congruence.
  - rewrite lookup_insert_eq. rewrite lookup_insert_ne by congruence.
    by rewrite lookup_insert_ne by congruence.
Qed.

Lemma zremrangebyscore_other st key now cutoff k :
  k <> key -> zremrangebyscore st key now cutoff !! k = st !! k.
Proof.
  intros Hne. unfold zremrangebyscore. destruct (st !! key) as [z|]; [|reflexivity].
  destruct (expired z now); [by rewrite lookup_delete_ne by congruence|].
  destruct (List.filter _ _); [by rewrite lookup_delete_ne by congruence|].
  by rewrite lookup_insert_ne by congruence.
Qed.

Lemma zremrangebyscore_absent st key now cutoff :
  st !! key = None -> zremrangebyscore st key now cutoff = st.
Proof. intros H. unfold zremrangebyscore. by rewrite H. Qed.

(** X11: [get_window_stats] and [clear_token] use the key
    ["confluence:{chain}:{token}"], which has no side segment; for chain
    and token names without [":"] it differs from every key that
    [record_trade] and [check_confluence] use, so those calls never create
    it, and on a store without it the statistics report 0 buys and 0
    wallets and [clear_token] deletes nothing. *)
Theorem window_stats_key_disjoint (chain token : string) :
  colons chain = 0%nat -> colons token = 0%nat ->
  (forall side c t, stats_key chain token <> key_of side c t) /\
  (forall (st : Store) window now t c wallet side meta,
     st !! stats_key chain token = None ->
     record_trade window st now t c wallet side meta !! stats_key chain token = None) /\
  (forall (st : Store) window now t c side min_wallets,
     st !! stats_key chain token = None ->
     fst (check_confluence window st now t c side min_wallets) !! stats_key chain token = None) /\
  (forall (st : Store) window now,
     st !! stats_key chain token = None ->
     get_window_stats window st now token chain = (st, mkStats 0 0 window) /\
     clear_token st token chain = st).
Proof.
  intros Hc Ht.
  assert (Hne : forall side c t, stats_key chain token <> key_of side c t).
  { intros side c t E. apply (f_equal colons) in E.
    rewrite colons_stats_key, colons_key_of, Hc, Ht in E. lia. }
  split; [exact Hne|]. split; [|split].
  - intros st window now t c wallet side meta H. by rewrite record_trade_other by apply Hne.
  - intros st window now t c side m H. unfold check_confluence.
    destruct (Z.ltb _ _); [|destruct (Z.leb _ _)]; cbn [fst];
      by rewrite zremrangebyscore_other by apply Hne.
  - intros st window now H. unfold get_window_stats, clear_token.
    rewrite zremrangebyscore_absent by exact H. unfold live. rewrite H.
    split; [reflexivity|]. by apply delete_id.
Qed.

Lemma window_stats_key_disjoint_witness :
  colons "ethereum" = 0%nat /\ colons "0xabc" = 0%nat /\
  get_window_stats 30 (record_trade 30 ∅ 0 "0xabc" "ethereum" "W1" "buy" []) 60
    "0xabc" "ethereum"
  = (record_trade 30 ∅ 0 "0xabc" "ethereum" "W1" "buy" [], mkStats 0 0 30).
Proof.
  split; [reflexivity|]. split; [reflexivity|].
  destruct (window_stats_key_disjoint "ethereum" "0xabc" eq_refl eq_refl) as (_ & Hr & _ & Hs).
  apply (proj1 (Hs _ 30%Z 60 (Hr ∅ 30%Z 0 "0xabc" "ethereum" "W1" "buy" [] (lookup_empty _)))).
Defined.

End ConfluenceExtra.

Module ConfluenceFresh.
Import Confluence ConfluenceFacts.





End ConfluenceFresh.

Module DiscoveryExtra.
Import Discovery.

Definition registered (ws : WalletTable) (tx : Tx) : Prop :=
  forall a, tx_from tx = Some a -> a <> "" -> tx_type tx = "buy" -> is_Some (ws !! a).

Lemma fetch_step_inv token chain now ws db f tx :
  let r := fetch_step token chain now (ws, db, f) tx in
  (size r.1.1 + f = size ws + r.2)%nat /\
  (trades_reference_wallets ws db -> trades_reference_wallets r.1.1 r.1.2) /\
  (forall a, is_Some (ws !! a) -> is_Some (r.1.1 !! a)) /\
  registered r.1.1 tx.
Proof.
  unfold fetch_step. destruct (tx_from tx) as [a|] eqn:Ef.
  { destruct (String.eqb a "") eqn:Ea.
    { cbn. split; [lia|]. split; [tauto|]. split; [tauto|].
      intros a' Hf Hn. rewrite Ef in Hf. injection Hf as <-.
      apply String.eqb_eq in Ea. contradiction. }
    destruct (negb (String.eqb (tx_type tx) "buy")) eqn:Eb.
    { cbn. split; [lia|]. split; [tauto|]. split; [tauto|].
      intros a' _ _ Ht. rewrite Ht in Eb. discriminate. }
    assert (Hins : forall (w : WalletRow) (f' : nat),
      let r := (<[a := w]> ws, ingest_tx token chain now db tx, f') in
      (trades_reference_wallets ws db -> trades_reference_wallets r.1.1 r.1.2) /\
      (forall a', is_Some (ws !! a') -> is_Some (r.1.1 !! a')) /\ registered r.1.1 tx).
    { intros w f'. cbn. split; [|split].
      - intros Hfk h row Hrow. unfold ingest_tx in Hrow. rewrite Ef, Ea, Eb in Hrow.
        destruct (db !! tx_hash_of tx) eqn:Eh.
        + apply lookup_insert_is_Some'. right. by apply (Hfk h).
        + apply lookup_insert_Some in Hrow as [[<- <-]|[_ Hrow]].
          * apply lookup_insert_is_Some'. by left.
          * apply lookup_insert_is_Some'. right. by apply (Hfk h).
      - intros a' H. apply lookup_insert_is_Some'. by right.
      - intros a' Hf _ _. rewrite Ef in Hf. injection Hf as <-.
        apply lookup_insert_is_Some'. by left. }
    destruct (ws !! a) as [w|] eqn:Ew.
    - destruct (Hins (mkWalletRow (w_address w) (w_chain_id w) (w_first_seen_at w) (Some now)) f)
        as (H1 & H2 & H3).
      split; [|split; [exact H1|split; [exact H2|exact H3]]].
      cbn. rewrite map_size_insert_Some by (rewrite Ew; by eexists). lia.
    - destruct (Hins (mkWalletRow a chain now (Some now)) (S f)) as (H1 & H2 & H3).
      split; [|split; [exact H1|split; [exact H2|exact H3]]].
      cbn. rewrite map_size_insert_None by exact Ew. lia. }
  cbn. split; [lia|]. split; [tauto|]. split; [tauto|]. intros a' Hf. rewrite Ef in Hf. discriminate.
Qed.

Lemma fetch_fold_inv token chain now txs ws db f :
  let r := fold_left (fetch_step token chain now) txs (ws, db, f) in
  (size r.1.1 + f = size ws + r.2)%nat /\
  (trades_reference_wallets ws db -> trades_reference_wallets r.1.1 r.1.2) /\
  (forall a, is_Some (ws !! a) -> is_Some (r.1.1 !! a)) /\
  (forall tx, tx ∈ txs -> registered r.1.1 tx).
Proof.
  revert ws db f. induction txs as [|tx txs IH]; intros ws db f; cbn [fold_left].
  - cbn. split; [lia|]. split; [tauto|]. split; [tauto|]. intros tx H. inversion H.
  - destruct (fetch_step_inv token chain now ws db f tx) as (H1 & H2 & H3 & H4).
    destruct (fetch_step token chain now (ws, db, f) tx) as [[ws1 db1] f1] eqn:E.
    cbn in H1, H2, H3, H4.
    destruct (IH ws1 db1 f1) as (I1 & I2 & I3 & I4). cbv zeta in *.
    split; [lia|]. split; [tauto|]. split; [intros a Ha; by apply I3, H3|].
    intros tx' Hin. apply elem_of_cons in Hin as [->|Hin]; [|by apply I4].
    intros a Hf Hn Ht. apply I3. by apply H4.
Qed.

Lemma discover_fold now seeds ws db t0 :
  let r := fold_left (fun acc seed =>
    let '(ws, db, total_wallets) := acc in
    let '(token, chain, txs) := seed in
    let '(ws', db', wallets) := fetch_token_buyers token chain now ws db txs in
    (ws', db', (total_wallets + wallets)%nat)) seeds (ws, db, t0) in
  (size r.1.1 + t0 = size ws + r.2)%nat /\
  (trades_reference_wallets ws db -> trades_reference_wallets r.1.1 r.1.2) /\
  (forall a, is_Some (ws !! a) -> is_Some (r.1.1 !! a)) /\
  (forall token chain txs tx, (token, chain, txs) ∈ seeds -> tx ∈ txs -> registered r.1.1 tx).
Proof.
  revert ws db t0. induction seeds as [|[[tok ch] txs] seeds IH]; intros ws db t0; cbn [fold_left].
  - cbn. split; [lia|]. split; [tauto|]. split; [tauto|]. intros ? ? ? ? H. inversion H.
  - change (fetch_token_buyers tok ch now ws db txs) with (fold_left (fetch_step tok ch now) txs (ws, db, 0%nat)).
    destruct (fetch_fold_inv tok ch now txs ws db 0) as (H1 & H2 & H3 & H4).
    destruct (fold_left (fetch_step tok ch now) txs (ws, db, 0%nat)) as [[ws1 db1] f1] eqn:E.
    cbn in H1, H2, H3, H4.
    destruct (IH ws1 db1 (t0 + f1)%nat) as (I1 & I2 & I3 & I4). cbv zeta in *.
    split; [lia|]. split; [tauto|]. split; [intros a Ha; by apply I3, H3|].
    intros token chain txs' tx Hin Htx. apply elem_of_cons in Hin as [Hs|Hin].
    + injection Hs as -> -> ->. intros a Hf Hn Ht. apply I3. by apply (H4 tx Htx).
    + by apply (I4 token chain txs').
Qed.

(** X13: across [discover_from_seed_tokens] (and each
    [_fetch_token_buyers] it calls), the reported number of wallets found
    is exactly the number of wallet rows created; every buy transaction
    with a non-empty sender leaves a wallet row for that sender; wallet
    rows are never removed; and if every trade row referenced an existing
    wallet before, it still does after. *)
Theorem discover_wallets_spec (now : Q) (seeds : list (string * string * list Tx))
    (ws : WalletTable) (db : TradeTable) :
  let r := discover_from_seed_tokens now seeds ws db in
  size r.1.1 = (size ws + r.2)%nat /\
  (trades_reference_wallets ws db -> trades_reference_wallets r.1.1 r.1.2) /\
  (forall a, is_Some (ws !! a) -> is_Some (r.1.1 !! a)) /\
  (forall token chain txs tx a, (token, chain, txs) ∈ seeds -> tx ∈ txs ->
     tx_from tx = Some a -> a <> "" -> tx_type tx = "buy" -> is_Some (r.1.1 !! a)).
Proof.
  unfold discover_from_seed_tokens.
  destruct (discover_fold now seeds ws db 0) as (H1 & H2 & H3 & H4).
  split; [lia|]. split; [exact H2|]. split; [exact H3|].
  intros token chain txs tx a Hs Ht. by apply (H4 token chain txs tx).
Qed.

Lemma discover_wallets_spec_witness :
  trades_reference_wallets ∅ ∅ /\
  trades_reference_wallets (discover_from_seed_tokens 0 [("T", "ethereum", [tx_a])] ∅ ∅).1.1
                           (discover_from_seed_tokens 0 [("T", "ethereum", [tx_a])] ∅ ∅).1.2.
Proof.
  assert (H0 : trades_reference_wallets ∅ ∅) by (intros h r H; by rewrite lookup_empty in H).
  split; [exact H0|].
  exact (proj1 (proj2 (discover_wallets_spec 0 [("T", "ethereum", [tx_a])] ∅ ∅)) H0).
Defined.

End DiscoveryExtra.

Module MonitorScoreFacts.
Import MonitorScore.

Definition opt_le (o : option Q) (m : Q) : Prop :=
  match o with Some x => x <= m | None => True end.

(** The three-threshold ladder each component of the score is. *)
Definition opt_points (o : option Q) (c1 c2 c3 v1 v2 v3 v4 : Q) : Q :=
  if truthy_gt o c1 then v1 else if truthy_gt o c2 then v2
  else if truthy_gt o c3 then v3 else v4.

Lemma truthy_gt_some x c : 0 < c -> truthy_gt (Some x) c = Qltb c x.
Proof.
  intros Hc. unfold truthy_gt. destruct (Qltb c x) eqn:E; [|by rewrite andb_false_r].
  apply Qltb_spec in E. rewrite andb_true_r. apply negb_true_iff, Qeqb_false. lra.
Qed.

Lemma truthy_gt_mono o m c : 0 < c -> opt_le o m -> truthy_gt o c = true -> truthy_gt (Some m) c = true.
Proof.
  intros Hc Hle. destruct o as [x|]; [|discriminate]. cbn in Hle.
  rewrite !truthy_gt_some by exact Hc. rewrite !Qltb_spec. lra.
Qed.

Lemma opt_points_bounds o c1 c2 c3 v1 v2 v3 v4 :
  v2 <= v1 -> v3 <= v2 -> v4 <= v3 ->
  v4 <= opt_points o c1 c2 c3 v1 v2 v3 v4 <= v1.
Proof.
  intros. unfold opt_points.
  destruct (truthy_gt o c1), (truthy_gt o c2), (truthy_gt o c3); lra.
Qed.

Lemma opt_points_mono o m c1 c2 c3 v1 v2 v3 v4 :
  0 < c3 -> c3 < c2 -> c2 < c1 -> v2 <= v1 -> v3 <= v2 -> v4 <= v3 -> opt_le o m ->
  opt_points o c1 c2 c3 v1 v2 v3 v4 <= opt_points (Some m) c1 c2 c3 v1 v2 v3 v4.
Proof.
  intros H3 H2 H1 V1 V2 V3 Hle. unfold opt_points.
  destruct (truthy_gt o c1) eqn:A1.
  { rewrite (truthy_gt_mono o m c1) by first [assumption | lra]. lra. }
  destruct (truthy_gt o c2) eqn:A2.
  { rewrite (truthy_gt_mono o m c2) by first [assumption | lra].
    destruct (truthy_gt (Some m) c1); lra. }
  destruct (truthy_gt o c3) eqn:A3.
  { rewrite (truthy_gt_mono o m c3) by first [assumption | lra].
    destruct (truthy_gt (Some m) c1), (truthy_gt (Some m) c2); lra. }
  destruct (truthy_gt (Some m) c1), (truthy_gt (Some m) c2), (truthy_gt (Some m) c3); lra.
Qed.

Lemma prelim_split s :
  calculate_preliminary_score (Some s) ==
    opt_points (Some (realized_pnl_usd s)) 100000 50000 10000 40 30 20 10
    + opt_points (best_trade_multiple s) 10 5 3 30 20 15 5
    + opt_points (earlyscore_median s) 80 60 40 30 20 10 5.
Proof.
  unfold calculate_preliminary_score, opt_points. cbv zeta.
  rewrite !truthy_gt_some by qcmp.
  repeat match goal with |- context [if ?b then _ else _] => destruct b end; ring.
Qed.

(** X14: [_calculate_preliminary_score] is 0 without a stats row and
    between 20 and 100 with one; raising the 30-day realized P&L, the best
    trade multiple or the median EarlyScore (all else equal) never lowers
    it. *)
Theorem preliminary_score_bounds_monotone :
  calculate_preliminary_score None == 0 /\
  (forall s, 20 <= calculate_preliminary_score (Some s) <= 100) /\
  (forall s p, realized_pnl_usd s <= p ->
     calculate_preliminary_score (Some s) <=
     calculate_preliminary_score (Some (mkWalletStats30D p (best_trade_multiple s) (earlyscore_median s)))) /\
  (forall s m, opt_le (best_trade_multiple s) m ->
     calculate_preliminary_score (Some s) <=
     calculate_preliminary_score (Some (mkWalletStats30D (realized_pnl_usd s) (Some m) (earlyscore_median s)))) /\
  (forall s e, opt_le (earlyscore_median s) e ->
     calculate_preliminary_score (Some s) <=
     calculate_preliminary_score (Some (mkWalletStats30D (realized_pnl_usd s) (best_trade_multiple s) (Some e)))).
Proof.
  split; [reflexivity|]. split.
  { intros s. rewrite prelim_split.
    pose proof (opt_points_bounds (Some (realized_pnl_usd s)) 100000 50000 10000 40 30 20 10) as B1.
    pose proof (opt_points_bounds (best_trade_multiple s) 10 5 3 30 20 15 5) as B2.
    pose proof (opt_points_bounds (earlyscore_median s) 80 60 40 30 20 10 5) as B3.
    specialize (B1 ltac:(lra) ltac:(lra) ltac:(lra)).
    specialize (B2 ltac:(lra) ltac:(lra) ltac:(lra)).
    specialize (B3 ltac:(lra) ltac:(lra) ltac:(lra)). lra. }
  split; [|split].
  - intros s p Hp. rewrite !prelim_split. cbn [realized_pnl_usd best_trade_multiple earlyscore_median].
    pose proof (opt_points_mono (Some (realized_pnl_usd s)) p 100000 50000 10000 40 30 20 10) as M.
    specialize (M ltac:(lra) ltac:(lra) ltac:(lra) ltac:(lra) ltac:(lra) ltac:(lra) Hp). lra.
  - intros s m Hm. rewrite !prelim_split. cbn [realized_pnl_usd best_trade_multiple earlyscore_median].
    pose proof (opt_points_mono (best_trade_multiple s) m 10 5 3 30 20 15 5) as M.
    specialize (M ltac:(lra) ltac:(lra) ltac:(lra) ltac:(lra) ltac:(lra) ltac:(lra) Hm). lra.
  - intros s e He. rewrite !prelim_split. cbn [realized_pnl_usd best_trade_multiple earlyscore_median].
    pose proof (opt_points_mono (earlyscore_median s) e 80 60 40 30 20 10 5) as M.
    specialize (M ltac:(lra) ltac:(lra) ltac:(lra) ltac:(lra) ltac:(lra) ltac:(lra) He). lra.
Qed.

Lemma preliminary_score_bounds_monotone_witness :
  calculate_preliminary_score (Some (mkWalletStats30D 60000 None (Some 50))) <=
    calculate_preliminary_score (Some (mkWalletStats30D 200000 None (Some 50))) /\
  calculate_preliminary_score (Some (mkWalletStats30D 60000 None (Some 50))) <=
    calculate_preliminary_score (Some (mkWalletStats30D 60000 (Some 4) (Some 50))) /\
  calculate_preliminary_score (Some (mkWalletStats30D 60000 None (Some 50))) <=
    calculate_preliminary_score (Some (mkWalletStats30D 60000 None (Some 90))).
Proof.
  destruct preliminary_score_bounds_monotone as (_ & _ & Hp & Hm & He).
  split; [|split].
  - exact (Hp (mkWalletStats30D 60000 None (Some 50)) 200000 ltac:(qcmp)).
  - exact (Hm (mkWalletStats30D 60000 None (Some 50)) 4 I).
  - exact (He (mkWalletStats30D 60000 None (Some 50)) 90 ltac:(qcmp)).
Defined.

End MonitorScoreFacts.

Module EarlyRanges.
Import Early EarlyFacts.

#[local] Instance Qmax_proper' : Proper (Qeq ==> Qeq ==> Qeq) Qmax := Q.max_compat.
#[local] Instance Qmin_proper' : Proper (Qeq ==> Qeq ==> Qeq) Qmin := Q.min_compat.

Lemma clip01_mono x y : x <= y -> clip01 x <= clip01 y.
Proof. intros H. unfold clip01. apply Q.max_le_compat_l, Q.min_le_compat_r, H. Qed.

Lemma rank_score_none_zero (t : option Z) :
  calculate_rank_score None t == 40 /\ calculate_rank_score (Some 0%Z) t == 40.
Proof.
  unfold calculate_rank_score. cbv beta iota zeta.
  assert (E : (if Z.eqb 0 0 then 0%Z else 0%Z) = 0%Z) by (destruct (Z.eqb 0 0); reflexivity).
  rewrite E. change (inject_Z 0) with 0. unfold Qdiv. split; ring.
Qed.

Lemma mc_zero_or_pos l : 0 <= l -> ~ 0 < l -> calculate_mc_score (Some l) == 20.
Proof.
  intros H1 H2. unfold calculate_mc_score. cbv beta iota zeta.
  assert (Qeqb l 0 = true) as -> by (apply Qeqb_spec; lra). reflexivity.
Qed.

(** X15: the EarlyScore components stay in their documented ranges:
    the rank component is in [0, 40] whenever the earlier buyers are at
    most all buyers, and is 40 for the first buyer; the market-cap
    component is in [0, 40] for a non-negative liquidity and never grows
    with a larger positive liquidity; the volume component is in [0, 20]
    for non-negative values, 0 without any window volume, and the full 20
    once the buy is at least half of the window volume; the final score
    is clamped to [0, 100]. *)
Theorem early_components_ranges :
  (forall b t : Z, (0 <= b <= t)%Z -> 0 <= calculate_rank_score (Some b) (Some t) <= 40) /\
  (forall t, calculate_rank_score None t == 40 /\ calculate_rank_score (Some 0%Z) t == 40) /\
  (forall l, 0 <= l -> 0 <= calculate_mc_score (Some l) <= 40) /\
  (forall l1 l2, 0 < l1 -> l1 <= l2 -> calculate_mc_score (Some l2) <= calculate_mc_score (Some l1)) /\
  (forall v tv, 0 <= v -> 0 <= tv -> 0 <= calculate_volume_score (Some v) (Some tv) <= 20) /\
  (forall v, calculate_volume_score (Some v) None == 0 /\ calculate_volume_score (Some v) (Some 0) == 0) /\
  (forall v tv, 0 < tv -> tv <= 2 * v -> calculate_volume_score (Some v) (Some tv) == 20) /\
  (forall bq tq liq wb tv, 0 <= calculate_score bq tq liq wb tv <= 100).
Proof.
  split; [|split; [|split; [|split; [|split; [|split; [|split]]]]]].
  - intros b t Hbt. destruct (Z.eq_dec t 0%Z) as [->|Ht].
    + assert (b = 0%Z) as -> by lia. split; qcmp.
    + rewrite rank_score_eq by lia.
      assert (inject_Z b <= inject_Z t) by (rewrite <- Zle_Qle; lia).
      assert (0 <= inject_Z b) by (change 0 with (inject_Z 0); rewrite <- Zle_Qle; lia).
      assert (0 < inject_Z t) by (change 0 with (inject_Z 0); rewrite <- Zlt_Qlt; lia).
      assert (0 <= inject_Z b / inject_Z t) by (apply Qle_shift_div_l; lra).
      assert (inject_Z b / inject_Z t <= 1) by (apply Qle_shift_div_r; lra).
      lra.
  - exact rank_score_none_zero.
  - intros l Hl. destruct (Qlt_le_dec 0 l) as [Hp|Hn].
    + rewrite mc_score_eq by exact Hp. pose proof (clip01_bounds ((target_mc - 3 * l) / target_mc)). lra.
    + rewrite mc_zero_or_pos by lra. lra.
  - intros l1 l2 H1 H2. rewrite !mc_score_eq by lra.
    assert (clip01 ((target_mc - 3 * l2) / target_mc) <= clip01 ((target_mc - 3 * l1) / target_mc)).
    { apply clip01_mono. unfold target_mc, Qdiv. change (/ 1000000) with (1 # 1000000). lra. }
    lra.
  - intros v tv Hv Htv. destruct (Qlt_le_dec 0 tv) as [Hp|Hn].
    + rewrite vol_score_eq by exact Hp.
      assert (0 <= v / tv) by (apply Qle_shift_div_l; lra).
      assert (0 <= Qmin (v / tv) (1 # 2)) by (apply Q.min_glb; lra).
      assert (Qmin (v / tv) (1 # 2) <= 1 # 2) by apply Q.le_min_r.
      set (m := Qmin (v / tv) (1 # 2)) in *. unfold Qdiv. change (/ (1 # 2)) with (2 # 1). lra.
    + unfold calculate_volume_score. cbv beta iota zeta.
      assert (Qeqb tv 0 = true) as -> by (apply Qeqb_spec; lra). lra.
  - intros v. split; vm_compute; reflexivity.
  - intros v tv Htv Hv. rewrite vol_score_eq by exact Htv.
    assert ((1 # 2) <= v / tv) by (apply Qle_shift_div_l; lra).
    rewrite (Qmin_r' (v / tv) (1 # 2)) by exact H. reflexivity.
  - intros. unfold calculate_score. cbv zeta. split; [apply Q.le_max_l|].
    apply Q.max_lub; [lra|apply Q.le_min_l].
Qed.

Lemma early_components_ranges_witness :
  0 <= calculate_rank_score (Some 1%Z) (Some 4%Z) <= 40 /\
  0 <= calculate_mc_score (Some 1000) <= 40 /\
  calculate_mc_score (Some 2000) <= calculate_mc_score (Some 1000) /\
  0 <= calculate_volume_score (Some 30) (Some 50) <= 20 /\
  calculate_volume_score (Some 30) (Some 50) == 20.
Proof.
  destruct early_components_ranges as (Hr & _ & Hm & Hmono & Hv & _ & Hfull & _).
  split; [exact (Hr 1%Z 4%Z ltac:(lia))|].
  split; [exact (Hm 1000 ltac:(qcmp))|].
  split; [exact (Hmono 1000 2000 ltac:(qcmp) ltac:(qcmp))|].
  split; [exact (Hv 30 50 ltac:(qcmp) ltac:(qcmp))|].
  exact (Hfull 30 50 ltac:(qcmp) ltac:(qcmp)).
Defined.

End EarlyRanges.

Module MonitorLoopFacts.
Import Paper Monitor MonitorLoop PaperLedger LedgerFacts ConfluenceExtra.

(** The transactions the poller keeps: type buy or sell. *)
Definition buy_or_sell (tx : WalletTx) : bool :=
  match wt_type tx with
  | Some ty => String.eqb ty "buy" || String.eqb ty "sell"
  | None => false
  end.

Lemma collect_new_elem ls w ch n txs t :
  t ∈ collect_new ls w ch n txs ->
  exists tx, tx ∈ txs /\ buy_or_sell tx = true /\ t = new_trade w ch n tx.
Proof.
  induction txs as [|tx txs IH]; cbn [collect_new]; [intros H; inversion H|].
  destruct (opt_str_eqb _ _); [intros H; inversion H|].
  destruct (wt_type tx) as [ty|] eqn:Ety.
  - destruct (String.eqb ty "buy" || String.eqb ty "sell") eqn:Eb.
    + intros [->|H]%elem_of_cons.
      * exists tx. split; [by apply elem_of_cons; left|]. unfold buy_or_sell. by rewrite Ety, Eb.
      * destruct (IH H) as (tx' & H1 & H2 & H3). exists tx'. split; [by apply elem_of_cons; right|]. auto.
    + intros H. destruct (IH H) as (tx' & H1 & H2 & H3). exists tx'. split; [by apply elem_of_cons; right|]. auto.
  - intros H. destruct (IH H) as (tx' & H1 & H2 & H3). exists tx'. split; [by apply elem_of_cons; right|]. auto.
Qed.

Lemma collect_new_all w ch n txs :
  Forall (fun tx => wt_hash tx <> None) txs ->
  collect_new None w ch n txs = map (new_trade w ch n) (List.filter buy_or_sell txs).
Proof.
  induction txs as [|tx txs IH]; intros Hf; [reflexivity|].
  apply Forall_cons in Hf as [Hh Hf]. cbn [collect_new List.filter].
  destruct (wt_hash tx) as [x|]; [|congruence]. cbn [opt_str_eqb].
  unfold buy_or_sell at 1. destruct (wt_type tx) as [ty|].
  - destruct (String.eqb ty "buy" || String.eqb ty "sell"); cbn [map]; by rewrite IH.
  - by apply IH.
Qed.

Lemma collect_new_upto h w ch n new tx0 rest :
  Forall (fun tx => wt_hash tx <> None /\ wt_hash tx <> Some h) new -> wt_hash tx0 = Some h ->
  collect_new (Some h) w ch n (new ++ tx0 :: rest) = map (new_trade w ch n) (List.filter buy_or_sell new).
Proof.
  intros Hf H0. induction new as [|tx new IH].
  - cbn [app collect_new]. rewrite H0. cbn [opt_str_eqb]. by rewrite String.eqb_refl.
  - apply Forall_cons in Hf as [[Hn Hne] Hf]. cbn [app collect_new List.filter].
    destruct (wt_hash tx) as [x|]; [|congruence]. cbn [opt_str_eqb].
    assert (String.eqb x h = false) as -> by (apply String.eqb_neq; congruence).
    unfold buy_or_sell at 1. destruct (wt_type tx) as [ty|].
    + destruct (String.eqb ty "buy" || String.eqb ty "sell"); cbn [map]; by rewrite IH.
    + by apply IH.
Qed.

Lemma new_trade_lookup w ch n tx :
  dict_lookup (new_trade w ch n tx) "side" = None /\
  dict_lookup (new_trade w ch n tx) "token_address" = Some (opt_str (wt_token tx)) /\
  dict_lookup (new_trade w ch n tx) "chain_id" = Some (PStr ch).
Proof. split; [|split]; reflexivity. Qed.

Lemma check_wallet_trades_elem c w ch txs n t :
  t ∈ (check_wallet_for_new_trades c w ch txs n).2 ->
  exists tx, tx ∈ txs /\ buy_or_sell tx = true /\ t = new_trade w ch n tx.
Proof.
  unfold check_wallet_for_new_trades. cbv zeta.
  destruct txs as [|tx0 rest]; [apply collect_new_elem|].
  destruct (wt_hash tx0); cbn [snd]; [apply collect_new_elem|intros H; inversion H].
Qed.

(** X16: [_check_wallet_for_new_trades] returns one trade dict per buy or
    sell transaction, none of them with a ["side"] key; a first
    transaction without a hash makes it return nothing and leave the
    cache alone; with no live cache entry and hashes everywhere it
    returns every buy and sell in order; and a poll within the hour after
    a successful one returns exactly the buys and sells that came before
    the cached hash. *)
Theorem check_wallet_new_trades_spec (c : Cache) (w ch : string) (txs : list WalletTx) (now : Q) :
  let r := check_wallet_for_new_trades c w ch txs now in
  (forall t, t ∈ r.2 -> dict_lookup t "side" = None /\
     exists tx, tx ∈ txs /\ buy_or_sell tx = true /\ t = new_trade w ch now tx) /\
  (forall tx0 rest, txs = tx0 :: rest -> wt_hash tx0 = None -> r = (c, [])) /\
  (cache_get c (cache_key w) now = None -> Forall (fun tx => wt_hash tx <> None) txs ->
     r.2 = map (new_trade w ch now) (List.filter buy_or_sell txs)) /\
  (forall tx0 rest h new now', txs = tx0 :: rest -> wt_hash tx0 = Some h -> now' < now + 3600 ->
     Forall (fun tx => wt_hash tx <> None /\ wt_hash tx <> Some h) new ->
     (check_wallet_for_new_trades r.1 w ch (new ++ txs) now').2
       = map (new_trade w ch now') (List.filter buy_or_sell new)).
Proof.
  cbv zeta. split; [|split; [|split]].
  - intros t Ht. destruct (check_wallet_trades_elem c w ch txs now t Ht) as (tx & H1 & H2 & ->).
    split; [apply new_trade_lookup|]. by exists tx.
  - intros tx0 rest -> Hn. unfold check_wallet_for_new_trades. cbv zeta. by rewrite Hn.
  - intros Hc Hf. unfold check_wallet_for_new_trades. cbv zeta. rewrite Hc.
    destruct txs as [|tx0 rest]; [reflexivity|].
    destruct (wt_hash tx0) eqn:Eh; [|apply Forall_cons in Hf as [? _]; congruence].
    cbn [snd]. by apply collect_new_all.
  - intros tx0 rest h new now' -> Hh Hlt Hnew.
    assert (E1 : (check_wallet_for_new_trades c w ch (tx0 :: rest) now).1
                 = <[cache_key w := (h, now + 3600)]> c).
    { unfold check_wallet_for_new_trades. cbv zeta. by rewrite Hh. }
    rewrite E1.
    assert (E2 : cache_get (<[cache_key w := (h, now + 3600)]> c) (cache_key w) now' = Some h).
    { unfold cache_get. rewrite lookup_insert_eq. cbv beta iota.
      by rewrite (proj2 (Qltb_spec now' (now + 3600)) Hlt). }
    unfold check_wallet_for_new_trades. cbv zeta. rewrite E2.
    destruct new as [|n0 new'].
    + cbn [app]. rewrite Hh. cbn [snd].
      exact (collect_new_upto h w ch now' [] tx0 rest Hnew Hh).
    + cbn [app]. pose proof (Forall_inv Hnew) as [Hn0 _].
      destruct (wt_hash n0) eqn:Ex; [|congruence]. cbn [snd].
      exact (collect_new_upto h w ch now' (n0 :: new') tx0 rest Hnew Hh).
Qed.

Lemma check_wallet_new_trades_spec_witness :
  (check_wallet_for_new_trades
     (check_wallet_for_new_trades ∅ "W" "ethereum" [mkWalletTx (Some "0xa") (Some "buy") (Some "T") None None None None None] 0).1
     "W" "ethereum"
     ([mkWalletTx (Some "0xb") (Some "sell") (Some "T") None None None None None]
      ++ [mkWalletTx (Some "0xa") (Some "buy") (Some "T") None None None None None]) 60).2
  = map (new_trade "W" "ethereum" 60)
      (List.filter buy_or_sell [mkWalletTx (Some "0xb") (Some "sell") (Some "T") None None None None None]).
Proof.
  destruct (check_wallet_new_trades_spec ∅ "W" "ethereum"
              [mkWalletTx (Some "0xa") (Some "buy") (Some "T") None None None None None] 0)
    as (_ & _ & _ & H).
  apply (H _ [] "0xa" _ 60 eq_refl eq_refl ltac:(qcmp)).
  constructor; [split; discriminate|constructor].
Defined.

Lemma key_sell_buy ch t ch' t' : Confluence.key_of "sell" ch t <> Confluence.key_of "buy" ch' t'.
Proof. unfold Confluence.key_of. cbn. discriminate. Qed.

Lemma check_confluence_fst w st n tok ch side m :
  fst (Confluence.check_confluence w st n tok ch side m)
  = Confluence.zremrangebyscore st (Confluence.key_of side ch tok) n (n - inject_Z w * 60).
Proof.
  unfold Confluence.check_confluence. cbv zeta.
  destruct (Z.ltb _ _); [reflexivity|]. destruct (Z.leb _ _); reflexivity.
Qed.

Lemma dict_set_mem k k' v d : dict_mem k d = true -> dict_mem k (dict_set k' v d) = true.
Proof.
  intros H. unfold dict_set. destruct (dict_mem k' d).
  - unfold dict_mem in *. rewrite <- H. clear H. induction d as [|[k0 v0] d IH]; [reflexivity|].
    cbn. destruct (String.eqb k' k0); cbn; by rewrite IH.
  - unfold dict_mem in *. by rewrite existsb_app, H.
Qed.

(** What the trade loop keeps of the tracker: the closed trades, every
    held token, and the balanced books. *)
Definition round_keeps (tr tr' : Tracker) : Prop :=
  closed_trades tr' = closed_trades tr /\
  (forall k, dict_mem k (positions tr) = true -> dict_mem k (positions tr') = true) /\
  (ledger_ok tr -> ledger_ok tr').

Definition sell_keys_same (st st' : Confluence.Store) : Prop :=
  forall chain token,
    st' !! Confluence.key_of "sell" chain token = st !! Confluence.key_of "sell" chain token.

Lemma round_keeps_refl tr : round_keeps tr tr.
Proof. split; [reflexivity|]. split; auto. Qed.

Lemma round_keeps_trans a b c : round_keeps a b -> round_keeps b c -> round_keeps a c.
Proof.
  intros (H1 & H2 & H3) (G1 & G2 & G3). split; [congruence|]. split; auto.
Qed.

Lemma sell_keys_trans a b c : sell_keys_same a b -> sell_keys_same b c -> sell_keys_same a c.
Proof. intros H G ch t. by rewrite G, H. Qed.

Lemma execute_paper_buy_keeps tr token chain n is_meme fetched t :
  round_keeps tr (execute_paper_buy tr token chain n is_meme fetched t).
Proof.
  split; [|split; [|apply execute_paper_buy_ledger]].
  all: unfold execute_paper_buy.
  all: destruct (negb is_meme); [auto|]; destruct (3 <=? _)%nat; [auto|].
  all: destruct (dict_mem token (positions tr)); [auto|].
  all: destruct fetched as [cp|]; [|auto]; destruct (Qeqb cp 0); [auto|].
  all: destruct (sizing n) as [[pct tp] sl]; destruct (Qltb _ 10); [auto|].
  all: destruct (execute_buy tr token chain cp _ _ n t) as [[tr' b]|e] eqn:Eb; [|auto].
  all: assert (Hc : closed_trades tr' = closed_trades tr /\
                  forall k, dict_mem k (positions tr) = true -> dict_mem k (positions tr') = true)
         by (unfold execute_buy in Eb; destruct (Qltb _ _);
             [injection Eb as E _; subst tr'; auto
             |destruct (Qeqb cp 0); [discriminate|]; injection Eb as E _; subst tr';
              split; [reflexivity|intros k Hk; by apply dict_set_mem]]).
  all: destruct Hc as [Hc Hk]; destruct b; [|auto].
  all: destruct (dict_get token (positions tr')) as [pos|]; [|auto].
  - exact Hc.
  - intros k Hk'. apply dict_set_mem. auto.
Qed.

Section RoundFacts.
Variable float_repr : Q -> string.
Variable json_dumps : PyVal -> string.
Variable is_meme_coin : string -> string -> bool.
Variable get_token_price : string -> string -> option Q.
Variable now : Q.

Lemma process_new_trade w s w' ch n tx s' :
  process_trade float_repr json_dumps is_meme_coin get_token_price now w s (new_trade w' ch n tx) = Some s' ->
  round_keeps (m_tracker s) (m_tracker s') /\ sell_keys_same (m_confluence s) (m_confluence s').
Proof.
  intros H. destruct (new_trade_lookup w' ch n tx) as (Hs & Ht & Hc).
  unfold process_trade, dict_get_or in H. rewrite Hs, Ht, Hc in H.
  destruct (wt_token tx) as [token|]; cbn [opt_str] in H; [|discriminate].
  destruct (existsb _ _).
  { injection H as <-. split; [apply round_keeps_refl|]. intros ? ?; reflexivity. }
  cbn [py_str] in H.
  destruct (Confluence.check_confluence _ _ now token ch "buy" 2) as [st2 ev] eqn:Ec.
  assert (Hsell : sell_keys_same (m_confluence s) st2).
  { intros c' t'. change st2 with (fst (st2, ev)). rewrite <- Ec, check_confluence_fst.
    rewrite zremrangebyscore_other by apply key_sell_buy.
    apply record_trade_other, key_sell_buy. }
  destruct ev as [[|e es]|]; injection H as <-; cbn [m_tracker m_confluence];
    (split; [|exact Hsell]); try apply round_keeps_refl.
  unfold on_confluence. apply execute_paper_buy_keeps.
Qed.

Lemma process_trades_keeps w s trades :
  (forall t, t ∈ trades -> exists w' ch n tx, t = new_trade w' ch n tx) ->
  let s' := process_trades float_repr json_dumps is_meme_coin get_token_price now w s trades in
  round_keeps (m_tracker s) (m_tracker s') /\ sell_keys_same (m_confluence s) (m_confluence s').
Proof.
  revert s. induction trades as [|t trades IH]; intros s Hall; cbn [process_trades].
  { split; [apply round_keeps_refl|]. intros ? ?; reflexivity. }
  destruct (process_trade _ _ _ _ _ w s t) as [s1|] eqn:Ep.
  - destruct (Hall t ltac:(by apply elem_of_cons; left)) as (w' & ch & n & tx & ->).
    destruct (process_new_trade w s w' ch n tx s1 Ep) as [K1 S1].
    destruct (IH s1 (fun t' Ht' => Hall t' ltac:(by apply elem_of_cons; right))) as [K2 S2].
    split; [exact (round_keeps_trans _ _ _ K1 K2)|exact (sell_keys_trans _ _ _ S1 S2)].
  - split; [apply round_keeps_refl|]. intros ? ?; reflexivity.
Qed.

Lemma watchlist_fold_keeps (watchlist : list (string * string * list WalletTx)) s c :
  let r := fold_left (fun (acc : MonitorState * Cache) (w : string * string * list WalletTx) =>
      let '(s, c) := acc in
      let '(address, chain_id, recent_txs) := w in
      let '(c', new_trades) := check_wallet_for_new_trades c address chain_id recent_txs now in
      (process_trades float_repr json_dumps is_meme_coin get_token_price now address s new_trades, c'))
    watchlist (s, c) in
  round_keeps (m_tracker s) (m_tracker r.1) /\ sell_keys_same (m_confluence s) (m_confluence r.1).
Proof.
  revert s c. induction watchlist as [|[[a ch] txs] watchlist IH]; intros s c; cbn [fold_left].
  { split; [apply round_keeps_refl|]. intros ? ?; reflexivity. }
  destruct (check_wallet_for_new_trades c a ch txs now) as [c' trades] eqn:Ew.
  assert (Hall : forall t, t ∈ trades -> exists w' ch' n tx, t = new_trade w' ch' n tx).
  { intros t Ht. assert (Ht' : t ∈ (check_wallet_for_new_trades c a ch txs now).2) by by rewrite Ew.
    destruct (check_wallet_trades_elem _ _ _ _ _ _ Ht') as (tx & _ & _ & ->). by exists a, ch, now, tx. }
  destruct (process_trades_keeps a s trades Hall) as [K1 S1].
  destruct (IH (process_trades float_repr json_dumps is_meme_coin get_token_price now a s trades) c') as [K2 S2].
  split; [exact (round_keeps_trans _ _ _ K1 K2)|exact (sell_keys_trans _ _ _ S1 S2)].
Qed.

(** X17: in a round of [monitor_watchlist_wallets], the trades the poller
    returns carry no ["side"], so every one is handled as a buy: after the
    position manager's step 1, the round closes no position, drops no held
    token, writes no confluence key of the sell side, and keeps the
    tracker's books balanced. *)
Theorem monitor_round_never_sells (pm_price : string -> option Q) (tr : Tracker)
    (st : Confluence.Store) (c : Cache) (watchlist : list (string * string * list WalletTx)) :
  let tr1 := fst (check_and_exit_positions pm_price now tr) in
  let r := monitor_watchlist_wallets float_repr json_dumps is_meme_coin get_token_price now
             pm_price tr st c watchlist in
  closed_trades (m_tracker r.1) = closed_trades tr1 /\
  (forall k, dict_mem k (positions tr1) = true -> dict_mem k (positions (m_tracker r.1)) = true) /\
  (forall chain token,
     m_confluence r.1 !! Confluence.key_of "sell" chain token = st !! Confluence.key_of "sell" chain token) /\
  (ledger_ok tr -> ledger_ok (m_tracker r.1)).
Proof.
  cbv zeta. unfold monitor_watchlist_wallets.
  destruct (watchlist_fold_keeps watchlist (mkMonitorState (fst (check_and_exit_positions pm_price now tr)) st 0) c)
    as [(K1 & K2 & K3) S].
  cbn [m_tracker m_confluence] in *.
  split; [exact K1|]. split; [exact K2|]. split; [exact S|].
  intros Hok. apply K3. unfold check_and_exit_positions. exact (proj1 (check_exit_fold _ _ _ _ _ Hok)).
Qed.

End RoundFacts.

Definition tx_sell_t : WalletTx := mkWalletTx (Some "0xs") (Some "sell") (Some "T") None None None None None.

Lemma monitor_round_never_sells_witness :
  ledger_ok (m_tracker (monitor_watchlist_wallets (fun _ => "0") (fun _ => "0") (fun _ _ => true)
                          (fun _ _ => Some 1) 0 (fun _ => None) tr_one_held ∅ ∅
                          [("W", "ethereum", [tx_sell_t])]).1).
Proof.
  exact (proj2 (proj2 (proj2 (monitor_round_never_sells (fun _ => "0") (fun _ => "0") (fun _ _ => true)
           (fun _ _ => Some 1) 0 (fun _ => None) tr_one_held ∅ ∅ [("W", "ethereum", [tx_sell_t])])))
           ledger_tr_one_held).
Defined.

End MonitorLoopFacts.
